(** * PM2.5 forecast assessment: spatial matching, grid index codec,
      forecast cache, metrics and result persistence

    A shallow embedding of the evaluation engine of
    [pm25_forecast_assessment]:

    - [data_downloads/airnow.py]  : [find_nearby_monitors], and the adapter
                                    [airnow_data_download] with its hour files
    - [data_downloads/hrrr.py]    : [find_nearby_predictions]
    - [daydataclass.py]           : [Forecast], [GenericForecast],
                                    [HRRRForecast], [DailyData]; the day
                                    cache and the location cache
    - [metrics.py]                : [RMSE], [MeanExcessExposure], [IsSmokeDay]
    - [experiment.py]             : [Experiment.load_data],
                                    [evaluate_metrics], [save_results], [run]
    - [plotters.py]               : [confusion_matrix]
    - [make_latex_tables_confusion_matrix.py] : the matrices, precision
                                    and recall

    Conventions of the embedding.

    - A pandas [DataFrame] is the list of its rows, in row order.
    - A finite float64 is the rational it denotes (type [Q]); the
      not-a-number value that numpy produces for the mean of an empty
      selection is the constructor [NaN] of [np_float].  Rounding of
      float arithmetic and infinities are not represented.
    - A raised Python exception is the constructor [Raise] of [result].
    - The trigonometry is not part of the repository: [radians] (numpy)
      and the great-circle angle [haversine] (scikit-learn) are section
      variables.  The routines of scikit-learn validate their input:
      the distance matrix and the neighbour search both refuse a table
      without rows with [ValueError].
    - Candidates of the neighbour search at exactly the same distance
      are ranked in the order of the fitted table; the statements about
      the search hold for any way of breaking such ties.
    - Files are entries of a finite map from paths to contents. *)

From Stdlib Require Import ZArith QArith Qround Qabs List Lia Lqa.
From Stdlib Require Import Sorting.Sorted Permutation.
From stdpp Require Import base gmap strings list sorting pretty.
Import ListNotations.

Local Open Scope string_scope.
Local Open Scope list_scope.

(** ** Exceptions and results *)

Inductive exn : Type :=
| KeyError
| ValueError
| IndexError
| TypeError
| AttributeError
| FileNotFoundError.

Inductive result (A : Type) : Type :=
| Ok (a : A)
| Raise (e : exn).
Arguments Ok {A} a.
Arguments Raise {A} e.

Definition rbind {A B : Type} (r : result A) (k : A -> result B) : result B :=
  match r with
  | Ok a => k a
  | Raise e => Raise e
  end.

Notation "x <-! r ;; k" := (rbind r (fun x => k))
  (at level 100, r at next level, right associativity, only parsing).

Fixpoint mapM {A B : Type} (f : A -> result B) (l : list A) : result (list B) :=
  match l with
  | [] => Ok []
  | a :: rest =>
      b <-! f a ;;
      bs <-! mapM f rest ;;
      Ok (b :: bs)
  end.

(** ** Reading sets *)

(** One row of a reading table.  Station tables (AirNow) carry the
    station identifier [AQSID]; gridded tables have no such column and
    the field is unused there.  A stored concentration is a number:
    the AirNow adapter drops rows without one, and the pandas mean
    skips missing values. *)
Record Reading : Type := mkReading {
  AQSID : string;
  Latitude : Q;
  Longitude : Q;
  ValidTime : Z;
  PM25 : Q
}.

Definition DataFrame : Type := list Reading.

(** [mask.nonzero()[0]]: the positions of the true entries. *)
Fixpoint nonzero_from (i : nat) (mask : list bool) : list nat :=
  match mask with
  | [] => []
  | b :: rest =>
      if b then i :: nonzero_from (S i) rest else nonzero_from (S i) rest
  end.

Definition nonzero (mask : list bool) : list nat := nonzero_from 0 mask.

(** [df.iloc[inds]]: positional selection; a position past the end
    raises [IndexError]. *)
Definition iloc {A : Type} (df : list A) (inds : list nat) : result (list A) :=
  mapM (fun i => match nth_error df i with
                 | Some r => Ok r
                 | None => Raise IndexError
                 end) inds.

(** [df.drop_duplicates(subset="AQSID", keep="first")] *)
Fixpoint drop_duplicates_from (seen : list string) (df : DataFrame) : DataFrame :=
  match df with
  | [] => []
  | r :: rest =>
      if existsb (String.eqb (AQSID r)) seen
      then drop_duplicates_from seen rest
      else r :: drop_duplicates_from (AQSID r :: seen) rest
  end.

Definition drop_duplicates (df : DataFrame) : DataFrame :=
  drop_duplicates_from [] df.

(** [series.isin(values)] *)
Definition isin (values : list string) (s : string) : bool :=
  existsb (String.eqb s) values.

(** ** The neighbour search of scikit-learn, as the matchers use it *)

Definition LatLon : Type := (Q * Q)%type.

(** Candidates are ranked by distance; the position in the fitted table
    rides along. *)
Definition nearer (a b : Q * nat) : Prop := (fst a <= fst b)%Q.

(** The ranking of the candidates by distance.  Of two candidates at
    exactly the same distance the one that comes first in the fitted
    table is ranked first (a stable insertion sort): the search keeps
    a candidate only if it is strictly nearer than the farthest one
    kept so far, so a later candidate does not displace an earlier one
    that is equally near. *)
Fixpoint insert_by_distance (x : Q * nat) (l : list (Q * nat)) : list (Q * nat) :=
  match l with
  | [] => [x]
  | y :: rest =>
      if Qle_bool (fst x) (fst y) then x :: y :: rest
      else y :: insert_by_distance x rest
  end.

Definition rank_by_distance (l : list (Q * nat)) : list (Q * nat) :=
  fold_right insert_by_distance [] l.

(** Rational stand-ins for the trigonometry, used to run the matchers
    on concrete tables: degrees to radians with 355/113 for pi, and the
    angle between two points of one meridian (or of the equator), which
    is the difference of their latitudes (longitudes). *)
Definition deg_to_rad (x : Q) : Q := (x * (355 # 113) / 180)%Q.

Definition meridian_angle (a b : LatLon) : Q :=
  (Qabs (fst a - fst b) + Qabs (snd a - snd b))%Q.

Section Spatial.

(** [np.radians] and the great-circle angle between two points given
    in radians (the [haversine] metric of scikit-learn). *)
Variable radians : Q -> Q.
Variable haversine : LatLon -> LatLon -> Q.

(** [sklearn.metrics.pairwise.haversine_distances(X, Y)]: the matrix
    of the angles between the rows of [X] and the rows of [Y].  Both
    arrays are validated first, and an array of zero rows is refused
    with [ValueError]. *)
Definition haversine_distances (X Y : list LatLon) : result (list (list Q)) :=
  if (length X =? 0)%nat then Raise ValueError
  else if (length Y =? 0)%nat then Raise ValueError
  else Ok (map (fun x => map (haversine x) Y) X).

(** [NearestNeighbors(n_neighbors=k, metric="haversine").fit(X)
    .kneighbors([q])]: the [k] nearest rows of [X], nearest first, as
    (distances, positions).  The search refuses [k = 0], an empty
    table, and a [k] larger than the number of fitted rows. *)
Definition kneighbors (n_neighbors : nat) (X : list LatLon) (q : LatLon)
  : result (list Q * list nat) :=
  if (n_neighbors =? 0)%nat then Raise ValueError
  else if (length X =? 0)%nat then Raise ValueError
  else if (length X <? n_neighbors)%nat then Raise ValueError
  else
    let ranked :=
      firstn n_neighbors
        (rank_by_distance (combine (map (haversine q) X) (seq 0 (length X)))) in
    Ok (map fst ranked, map snd ranked).

Definition latlons_radians (df : DataFrame) : list LatLon :=
  map (fun r => (radians (Latitude r), radians (Longitude r))) df.

(** *** [hrrr.find_nearby_predictions] (radius mode) *)
Definition find_nearby_predictions
    (predictions : DataFrame) (coordinates : Q * Q) (max_distance : Q)
  : result DataFrame :=
  let pred_latlons := latlons_radians predictions in
  let coords := [(radians (fst coordinates), radians (snd coordinates))] in
  angles <-! haversine_distances coords pred_latlons ;;
  match angles with
  | [] => Raise IndexError
  | row0 :: _ =>
      let dists := map (fun a => 6371 * a)%Q row0 in
      let inds := nonzero (map (fun d => Qle_bool d max_distance) dists) in
      iloc predictions inds
  end.

(** *** [airnow.find_nearby_monitors] (nearest-K mode) *)
Definition find_nearby_monitors
    (aqs_readings : DataFrame) (coordinates : Q * Q)
    (max_distance : Q) (max_neighbors : nat)
  : result DataFrame :=
  let aqs := drop_duplicates aqs_readings in
  let monitor_latlons := latlons_radians aqs in
  let coords := (radians (fst coordinates), radians (snd coordinates)) in
  found <-! kneighbors max_neighbors monitor_latlons coords ;;
  let distances := fst found in
  let indices := snd found in
  let good_inds :=
    map snd
      (List.filter (fun di => Qle_bool (fst di * 6371) max_distance)
         (combine distances indices)) in
  ids <-! iloc (map AQSID aqs) good_inds ;;
  Ok (List.filter (fun r => isin ids (AQSID r)) aqs_readings).

(** The distance in kilometres from the target to the point of a
    row: the great-circle angle scaled by the Earth radius 6371. *)
Definition km_to (coordinates : Q * Q) (r : Reading) : Q :=
  (6371 * haversine (radians (fst coordinates), radians (snd coordinates))
                    (radians (Latitude r), radians (Longitude r)))%Q.

Definition within (coordinates : Q * Q) (max_distance : Q) (r : Reading) : bool :=
  Qle_bool (km_to coordinates r) max_distance.

End Spatial.

(** A target on the meridian 100 W and two monitors on the same
    meridian: [far_monitor] 0.3 degrees (about 33 km) and
    [near_monitor] 0.1 degrees (about 11 km) to the north. *)
Definition target_point : Q * Q := (40, -100)%Q.

Definition far_monitor (hour : Z) (pm : Q) : Reading :=
  mkReading "far" (403 # 10) (-100) hour pm.

Definition near_monitor (hour : Z) (pm : Q) : Reading :=
  mkReading "near" (401 # 10) (-100) hour pm.

Definition two_monitors : DataFrame :=
  [ far_monitor 13 20; near_monitor 13 8; far_monitor 14 22 ].

(** ** Grid index codec ([HRRRForecast]) *)

(** A row of an encoded table: the coordinate pair is replaced by its
    position in the index file. *)
Record IdxReading : Type := mkIdxReading {
  LatLonIdx : nat;
  idx_ValidTime : Z;
  idx_PM25 : Q
}.

(** Rounding to the nearest integer, ties to even: the rounding of the
    [.6f] format applied to the scaled value. *)
Definition round_half_even (q : Q) : Z :=
  let f := Qfloor q in
  match (q - inject_Z f ?= 1 # 2)%Q with
  | Lt => f
  | Gt => (f + 1)%Z
  | Eq => if Z.even f then f else (f + 1)%Z
  end.

(** [float(f"{x:.6f}")] *)
Definition round6 (q : Q) : Q :=
  Qmake (round_half_even (q * 1000000)) 1000000.

Definition round6_pair (p : LatLon) : LatLon := (round6 (fst p), round6 (snd p)).

(** Equality of two coordinate pairs as dictionary keys. *)
Definition same_latlon (a b : LatLon) : bool :=
  Qeq_bool (fst a) (fst b) && Qeq_bool (snd a) (snd b).

(** [list(set(latlons))]: one representative per distinct pair.  The
    iteration order of a Python set is unspecified (it follows the
    hashes); the model lists the pairs in order of first occurrence,
    which stands for any order: what is proved about an index built
    from a table either holds for every index that covers the table,
    or is stated up to the order of its lines. *)
Fixpoint unique_latlons (l : list LatLon) : list LatLon :=
  match l with
  | [] => []
  | p :: rest =>
      p :: List.filter (fun q => negb (same_latlon p q)) (unique_latlons rest)
  end.

(** What [np.loadtxt] returns for a two-column file: a two-dimensional
    array when the file has at least two lines; a single line is
    squeezed to the one-dimensional array of its two numbers, and an
    empty file yields an empty one-dimensional array. *)
Inductive ndarray : Type :=
| Arr1 (values : list Q)
| Arr2 (rows : list LatLon).

Definition loadtxt (lines : list LatLon) : ndarray :=
  match lines with
  | [] => Arr1 []
  | [p] => Arr1 [fst p; snd p]
  | _ => Arr2 lines
  end.

(** [np.savetxt(path, rows, fmt="%.6f")] *)
Definition savetxt (rows : list LatLon) : list LatLon := map round6_pair rows.

(** [{(latlon[0], latlon[1]): i for i, latlon in enumerate(latlon_idx)}]
    read at [key]: a later line with the same pair overwrites an
    earlier one. *)
Fixpoint idx_lookup_from (i : nat) (rows : list LatLon) (key : LatLon) : option nat :=
  match rows with
  | [] => None
  | r :: rest =>
      match idx_lookup_from (S i) rest key with
      | Some j => Some j
      | None => if same_latlon r key then Some i else None
      end
  end.

Definition idx_lookup (rows : list LatLon) (key : LatLon) : option nat :=
  idx_lookup_from 0 rows key.

Definition coords (df : DataFrame) : list LatLon :=
  map (fun r => (Latitude r, Longitude r)) df.

(** [HRRRForecast.build_latlon_idx]: the contents written to the index
    file. *)
Definition build_latlon_idx (prediction : DataFrame) : list LatLon :=
  savetxt (unique_latlons (coords prediction)).

(** [HRRRForecast.latlon_to_idx_convert].  The state is the index file
    ([None]: no file); the second component is the file afterwards. *)
Definition latlon_to_idx_convert
    (idx_file : option (list LatLon)) (prediction : DataFrame)
  : result (list IdxReading) * option (list LatLon) :=
  let lines :=
    match idx_file with
    | Some lines => lines
    | None => build_latlon_idx prediction
    end in
  let encoded :=
    match loadtxt lines with
    | Arr1 [] =>
        (* the lookup table is empty *)
        mapM (fun r : Reading => @Raise IdxReading KeyError) prediction
    | Arr1 (_ :: _) =>
        (* enumerate yields scalars; [latlon[0]] is refused *)
        Raise IndexError
    | Arr2 rows =>
        mapM (fun r =>
                match idx_lookup rows (round6 (Latitude r), round6 (Longitude r)) with
                | Some i => Ok (mkIdxReading i (ValidTime r) (PM25 r))
                | None => Raise KeyError
                end) prediction
    end in
  (encoded, Some lines).

(** [HRRRForecast.idx_to_latlon_convert] *)
Definition idx_to_latlon_convert
    (idx_file : option (list LatLon)) (prediction : list IdxReading)
  : result DataFrame :=
  match idx_file with
  | None => Raise FileNotFoundError
  | Some lines =>
      match loadtxt lines with
      | Arr1 values =>
          (* fancy indexing of a one-dimensional array, then [latlons[:, 0]] *)
          _ <-! iloc values (map LatLonIdx prediction) ;;
          Raise IndexError
      | Arr2 rows =>
          latlons <-! iloc rows (map LatLonIdx prediction) ;;
          Ok (map (fun rl : IdxReading * LatLon =>
                     mkReading "" (fst (snd rl)) (snd (snd rl))
                               (idx_ValidTime (fst rl)) (idx_PM25 (fst rl)))
                  (combine prediction latlons))
      end
  end.

(** The index file that an encoding call works with: the persisted
    one, or the one it builds from the table when none is persisted. *)
Definition index_in_force (idx_file : option (list LatLon)) (prediction : DataFrame)
  : list LatLon :=
  match idx_file with
  | Some lines => lines
  | None => build_latlon_idx prediction
  end.

(** Every rounded coordinate pair of the table occurs in the index. *)
Definition covered (lines : list LatLon) (prediction : DataFrame) : Prop :=
  forall r, In r prediction ->
    exists l, In l lines
              /\ same_latlon l (round6 (Latitude r), round6 (Longitude r)) = true.

(** A persisted two-point index, a table on another point, and a table
    with seven-decimal coordinates. *)
Definition two_point_index : list LatLon := [ (1, 2); (3, 4) ]%Q.

Definition off_grid_table : DataFrame := [ mkReading "" 5 6 13 (7 # 2) ].

Definition fine_grid_table : DataFrame :=
  [ mkReading "" (401234567 # 10000000) (-1007654321 # 10000000) 13 (7 # 2);
    mkReading "" (402 # 10) (-1003 # 10) 13 (9 # 2);
    mkReading "" (401234567 # 10000000) (-1007654321 # 10000000) 14 (5 # 2) ].

Definition single_point_table : DataFrame := [ mkReading "" 5 6 13 (7 # 2) ].

(** The row that decoding restores from an encoded row. *)
Definition decoded_row (lines : list LatLon) (e : IdxReading) : Reading :=
  mkReading "" (fst (nth (LatLonIdx e) lines (0, 0)%Q))
            (snd (nth (LatLonIdx e) lines (0, 0)%Q))
            (idx_ValidTime e) (idx_PM25 e).

(** A decoded row against the original: the coordinates are the
    original ones rounded to six decimals, hence within 1e-6, and the
    other columns are unchanged. *)
Definition restores (r r' : Reading) : Prop :=
  (Latitude r' == round6 (Latitude r))%Q
  /\ (Longitude r' == round6 (Longitude r))%Q
  /\ (Qabs (Latitude r' - Latitude r) <= 1 # 1000000)%Q
  /\ (Qabs (Longitude r' - Longitude r) <= 1 # 1000000)%Q
  /\ ValidTime r' = ValidTime r
  /\ PM25 r' = PM25 r.

(** ** Python dictionaries

    A [dict] keeps its entries in insertion order; assigning to an
    existing key keeps the key's position. *)

Definition dict (V : Type) : Type := list (string * V).

Fixpoint dict_get {V : Type} (k : string) (d : dict V) : option V :=
  match d with
  | [] => None
  | (k', v) :: rest => if String.eqb k' k then Some v else dict_get k rest
  end.

Fixpoint dict_set {V : Type} (k : string) (v : V) (d : dict V) : dict V :=
  match d with
  | [] => [(k, v)]
  | (k', v') :: rest =>
      if String.eqb k' k then (k', v) :: rest else (k', v') :: dict_set k v rest
  end.

Definition dict_remove {V : Type} (k : string) (d : dict V) : dict V :=
  List.filter (fun kv => negb (String.eqb (fst kv) k)) d.

(** [d.pop(k)] *)
Definition dict_pop {V : Type} (k : string) (d : dict V) : result (V * dict V) :=
  match dict_get k d with
  | Some v => Ok (v, dict_remove k d)
  | None => Raise KeyError
  end.

(** [{k: f(v) for k, v in d.items()}] *)
Definition dict_map {V W : Type} (f : V -> W) (d : dict V) : dict W :=
  map (fun kv => (fst kv, f (snd kv))) d.

Definition dict_mapM {V W : Type} (f : V -> result W) (d : dict V) : result (dict W) :=
  mapM (fun kv => w <-! f (snd kv) ;; Ok (fst kv, w)) d.

Definition dict_keys {V : Type} (d : dict V) : list string := map fst d.

(** ** Forecast entities and the daily aggregator ([daydataclass.py]) *)

Record Date : Type := mkDate { year : N; month : N; day : N }.

Inductive source : Type := AirNow | HRRR | CAMS | GEOSCF | NAQFC.

Record Forecast : Type := mkForecast {
  kind : source;
  _location : string;
  date : Date;
  data_directory : string;
  _name : string;
  _max_distance : option Q;
  _max_neighbors : option nat;
  _data : option DataFrame;
  _location_data : option DataFrame
}.

Definition AirNowForecast (location : string) (d : Date) (dir : string) : Forecast :=
  mkForecast AirNow location d dir "airnow" (Some 50%Q) (Some 10%nat) None None.
Definition HRRRForecast (location : string) (d : Date) (dir : string) : Forecast :=
  mkForecast HRRR location d dir "hrrr" None None None None.
Definition CAMSForecast (location : string) (d : Date) (dir : string) : Forecast :=
  mkForecast CAMS location d dir "cams" (Some 60%Q) None None None.
Definition GEOSCFForecast (location : string) (d : Date) (dir : string) : Forecast :=
  mkForecast GEOSCF location d dir "geoscf" (Some 50%Q) None None None.
Definition NAQFCForecast (location : string) (d : Date) (dir : string) : Forecast :=
  mkForecast NAQFC location d dir "naqfc" (Some 50%Q) None None None.

Record DailyData : Type := mkDailyData {
  day_date : Date;
  location_name : string;
  day_data_directory : string;
  _forecasts : option (list string)
}.

(** [DailyData.build_forecast] *)
Definition build_forecast (self : DailyData) (forecast : string) : result Forecast :=
  if String.eqb forecast "airnow" then
    Ok (AirNowForecast (location_name self) (day_date self) (day_data_directory self))
  else if String.eqb forecast "hrrr" then
    Ok (HRRRForecast (location_name self) (day_date self) (day_data_directory self))
  else if String.eqb forecast "cams" then
    Ok (CAMSForecast (location_name self) (day_date self) (day_data_directory self))
  else if String.eqb forecast "geoscf" then
    Ok (GEOSCFForecast (location_name self) (day_date self) (day_data_directory self))
  else if String.eqb forecast "naqfc" then
    Ok (NAQFCForecast (location_name self) (day_date self) (day_data_directory self))
  else Raise ValueError.

(** The names that [build_forecast] accepts. *)
Definition known_sources : list string :=
  [ "airnow"; "hrrr"; "cams"; "geoscf"; "naqfc" ].

Definition known (name : string) : bool := isin known_sources name.

(** The entity that [build_forecast] yields for a name, if any. *)
Definition built (day : DailyData) (name : string) : option Forecast :=
  match build_forecast day name with
  | Ok f => Some f
  | Raise _ => None
  end.

(** The observation entity of a day. *)
Definition airnow_of (day : DailyData) : Forecast :=
  AirNowForecast (location_name day) (day_date day) (day_data_directory day).

Fixpoint build_all (self : DailyData) (names : list string) (acc : dict Forecast)
  : result (dict Forecast) :=
  match names with
  | [] => Ok acc
  | name :: rest =>
      f <-! build_forecast self name ;;
      build_all self rest (dict_set name f acc)
  end.

(** The property [DailyData.forecasts]: a new dictionary at every
    access.  Iterating over [None] (no list configured) is a
    [TypeError]. *)
Definition forecasts (self : DailyData) : result (dict Forecast) :=
  match _forecasts self with
  | None => Raise TypeError
  | Some names => build_all self names []
  end.

(** ** numpy on short series ([metrics.py]) *)

Inductive np_float : Type :=
| Val (q : Q)
| NaN.

Definition np_sub (a b : np_float) : np_float :=
  match a, b with
  | Val x, Val y => Val (x - y)
  | _, _ => NaN
  end.

Definition np_add (a b : np_float) : np_float :=
  match a, b with
  | Val x, Val y => Val (x + y)
  | _, _ => NaN
  end.

(** [x ** 2] *)
Definition np_sq (a : np_float) : np_float :=
  match a with
  | Val x => Val (x * x)
  | NaN => NaN
  end.

Definition Qsum (l : list Q) : Q := fold_right Qplus 0%Q l.

(** [np.mean] of a column selection: the mean of an empty selection is
    not a number. *)
Definition series_mean (l : list Q) : np_float :=
  match l with
  | [] => NaN
  | _ => Val (Qsum l / inject_Z (Z.of_nat (length l)))
  end.

Definition np_sum (l : list np_float) : np_float := fold_right np_add (Val 0) l.

(** [np.mean] of a list of floats *)
Definition np_mean (l : list np_float) : np_float :=
  match l with
  | [] => NaN
  | _ =>
      match np_sum l with
      | Val s => Val (s / inject_Z (Z.of_nat (length l)))
      | NaN => NaN
      end
  end.

Definition np_min2 (a b : np_float) : np_float :=
  match a, b with
  | Val x, Val y => if Qle_bool x y then Val x else Val y
  | _, _ => NaN
  end.

Definition np_max2 (a b : np_float) : np_float :=
  match a, b with
  | Val x, Val y => if Qle_bool y x then Val x else Val y
  | _, _ => NaN
  end.

(** [np.min], [np.max]: refused on an empty list; a not-a-number entry
    makes the result not a number. *)
Definition np_min (l : list np_float) : result np_float :=
  match l with
  | [] => Raise ValueError
  | x :: rest => Ok (fold_left np_min2 rest x)
  end.

Definition np_max (l : list np_float) : result np_float :=
  match l with
  | [] => Raise ValueError
  | x :: rest => Ok (fold_left np_max2 rest x)
  end.

(** Does the candidate displace the running minimum of [np.argmin]?
    A not-a-number entry counts as smaller than every number, and the
    first of equal entries is kept. *)
Definition displaces (cand best : np_float) : bool :=
  match best, cand with
  | NaN, _ => false
  | Val _, NaN => true
  | Val b, Val c => negb (Qle_bool b c)
  end.

Fixpoint argmin_from (i best_i : nat) (best : np_float) (l : list np_float) : nat :=
  match l with
  | [] => best_i
  | x :: rest =>
      if displaces x best then argmin_from (S i) i x rest
      else argmin_from (S i) best_i best rest
  end.

Definition np_argmin (l : list np_float) : result nat :=
  match l with
  | [] => Raise ValueError
  | x :: rest => Ok (argmin_from 1 0 x rest)
  end.

(** [value > threshold]: false when the value is not a number. *)
Definition np_gt (a : np_float) (threshold : Q) : bool :=
  match a with
  | Val x => negb (Qle_bool x threshold)
  | NaN => false
  end.

(** [range(a, b)] *)
Definition range (a b : Z) : list Z :=
  map (fun i => (a + Z.of_nat i)%Z) (seq 0 (Z.to_nat (b - a))).

Definition default_hours_to_include : list Z := range 13 36.
Definition default_persistence_hour : Z := 11%Z.
Definition default_threshold : Q := 35%Q.

(** A square root to six decimals, to run the RMSE on concrete tables. *)
Definition sqrt_approx (q : Q) : Q :=
  Qmake (Z.sqrt (Qfloor (q * 1000000000000))) 1000000.

Section Metrics.

(** The table that the property [location_data] of an entity yields
    (from its cache file, built on first access). *)
Variable location_data : Forecast -> DataFrame.

(** [np.sqrt] on non-negative numbers *)
Variable sqrtQ : Q -> Q.

Definition np_sqrt (a : np_float) : np_float :=
  match a with
  | Val x => Val (sqrtQ x)
  | NaN => NaN
  end.

(** [np.mean(df.loc[df.ValidTime == h].PM25)] *)
Definition hour_mean (df : DataFrame) (h : Z) : np_float :=
  series_mean (map PM25 (List.filter (fun r => (ValidTime r =? h)%Z) df)).

Definition hourly (hours_to_include : list Z) (forecast : Forecast) : list np_float :=
  map (hour_mean (location_data forecast)) hours_to_include.

Definition squared_errors (observed predicted : list np_float) : list np_float :=
  map (fun op => np_sq (np_sub (fst op) (snd op))) (combine observed predicted).

(** [RMSE.__call__] *)
Definition RMSE_call (hours_to_include : list Z) (persistence_hour : Z)
    (day_data : DailyData) : result (dict np_float) :=
  fs <-! forecasts day_data ;;
  popped <-! dict_pop "airnow" fs ;;
  let airnow := fst popped in
  let monitor_readings := location_data airnow in
  let observed := map (hour_mean monitor_readings) hours_to_include in
  fs' <-! forecasts day_data ;;
  let predictions := dict_map (hourly hours_to_include) fs' in
  let rmses :=
    dict_map (fun predicted => np_sqrt (np_mean (squared_errors observed predicted)))
             predictions in
  let persistence := hour_mean monitor_readings persistence_hour in
  Ok (dict_set "persistence"
        (np_sqrt (np_mean (map (fun o => np_sq (np_sub o persistence)) observed)))
        rmses).

(** [MeanExcessExposure.__call__] *)
Definition MeanExcessExposure_call (hours_to_include : list Z)
    (day_data : DailyData) : result (dict np_float) :=
  fs <-! forecasts day_data ;;
  popped <-! dict_pop "airnow" fs ;;
  let airnow := fst popped in
  let monitor_readings := location_data airnow in
  let observed := map (hour_mean monitor_readings) hours_to_include in
  fs' <-! forecasts day_data ;;
  let predictions := dict_map (hourly hours_to_include) fs' in
  best_predicted_hours <-! dict_mapM np_argmin predictions ;;
  excess_exposures <-!
    dict_mapM (fun best_predicted_hour =>
                 match nth_error observed best_predicted_hour with
                 | None => Raise IndexError
                 | Some o => m <-! np_min observed ;; Ok (np_sub o m)
                 end)
              best_predicted_hours ;;
  m <-! np_min observed ;;
  Ok (dict_set "persistence" (np_sub (np_mean observed) m) excess_exposures).

(** [IsSmokeDay.__call__] *)
Definition IsSmokeDay_call (threshold : Q) (hours_to_include : list Z)
    (persistence_hour : Z) (day_data : DailyData) : result (dict bool) :=
  fs <-! forecasts day_data ;;
  popped <-! dict_pop "airnow" fs ;;
  let airnow := fst popped in
  let monitor_readings := location_data airnow in
  let observed := map (hour_mean monitor_readings) hours_to_include in
  fs' <-! forecasts day_data ;;
  let predictions := dict_map (hourly hours_to_include) fs' in
  let persistence := hour_mean monitor_readings persistence_hour in
  max_observed <-! np_max observed ;;
  max_predictions <-! dict_mapM np_max predictions ;;
  let max_persistence := persistence in
  let results := dict_map (fun max_value => np_gt max_value threshold) max_predictions in
  Ok (dict_set "observed" (np_gt max_observed threshold)
        (dict_set "persistence" (np_gt max_persistence threshold) results)).

End Metrics.

(** A day with two configured sources and three tables for it: the
    window values of the smoke-day example, those of the excess
    exposure example, and a table in which the forecast source has no
    row at hour 14. *)
Definition example_day : DailyData :=
  mkDailyData (mkDate 2023 6 7) "Boston, MA--NH Urban Area" "data"
              (Some ["airnow"; "cams"]).

Definition at_hour (h : Z) (v : Q) : Z * Q := (h, v).

Definition readings_at (station : string) (values : list (Z * Q)) : DataFrame :=
  map (fun hv => mkReading station 0 0 (fst hv) (snd hv)) values.

Definition smoke_tables (f : Forecast) : DataFrame :=
  match kind f with
  | AirNow => readings_at "m1" [at_hour 11 12; at_hour 13 10; at_hour 14 20; at_hour 15 40; at_hour 16 15]
  | CAMS => readings_at "" [at_hour 13 30; at_hour 14 12; at_hour 15 25; at_hour 16 8]
  | _ => []
  end.

Definition exposure_tables (f : Forecast) : DataFrame :=
  match kind f with
  | AirNow => readings_at "m1" [at_hour 13 50; at_hour 14 10; at_hour 15 30]
  | CAMS => readings_at "" [at_hour 13 5; at_hour 14 40; at_hour 15 20]
  | _ => []
  end.

Definition gap_tables (f : Forecast) : DataFrame :=
  match kind f with
  | AirNow => readings_at "m1" [at_hour 13 50; at_hour 14 10; at_hour 15 30]
  | CAMS => readings_at "" [at_hour 13 5; at_hour 15 20]
  | _ => []
  end.

Definition misconfigured_day : DailyData :=
  mkDailyData (mkDate 2023 6 7) "Boston, MA--NH Urban Area" "data"
              (Some ["hrrr"; "bogus"]).

Definition day_without_airnow : DailyData :=
  mkDailyData (mkDate 2023 6 7) "Boston, MA--NH Urban Area" "data"
              (Some ["hrrr"; "cams"]).

(** ** Files *)

(** [Path(a, b, c)] is the list of its components. *)
Definition path : Type := list string.

(** [Path(p).parent] *)
Definition parent (p : path) : path := removelast p.

(** The directories that [os.makedirs(p, exist_ok=True)] ensures: [p]
    and the directories above it. *)
Definition ancestors (p : path) : list path :=
  map (fun n => firstn n p) (seq 1 (length p)).

Fixpoint zeros (k : nat) : string :=
  match k with
  | O => ""
  | S k' => "0" +:+ zeros k'
  end.

(** [f"{n:0w}"] *)
Definition zfill (width : nat) (n : N) : string :=
  let s := pretty n in
  zeros (width - String.length s) +:+ s.

(** [d.strftime("%Y-%m-%d")], which is also [str(d)], for a date whose
    year has four digits.  (For a year below 1000 [str] pads the year
    with zeros, as here, while [strftime] may leave it unpadded,
    depending on the C library.) *)
Definition strftime_ymd (d : Date) : string :=
  zfill 4 (year d) +:+ "-" +:+ zfill 2 (month d) +:+ "-" +:+ zfill 2 (day d).

(** ** The lazy cache of a forecast entity ([daydataclass.py]) *)

Section ForecastCache.

(** The text of a file, and what pandas and numpy write and read. *)
Variable csv : Type.
Variable to_csv : DataFrame -> csv.
Variable read_csv : csv -> DataFrame.
Variable idx_to_csv : list IdxReading -> csv.
Variable read_idx_csv : csv -> list IdxReading.
Variable savetxt_text : list LatLon -> csv.
Variable loadtxt_text : csv -> list LatLon.

(** The source adapter of an entity ([download_fn], and
    [hrrr_data_download] for HRRR): it may leave files of its own (the
    CAMS adapter writes a month of day files) and returns a table, or
    [None] when it returns no table. *)
Variable download_fn : Forecast -> gmap path csv -> option DataFrame * gmap path csv.

Record World : Type := mkWorld {
  files : gmap path csv;
  dirs : gset path;
  adapter_calls : list Forecast
}.

(** [os.path.exists] at the path of a file (a directory never sits
    at such a path). *)
Definition path_exists (w : World) (p : path) : bool :=
  bool_decide (is_Some (files w !! p)).

Definition makedirs (p : path) (w : World) : World :=
  mkWorld (files w) (dirs w ∪ list_to_set (ancestors p)) (adapter_calls w).

Definition write_file (p : path) (c : csv) (w : World) : World :=
  mkWorld (<[p := c]> (files w)) (dirs w) (adapter_calls w).

(** Running the adapter of [self]: the call is recorded. *)
Definition call_adapter (self : Forecast) (w : World) : option DataFrame * World :=
  let r := download_fn self (files w) in
  (fst r, mkWorld (snd r) (dirs w) (adapter_calls w ++ [self])).

Definition datapath (self : Forecast) : path :=
  [ data_directory self; _name self; zfill 4 (year (date self));
    zfill 2 (month (date self)); strftime_ymd (date self) +:+ ".csv" ].

Definition latlon_idx_path (self : Forecast) : path :=
  [ data_directory self; "hrrr-latlon-idx.csv" ].

Definition is_downloaded (self : Forecast) (w : World) : bool :=
  path_exists w (datapath self).

Definition set_data (self : Forecast) (d : DataFrame) : Forecast :=
  mkForecast (kind self) (_location self) (date self) (data_directory self)
             (_name self) (_max_distance self) (_max_neighbors self)
             (Some d) (_location_data self).

(** [GenericForecast.download] *)
Definition GenericForecast_download (self : Forecast) (w : World) : result unit * World :=
  if is_downloaded self w then (Ok tt, w)
  else
    let '(data, w1) := call_adapter self w in
    let w2 := makedirs (parent (datapath self)) w1 in
    match data with
    | None => (Raise AttributeError, w2)
    | Some d => (Ok tt, write_file (datapath self) (to_csv d) w2)
    end.

(** The index file as the codec sees it. *)
Definition idx_file_of (self : Forecast) (w : World) : option (list LatLon) :=
  loadtxt_text <$> files w !! latlon_idx_path self.

(** [HRRRForecast.download] *)
Definition HRRRForecast_download (self : Forecast) (w : World) : result unit * World :=
  if is_downloaded self w then (Ok tt, w)
  else
    let '(data, w1) := call_adapter self w in
    match data with
    | None => (Raise AttributeError, w1)
    | Some d =>
        let '(encoded, idx_after) := latlon_to_idx_convert (idx_file_of self w1) d in
        let w2 :=
          match idx_file_of self w1, idx_after with
          | None, Some lines => write_file (latlon_idx_path self) (savetxt_text lines) w1
          | _, _ => w1
          end in
        match encoded with
        | Raise e => (Raise e, w2)
        | Ok rows =>
            let w3 := makedirs (parent (datapath self)) w2 in
            (Ok tt, write_file (datapath self) (idx_to_csv rows) w3)
        end
    end.

(** [self.download()], dispatched on the class of the entity *)
Definition download (self : Forecast) (w : World) : result unit * World :=
  match kind self with
  | HRRR => HRRRForecast_download self w
  | _ => GenericForecast_download self w
  end.

(** [pd.read_csv(self.datapath)], then the decoding step of HRRR *)
Definition load_day (self : Forecast) (w : World) : result DataFrame :=
  match files w !! datapath self with
  | None => Raise FileNotFoundError
  | Some c =>
      match kind self with
      | HRRR => idx_to_latlon_convert (idx_file_of self w) (read_idx_csv c)
      | _ => Ok (read_csv c)
      end
  end.

(** The property [data] ([Forecast.data], [HRRRForecast.data]): the
    table, the entity with its in-memory copy, and the world. *)
Definition data (self : Forecast) (w : World) : result (DataFrame * Forecast) * World :=
  match _data self with
  | Some d => (Ok (d, self), w)
  | None =>
      match download self w with
      | (Raise e, w1) => (Raise e, w1)
      | (Ok _, w1) =>
          match load_day self w1 with
          | Raise e => (Raise e, w1)
          | Ok d => (Ok (d, set_data self d), w1)
          end
      end
  end.

(** A fresh entity with the identity of [self]: nothing in memory. *)
Definition fresh (self : Forecast) : Forecast :=
  mkForecast (kind self) (_location self) (date self) (data_directory self)
             (_name self) (_max_distance self) (_max_neighbors self) None None.

End ForecastCache.

Arguments files {csv} w.
Arguments dirs {csv} w.
Arguments adapter_calls {csv} w.
Arguments mkWorld {csv} files dirs adapter_calls.

Arguments path_exists {csv} w p.
Arguments makedirs {csv} p w.
Arguments write_file {csv} p c w.
Arguments call_adapter {csv} download_fn self w.
Arguments is_downloaded {csv} self w.
Arguments idx_file_of {csv} loadtxt_text self w.
Arguments load_day {csv} read_csv read_idx_csv loadtxt_text self w.
Arguments download {csv} to_csv idx_to_csv savetxt_text loadtxt_text download_fn self w.
Arguments GenericForecast_download {csv} to_csv download_fn self w.
Arguments HRRRForecast_download {csv} idx_to_csv savetxt_text loadtxt_text download_fn self w.
Arguments data {csv} to_csv read_csv idx_to_csv read_idx_csv savetxt_text loadtxt_text
  download_fn self w.

(** Two entities of the same identity: same class, source name, date,
    data directory and location. *)
Definition same_identity (a b : Forecast) : Prop :=
  kind a = kind b
  /\ _name a = _name b
  /\ date a = date b
  /\ data_directory a = data_directory b
  /\ _location a = _location b.

(** The table that an access returns, or the exception it raises. *)
Definition table_of (r : result (DataFrame * Forecast)) : result DataFrame :=
  match r with
  | Ok p => Ok (fst p)
  | Raise e => Raise e
  end.

(** A concrete file system to run the cache on: a file holds a table,
    an encoded table, or the lines of the index. *)
Inductive file_text : Type :=
| TableText (df : DataFrame)
| IdxTableText (rows : list IdxReading)
| LinesText (lines : list LatLon).

Definition text_table (t : file_text) : DataFrame :=
  match t with
  | TableText df => df
  | _ => []
  end.

Definition text_idx_table (t : file_text) : list IdxReading :=
  match t with
  | IdxTableText rows => rows
  | _ => []
  end.

Definition text_lines (t : file_text) : list LatLon :=
  match t with
  | LinesText lines => lines
  | _ => []
  end.

(** An adapter that is never to be reached returns no table. *)
Definition offline_adapter (self : Forecast) (fs : gmap path file_text)
  : option DataFrame * gmap path file_text := (None, fs).

Definition run_data (self : Forecast) (w : World file_text)
  : result (DataFrame * Forecast) * World file_text :=
  data TableText text_table IdxTableText text_idx_table LinesText text_lines
       offline_adapter self w.

Definition example_date : Date := mkDate 2023 6 7.

Definition cams_entity : Forecast :=
  CAMSForecast "Boston, MA--NH Urban Area" example_date "data".

Definition hrrr_entity : Forecast :=
  HRRRForecast "Boston, MA--NH Urban Area" example_date "data".

(** The raw day file of the CAMS entity is on disk. *)
Definition cams_cached : World file_text :=
  mkWorld {[ datapath cams_entity := TableText (readings_at "" [at_hour 13 5; at_hour 14 40]) ]}
          ∅ [].

(** The raw day file of the HRRR entity is on disk, the index file
    is not. *)
Definition hrrr_cached_without_index : World file_text :=
  mkWorld {[ datapath hrrr_entity := IdxTableText [mkIdxReading 0 13 5] ]} ∅ [].

(** ** Persisting results ([experiment.py]) *)

Inductive score : Type :=
| float_score (x : np_float)
| bool_score (b : bool).

(** One day's record: metric name -> forecast name -> score. *)
Definition metric_result : Type := dict score.
Definition day_result : Type := dict metric_result.

Definition is_nan (s : score) : bool :=
  match s with
  | float_score NaN => true
  | _ => false
  end.

Definition has_nan (r : day_result) : bool :=
  existsb (fun m => existsb (fun kv => is_nan (snd kv)) (snd m)) r.

Record Experiment : Type := mkExperiment {
  location : string;
  results_directory : string
}.

Section SaveResults.

(** The JSON text of a record without missing values. *)
Variable json_text : day_result -> string.

Record Disk : Type := mkDisk {
  result_files : gmap path string;
  result_dirs : gset path;
  stdout : list string
}.

(** [json_tricks.dumps(obj)]: a not-a-number float is refused with
    [ValueError]. *)
Definition json_tricks_dumps (obj : day_result) : result string :=
  if has_nan obj then Raise ValueError else Ok (json_text obj).

(** [json_tricks.dump(obj, filepath)]: the text is produced first;
    the file is opened and written only afterwards. *)
Definition json_tricks_dump (obj : day_result) (filepath : path) (d : Disk)
  : result unit * Disk :=
  match json_tricks_dumps obj with
  | Raise e => (Raise e, d)
  | Ok txt =>
      (Ok tt, mkDisk (<[filepath := txt]> (result_files d)) (result_dirs d) (stdout d))
  end.

Definition result_path (self : Experiment) (date : string) : path :=
  [ results_directory self; location self ] ++ [ date +:+ ".json" ].

(** One iteration of the loop of [save_results]. *)
Definition save_day (self : Experiment) (date : string) (day_results : day_result)
    (d : Disk) : result unit * Disk :=
  let directory := [ results_directory self; location self ] in
  let d1 := mkDisk (result_files d)
                   (result_dirs d ∪ list_to_set (ancestors directory)) (stdout d) in
  let filepath := result_path self date in
  match json_tricks_dump day_results filepath d1 with
  | (Ok _, d2) => (Ok tt, d2)
  | (Raise ValueError, d2) =>
      (Ok tt, mkDisk (result_files d2) (result_dirs d2)
                (stdout d2 ++ ["Missing values for " +:+ date
                               +:+ ". Need to decide how to handle this."]))
  | (Raise e, d2) => (Raise e, d2)
  end.

(** [Experiment.save_results] *)
Fixpoint save_results (self : Experiment) (results : dict day_result) (d : Disk)
  : result unit * Disk :=
  match results with
  | [] => (Ok tt, d)
  | (date, day_results) :: rest =>
      match save_day self date day_results d with
      | (Ok _, d1) => save_results self rest d1
      | (Raise e, d1) => (Raise e, d1)
      end
  end.

End SaveResults.

(** A stand-in for the JSON text of a record: its metric names. *)
Definition metric_names_text (r : day_result) : string :=
  String.concat "," (dict_keys r).

(** Two days of results: the first has a missing RMSE value, the
    second is complete. *)
Definition example_experiment : Experiment :=
  mkExperiment "Boston, MA--NH Urban Area" "results".

Definition incomplete_day : day_result :=
  [ ("rmse", [ ("airnow", float_score (Val 0)); ("cams", float_score NaN) ]);
    ("smokeday", [ ("cams", bool_score false); ("observed", bool_score true) ]) ].

Definition complete_day : day_result :=
  [ ("rmse", [ ("airnow", float_score (Val 0)); ("cams", float_score (Val 3)) ]);
    ("smokeday", [ ("cams", bool_score false); ("observed", bool_score false) ]) ].

Definition example_results : dict day_result :=
  [ ("2023-06-07", incomplete_day); ("2023-06-08", complete_day) ].

Definition empty_disk : Disk := mkDisk ∅ ∅ [].

(** ** The location cache of a forecast entity ([daydataclass.py]) *)

(** [Forecast.location_datapath] *)
Definition location_datapath (self : Forecast) : path :=
  [ data_directory self; "location-data"; _location self; _name self;
    zfill 4 (year (date self)); zfill 2 (month (date self));
    strftime_ymd (date self) +:+ ".csv" ].

Definition set_location_data (self : Forecast) (d : DataFrame) : Forecast :=
  mkForecast (kind self) (_location self) (date self) (data_directory self)
             (_name self) (_max_distance self) (_max_neighbors self)
             (_data self) (Some d).

Section LocationCache.

Variable csv : Type.
Variable to_csv : DataFrame -> csv.
Variable read_csv : csv -> DataFrame.
Variable idx_to_csv : list IdxReading -> csv.
Variable read_idx_csv : csv -> list IdxReading.
Variable savetxt_text : list LatLon -> csv.
Variable loadtxt_text : csv -> list LatLon.
Variable download_fn : Forecast -> gmap path csv -> option DataFrame * gmap path csv.
Variable radians : Q -> Q.
Variable haversine : LatLon -> LatLon -> Q.

(** [locations_lookup.get_lat_lon(datadir, city_name)]: the coordinates
    of the location, or [None] when the gazetteer has no such name; it
    may leave the gazetteer file of its own on disk. *)
Variable get_lat_lon : string -> string -> gmap path csv -> option (Q * Q) * gmap path csv.

(** [Forecast.location_built] *)
Definition location_built (self : Forecast) (w : World csv) : bool :=
  path_exists w (location_datapath self).

(** The matcher call of [find_neighbor_fn] (and of
    [HRRRForecast.build_location_data], whose [max_distance] is 50) on
    the day table and the looked-up coordinates.  [np.radians] of
    [None] is a [TypeError]. *)
Definition find_neighbor_fn (self : Forecast) (day : DataFrame)
    (coordinates : option (Q * Q)) : result DataFrame :=
  match coordinates with
  | None => Raise TypeError
  | Some P =>
      match kind self with
      | AirNow =>
          match _max_distance self, _max_neighbors self with
          | Some d, Some k => find_nearby_monitors radians haversine day P d k
          | _, _ => Raise TypeError
          end
      | HRRR => find_nearby_predictions radians haversine day P 50
      | _ =>
          match _max_distance self with
          | Some d => find_nearby_predictions radians haversine day P d
          | None => Raise TypeError
          end
      end
  end.

(** [GenericForecast.build_location_data] and
    [HRRRForecast.build_location_data].  The arguments of the matcher
    are evaluated left to right: first [self.data], then
    [get_lat_lon]. *)
Definition build_location_data (self : Forecast) (w : World csv)
  : result Forecast * World csv :=
  if location_built self w then (Ok self, w)
  else
    match data to_csv read_csv idx_to_csv read_idx_csv savetxt_text loadtxt_text
               download_fn self w with
    | (Raise e, w1) => (Raise e, w1)
    | (Ok (day, self1), w1) =>
        let found := get_lat_lon (data_directory self1) (_location self1) (files w1) in
        let w2 := mkWorld (snd found) (dirs w1) (adapter_calls w1) in
        match find_neighbor_fn self1 day (fst found) with
        | Raise e => (Raise e, w2)
        | Ok neighbors =>
            let w3 := makedirs (parent (location_datapath self1)) w2 in
            match kind self1 with
            | HRRR =>
                let '(encoded, idx_after) :=
                  latlon_to_idx_convert (idx_file_of loadtxt_text self1 w3) neighbors in
                let w4 :=
                  match idx_file_of loadtxt_text self1 w3, idx_after with
                  | None, Some lines =>
                      write_file (latlon_idx_path self1) (savetxt_text lines) w3
                  | _, _ => w3
                  end in
                match encoded with
                | Raise e => (Raise e, w4)
                | Ok rows =>
                    (Ok self1, write_file (location_datapath self1) (idx_to_csv rows) w4)
                end
            | _ => (Ok self1, write_file (location_datapath self1) (to_csv neighbors) w3)
            end
        end
    end.

(** [pd.read_csv(self.location_datapath)], then the decoding step of
    HRRR *)
Definition load_location (self : Forecast) (w : World csv) : result DataFrame :=
  match files w !! location_datapath self with
  | None => Raise FileNotFoundError
  | Some c =>
      match kind self with
      | HRRR => idx_to_latlon_convert (idx_file_of loadtxt_text self w) (read_idx_csv c)
      | _ => Ok (read_csv c)
      end
  end.

(** The property [location_data] ([Forecast.location_data],
    [HRRRForecast.location_data]). *)
Definition location_data (self : Forecast) (w : World csv)
  : result (DataFrame * Forecast) * World csv :=
  match _location_data self with
  | Some d => (Ok (d, self), w)
  | None =>
      match build_location_data self w with
      | (Raise e, w1) => (Raise e, w1)
      | (Ok self1, w1) =>
          match load_location self1 w1 with
          | Raise e => (Raise e, w1)
          | Ok d => (Ok (d, set_location_data self1 d), w1)
          end
      end
  end.

End LocationCache.

Arguments location_built {csv} self w.
Arguments build_location_data {csv} to_csv read_csv idx_to_csv read_idx_csv savetxt_text
  loadtxt_text download_fn radians haversine get_lat_lon self w.
Arguments load_location {csv} read_csv read_idx_csv loadtxt_text self w.
Arguments location_data {csv} to_csv read_csv idx_to_csv read_idx_csv savetxt_text
  loadtxt_text download_fn radians haversine get_lat_lon self w.

(** ** Running an experiment ([experiment.py]) *)

(** A metric object: its [name] and its [__call__], with the scores
    wrapped for serialization. *)
Record Metric : Type := mkMetric {
  metric_name : string;
  metric_call : DailyData -> result metric_result
}.

Definition RMSE_metric (location_data : Forecast -> DataFrame) (sqrtQ : Q -> Q) : Metric :=
  mkMetric "rmse"
    (fun day =>
       r <-! RMSE_call location_data sqrtQ default_hours_to_include
                       default_persistence_hour day ;;
       Ok (dict_map float_score r)).

Definition MeanExcessExposure_metric (location_data : Forecast -> DataFrame) : Metric :=
  mkMetric "mee"
    (fun day =>
       r <-! MeanExcessExposure_call location_data default_hours_to_include day ;;
       Ok (dict_map float_score r)).

Definition IsSmokeDay_metric (location_data : Forecast -> DataFrame) : Metric :=
  mkMetric "smokeday"
    (fun day =>
       r <-! IsSmokeDay_call location_data default_threshold default_hours_to_include
                             default_persistence_hour day ;;
       Ok (dict_map bool_score r)).

(** The attributes that [Experiment.__init__] stores. *)
Record ExperimentArgs : Type := mkExperimentArgs {
  experiment : Experiment;
  start_date : Date;
  end_date : Date;
  metrics : list Metric;
  experiment_data_directory : string;
  experiment_forecasts : option (list string)
}.

Definition Date_eqb (a b : Date) : bool :=
  N.eqb (year a) (year b) && N.eqb (month a) (month b) && N.eqb (day a) (day b).

(** A dictionary keyed by dates. *)
Fixpoint date_dict_set {V : Type} (k : Date) (v : V) (d : list (Date * V))
  : list (Date * V) :=
  match d with
  | [] => [(k, v)]
  | (k', v') :: rest =>
      if Date_eqb k' k then (k', v) :: rest else (k', v') :: date_dict_set k v rest
  end.

Section Run.

(** [date + timedelta(days=i)], [(end - start).days], and the printed
    form of a date in a file name. *)
Variable add_days : Date -> nat -> Date.
Variable days_between : Date -> Date -> Z.
Variable date_str : Date -> string.
Variable json_text : day_result -> string.

(** [Experiment.load_data] *)
Definition load_data (self : ExperimentArgs) : list DailyData :=
  map (fun i =>
         mkDailyData (add_days (start_date self) i) (location (experiment self))
                     (experiment_data_directory self) (experiment_forecasts self))
      (seq 0 (Z.to_nat (days_between (start_date self) (end_date self) + 1))).

(** [{metric.name: metric(day) for metric in self.metrics}] *)
Fixpoint evaluate_day (ms : list Metric) (day : DailyData) (acc : day_result)
  : result day_result :=
  match ms with
  | [] => Ok acc
  | m :: rest =>
      r <-! metric_call m day ;;
      evaluate_day rest day (dict_set (metric_name m) r acc)
  end.

Fixpoint evaluate_days (ms : list Metric) (days : list DailyData)
    (acc : list (Date * day_result)) : result (list (Date * day_result)) :=
  match days with
  | [] => Ok acc
  | day :: rest =>
      r <-! evaluate_day ms day [] ;;
      evaluate_days ms rest (date_dict_set (day_date day) r acc)
  end.

(** [Experiment.evaluate_metrics] *)
Definition evaluate_metrics (self : ExperimentArgs) : result (list (Date * day_result)) :=
  evaluate_days (metrics self) (load_data self) [].

(** [Experiment.run] *)
Definition run (self : ExperimentArgs) (d : Disk)
  : result (list (Date * day_result)) * Disk :=
  match evaluate_metrics self with
  | Raise e => (Raise e, d)
  | Ok results =>
      match save_results json_text (experiment self)
                         (map (fun dr => (date_str (fst dr), snd dr)) results) d with
      | (Raise e, d') => (Raise e, d')
      | (Ok _, d') => (Ok results, d')
      end
  end.

End Run.

(** ** Confusion matrices ([make_latex_tables_confusion_matrix.py]) *)

Record matrix : Type := mkMatrix { TP : nat; FP : nat; FN : nat; TN : nat }.

Definition zero_matrix : matrix := mkMatrix 0 0 0 0.

(** The truth value of a stored score in a condition. *)
Definition truthy (s : score) : bool :=
  match s with
  | bool_score b => b
  | float_score (Val q) => negb (Qeq_bool q 0)
  | float_score NaN => true
  end.

(** [update_confusion_matrix] *)
Definition update_confusion_matrix (m : matrix) (predicted observed : score) : matrix :=
  if truthy predicted && truthy observed then
    mkMatrix (TP m + 1) (FP m) (FN m) (TN m)
  else if truthy predicted && negb (truthy observed) then
    mkMatrix (TP m) (FP m + 1) (FN m) (TN m)
  else if negb (truthy predicted) && truthy observed then
    mkMatrix (TP m) (FP m) (FN m + 1) (TN m)
  else if negb (truthy predicted) && negb (truthy observed) then
    mkMatrix (TP m) (FP m) (FN m) (TN m + 1)
  else m.

(** [calculate_precision_recall]; [None] is the string "--". *)
Definition calculate_precision_recall (m : matrix) : option Q * option Q :=
  ( if (TP m + FP m =? 0)%nat then None
    else Some (inject_Z (Z.of_nat (TP m)) / inject_Z (Z.of_nat (TP m + FP m)))%Q,
    if (TP m + FN m =? 0)%nat then None
    else Some (inject_Z (Z.of_nat (TP m)) / inject_Z (Z.of_nat (TP m + FN m)))%Q ).

(** [sum(matrix.values())] *)
Definition total_days (m : matrix) : nat := (TP m + FP m + FN m + TN m)%nat.

(** The loop over the models of one day file; [confusion_matrices] is
    a [defaultdict] that starts every model at zero. *)
Fixpoint tally_models (observed : score) (models : dict score) (acc : dict matrix)
  : dict matrix :=
  match models with
  | [] => acc
  | (model, predicted) :: rest =>
      if String.eqb model "observed" then tally_models observed rest acc
      else
        let m := match dict_get model acc with
                 | Some m => m
                 | None => zero_matrix
                 end in
        tally_models observed rest
          (dict_set model (update_confusion_matrix m predicted observed) acc)
  end.

(** The loop over the day files of one city. *)
Fixpoint tally_days (days : list day_result) (acc : dict matrix) : result (dict matrix) :=
  match days with
  | [] => Ok acc
  | data :: rest =>
      match dict_get "smokeday" data with
      | None => Raise KeyError
      | Some smokeday =>
          let observed := match dict_get "observed" smokeday with
                          | Some o => o
                          | None => bool_score false
                          end in
          tally_days rest (tally_models observed smokeday acc)
      end
  end.

(** The matrices of one city, after [confusion_matrices.pop('airnow', None)]. *)
Definition confusion_matrices (days : list day_result) : result (dict matrix) :=
  m <-! tally_days days [] ;;
  Ok (dict_remove "airnow" m).

(** How often a model occurs among the entries of a day's smoke-day
    record (at most once in a JSON object). *)
Definition occurrences (model : string) (data : day_result) : nat :=
  match dict_get "smokeday" data with
  | Some smokeday =>
      length (List.filter (fun kv => String.eqb (fst kv) model) smokeday)
  | None => O
  end.

(** A coordinate pair with at most six decimals, as every line of an
    index file written by [np.savetxt] with the format [%.6f]. *)
Definition six_decimals (l : LatLon) : Prop :=
  (round6 (fst l) == fst l)%Q /\ (round6 (snd l) == snd l)%Q.

(** Two rows that agree in every column, the coordinates as numbers. *)
Definition same_row (a b : Reading) : Prop :=
  (Latitude a == Latitude b)%Q
  /\ (Longitude a == Longitude b)%Q
  /\ ValidTime a = ValidTime b
  /\ PM25 a = PM25 b.

(** ** Concrete adapters, gazetteers and experiments *)

Definition empty_world : World file_text := mkWorld ∅ ∅ [].

(** An adapter that saves the day file itself and has no return
    value. *)
Definition self_saving_adapter (self : Forecast) (fs : gmap path file_text)
  : option DataFrame * gmap path file_text :=
  (None, <[datapath self := TableText (readings_at "" [at_hour 13 5; at_hour 14 40])]> fs).

(** An adapter that returns a gridded table and writes nothing. *)
Definition grid_adapter (self : Forecast) (fs : gmap path file_text)
  : option DataFrame * gmap path file_text := (Some fine_grid_table, fs).

(** A gazetteer lookup with a fixed answer that writes nothing. *)
Definition gazetteer (answer : option (Q * Q)) (datadir city_name : string)
    (fs : gmap path file_text) : option (Q * Q) * gmap path file_text :=
  (answer, fs).

Definition airnow_entity : Forecast :=
  AirNowForecast "Boston, MA--NH Urban Area" example_date "data".

(** The raw day file of the CAMS entity holds the two stations. *)
Definition cams_day_on_disk : World file_text :=
  mkWorld {[ datapath cams_entity := TableText two_monitors ]} ∅ [].

(** Only the location file of the CAMS entity is on disk. *)
Definition cams_location_on_disk : World file_text :=
  mkWorld {[ location_datapath cams_entity := TableText [near_monitor 13 8] ]} ∅ [].

(** The raw day file of the observation source holds two monitors. *)
Definition airnow_day_on_disk : World file_text :=
  mkWorld {[ datapath airnow_entity := TableText two_monitors ]} ∅ [].

(** A forecast that predicts exactly what was observed. *)
Definition exact_tables (f : Forecast) : DataFrame :=
  match kind f with
  | AirNow => readings_at "m1" [at_hour 13 50; at_hour 14 10; at_hour 15 30]
  | CAMS => readings_at "" [at_hour 13 50; at_hour 14 10; at_hour 15 30]
  | _ => []
  end.

(** A calendar that stays inside one month. *)
Definition add_days_in_month (d : Date) (i : nat) : Date :=
  mkDate (year d) (month d) (day d + N.of_nat i).

Definition days_between_in_month (a b : Date) : Z := (Z.of_N (day b) - Z.of_N (day a))%Z.

(** Two days, a source name that no class implements. *)
Definition misconfigured_experiment : ExperimentArgs :=
  mkExperimentArgs example_experiment (mkDate 2023 6 7) (mkDate 2023 6 8)
                   [ IsSmokeDay_metric smoke_tables ] "data" (Some ["airnow"; "wrf"]).

(** The argument [forecasts] left at its default. *)
Definition default_experiment : ExperimentArgs :=
  mkExperimentArgs example_experiment (mkDate 2023 6 7) (mkDate 2023 6 8)
                   [ RMSE_metric exposure_tables sqrt_approx;
                     IsSmokeDay_metric smoke_tables ] "data" None.

(** The end date precedes the start date. *)
Definition backwards_experiment : ExperimentArgs :=
  mkExperimentArgs example_experiment (mkDate 2023 6 8) (mkDate 2023 6 7)
                   [ IsSmokeDay_metric smoke_tables ] "data" (Some ["airnow"; "cams"]).

(** The days counted so far for a model. *)
Definition counted (model : string) (acc : dict matrix) : nat :=
  match dict_get model acc with
  | Some m => total_days m
  | None => O
  end.

Definition entries_of (model : string) (models : dict score) : nat :=
  length (List.filter (fun kv => String.eqb (fst kv) model) models).

(** The flag that a day's record holds for "observed", [False] when it
    has none. *)
Definition observed_flag (data : day_result) : score :=
  match dict_get "smokeday" data with
  | Some smokeday =>
      match dict_get "observed" smokeday with
      | Some o => o
      | None => bool_score false
      end
  | None => bool_score false
  end.

Definition model_flags (model : string) (data : day_result) : list score :=
  match dict_get "smokeday" data with
  | Some smokeday =>
      map snd (List.filter (fun kv => String.eqb (fst kv) model) smokeday)
  | None => []
  end.

(** The record of a smoke day that one source predicted and
    persistence missed. *)
Definition smoke_day_record : day_result :=
  [ ("smokeday", [ ("airnow", bool_score true); ("cams", bool_score true);
                   ("persistence", bool_score false); ("observed", bool_score true) ]) ].

(** ** The AirNow adapter ([data_downloads/airnow.py]) *)

(** The data directory during a download: the hour files, the
    directories, and the lines printed. *)
Record Downloads : Type := mkDownloads {
  hour_files : gmap path string;
  download_dirs : gset path;
  printed : list string
}.

(** [Path(datadir, f"{date}-{hour:02}.dat")] *)
Definition hour_file (datadir : string) (date : Date) (hour : Z) : path :=
  [ datadir; strftime_ymd date +:+ "-" +:+ zfill 2 (Z.to_N hour) +:+ ".dat" ].

(** The part of an hour file's name after the date. *)
Definition hour_suffix (hour : Z) : string := "-" +:+ zfill 2 (Z.to_N hour) +:+ ".dat".

Section AirNowAdapter.

(** [urllib.request.urlretrieve] on the URL of the hour file of a date:
    the text of the file, or [None] for an [HTTPError]. *)
Variable urlretrieve : Date -> Z -> option string.

(** [date + datetime.timedelta(days=1)] *)
Variable tomorrow_of : Date -> Date.

(** What [open_hour_df] makes of the text of an hour file: the rows
    with a PM2.5 value, unit checked, hour converted, restricted to the
    continental box. *)
Variable read_hour : string -> result DataFrame.

(** [download_hour] *)
Definition download_hour (datadir : string) (date : Date) (hour : Z) (s : Downloads)
  : bool * Downloads :=
  match urlretrieve date hour with
  | Some txt =>
      (true, mkDownloads (<[hour_file datadir date hour := txt]> (hour_files s))
                         (download_dirs s) (printed s))
  | None =>
      (false, mkDownloads (hour_files s) (download_dirs s)
                (printed s ++ ["Could not download data for " +:+ strftime_ymd date
                               +:+ ". Could this be in the future?"]))
  end.

(** One loop of [download_day]: it stops at the first hour that fails. *)
Fixpoint download_hours (datadir : string) (date : Date) (hours : list Z) (s : Downloads)
  : bool * Downloads :=
  match hours with
  | [] => (true, s)
  | hour :: rest =>
      let r := download_hour datadir date hour s in
      if fst r then download_hours datadir date rest (snd r) else (false, snd r)
  end.

(** [download_day] *)
Definition download_day (datadir : string) (date : Date) (s : Downloads)
  : bool * Downloads :=
  let r := download_hours datadir date (range 4 24) s in
  if fst r then download_hours datadir (tomorrow_of date) (range 0 18) (snd r)
  else (false, snd r).

(** [open_hour_df] on a path *)
Definition open_hour_df (filename : path) (s : Downloads) : result DataFrame :=
  match hour_files s !! filename with
  | Some txt => read_hour txt
  | None => Raise FileNotFoundError
  end.

(** The body of the loop over [hour_dfs2]: the whole column
    [ValidTime] becomes the hour of the first row plus 24. *)
Definition shift_hour (hour : DataFrame) : result DataFrame :=
  match hour with
  | [] => Raise IndexError
  | first :: _ =>
      Ok (map (fun r => mkReading (AQSID r) (Latitude r) (Longitude r)
                                  (ValidTime first + 24) (PM25 r))
              hour)
  end.

(** [open_day] *)
Definition open_day (datadir : string) (date : Date) (s : Downloads) : result DataFrame :=
  hour_dfs1 <-! mapM (fun hour => open_hour_df (hour_file datadir date hour) s)
                     (range 4 24) ;;
  hour_dfs2 <-! mapM (fun hour => open_hour_df (hour_file datadir (tomorrow_of date) hour) s)
                     (range 0 18) ;;
  shifted <-! mapM shift_hour hour_dfs2 ;;
  Ok (concat (hour_dfs1 ++ shifted)).

(** [os.remove] *)
Definition os_remove (p : path) (s : Downloads) : result unit * Downloads :=
  match hour_files s !! p with
  | Some _ => (Ok tt, mkDownloads (delete p (hour_files s)) (download_dirs s) (printed s))
  | None => (Raise FileNotFoundError, s)
  end.

Fixpoint remove_all (ps : list path) (s : Downloads) : result unit * Downloads :=
  match ps with
  | [] => (Ok tt, s)
  | p :: rest =>
      match os_remove p s with
      | (Ok _, s1) => remove_all rest s1
      | (Raise e, s1) => (Raise e, s1)
      end
  end.

(** [clean_up] *)
Definition clean_up (datadir : string) (date : Date) (s : Downloads)
  : result unit * Downloads :=
  let today_paths := map (hour_file datadir date) (range 6 24) in
  let tomorrow_paths := map (hour_file datadir (tomorrow_of date)) (range 0 12) in
  remove_all (today_paths ++ tomorrow_paths) s.

(** [parse_day] *)
Definition parse_day (datadir : string) (date : Date) (s : Downloads)
  : result (option DataFrame) * Downloads :=
  let r := download_day datadir date s in
  if fst r then
    match open_day datadir date (snd r) with
    | Raise e => (Raise e, snd r)
    | Ok df =>
        match clean_up datadir date (snd r) with
        | (Ok _, s') => (Ok (Some df), s')
        | (Raise e, s') => (Raise e, s')
        end
    end
  else
    (Ok None,
     mkDownloads (hour_files (snd r)) (download_dirs (snd r))
       (printed (snd r)
        ++ ["Was not able to download all hours for " +:+ strftime_ymd date])).

(** [airnow_data_download] *)
Definition airnow_data_download (date : Date) (data_directory : string) (s : Downloads)
  : result (option DataFrame) * Downloads :=
  parse_day data_directory date
    (mkDownloads (hour_files s) (download_dirs s ∪ list_to_set (ancestors [data_directory]))
                 (printed s)).

End AirNowAdapter.

(** A service on which every hour is available, and one that has
    nothing after hour 5 of the first day. *)
Definition every_hour (date : Date) (hour : Z) : option string := Some "hourly observations".

Definition until_hour_five (date : Date) (hour : Z) : option string :=
  if (hour <? 6)%Z then Some "hourly observations" else None.

Definition next_day_in_month (d : Date) : Date := add_days_in_month d 1.

(** Every file holds one monitor; and a service under which no file
    has a row inside the continental box. *)
Definition one_monitor (txt : string) : result DataFrame :=
  Ok [ mkReading "m1" 40 (-100) 13 10 ].

Definition no_monitor (txt : string) : result DataFrame := Ok [].

Definition empty_downloads : Downloads := mkDownloads ∅ ∅ [].

(** ** The confusion matrix of [plotters.py] *)

(** The four dictionaries that [confusion_matrix] fills and returns. *)
Record Counts : Type := mkCounts {
  true_positives : dict nat;
  false_positives : dict nat;
  false_negatives : dict nat;
  true_negatives : dict nat
}.

Definition no_counts : Counts := mkCounts [] [] [] [].

(** [d[k]] *)
Definition dict_item {V : Type} (k : string) (d : dict V) : result V :=
  match dict_get k d with
  | Some v => Ok v
  | None => Raise KeyError
  end.

(** [d[k] += 1] *)
Definition increment (k : string) (d : dict nat) : result (dict nat) :=
  n <-! dict_item k d ;;
  Ok (dict_set k (n + 1)%nat d).

(** The body of the loop over [r.items()]. *)
Definition count_forecast (r : metric_result) (forecast : string) (res : score)
    (c : Counts) : result Counts :=
  let c1 :=
    match dict_get forecast (true_positives c) with
    | Some _ => c
    | None =>
        mkCounts (dict_set forecast O (true_positives c))
                 (dict_set forecast O (false_positives c))
                 (dict_set forecast O (false_negatives c))
                 (dict_set forecast O (true_negatives c))
    end in
  if truthy res then
    observed <-! dict_item "observed" r ;;
    if truthy observed then
      d <-! increment forecast (true_positives c1) ;;
      Ok (mkCounts d (false_positives c1) (false_negatives c1) (true_negatives c1))
    else
      d <-! increment forecast (false_positives c1) ;;
      Ok (mkCounts (true_positives c1) d (false_negatives c1) (true_negatives c1))
  else
    observed <-! dict_item "observed" r ;;
    if negb (truthy observed) then
      d <-! increment forecast (true_negatives c1) ;;
      Ok (mkCounts (true_positives c1) (false_positives c1) (false_negatives c1) d)
    else
      d <-! increment forecast (false_negatives c1) ;;
      Ok (mkCounts (true_positives c1) (false_positives c1) d (true_negatives c1)).

Fixpoint count_forecasts (r : metric_result) (items : dict score) (c : Counts)
  : result Counts :=
  match items with
  | [] => Ok c
  | (forecast, res) :: rest =>
      c1 <-! count_forecast r forecast res c ;;
      count_forecasts r rest c1
  end.

Fixpoint count_days (results : dict day_result) (c : Counts) : result Counts :=
  match results with
  | [] => Ok c
  | (day, day_results) :: rest =>
      r <-! dict_item "smokeday" day_results ;;
      c1 <-! count_forecasts r r c ;;
      count_days rest c1
  end.

(** [confusion_matrix] *)
Definition confusion_matrix (results : dict day_result) : result Counts :=
  count_days results no_counts.

(** The four counts of a forecast, when it has all four. *)
Definition counts_of (c : Counts) (forecast : string) : option matrix :=
  match dict_get forecast (true_positives c), dict_get forecast (false_positives c),
        dict_get forecast (false_negatives c), dict_get forecast (true_negatives c) with
  | Some tp, Some fp, Some fn, Some tn => Some (mkMatrix tp fp fn tn)
  | _, _, _, _ => None
  end.

(** A day's record without the entry "observed". *)
Definition unobserved_day : day_result :=
  [ ("smokeday", [ ("cams", bool_score true) ]) ].

(** * Properties *)

(** ** Positional selection *)

Lemma iloc_nonzero_from {A : Type} (f : A -> bool) (pre df : list A) :
  iloc (pre ++ df) (nonzero_from (length pre) (map f df)) = Ok (List.filter f df).
Proof.
  revert pre. induction df as [| r df IH]; intros pre; [reflexivity |].
  assert (Hnext : iloc (pre ++ r :: df)
                       (nonzero_from (S (length pre)) (map f df))
                  = Ok (List.filter f df)).
  { specialize (IH (pre ++ [r])).
    rewrite <- app_assoc in IH. simpl in IH.
    rewrite length_app in IH. simpl in IH.
    replace (length pre + 1)%nat with (S (length pre)) in IH by lia.
    exact IH. }
  simpl. destruct (f r) eqn:Hf.
  - unfold iloc in *. simpl.
    rewrite nth_error_app2 by lia. rewrite Nat.sub_diag. simpl.
    rewrite Hnext. reflexivity.
  - exact Hnext.
Qed.

Lemma iloc_nonzero {A : Type} (f : A -> bool) (df : list A) :
  iloc df (nonzero (map f df)) = Ok (List.filter f df).
Proof. exact (iloc_nonzero_from f [] df). Qed.

Lemma iloc_in_range {A : Type} (df : list A) (inds : list nat) (d : A) :
  Forall (fun i => (i < length df)%nat) inds ->
  iloc df inds = Ok (map (fun i => nth i df d) inds).
Proof.
  induction 1 as [| i inds Hi _ IH]; [reflexivity |].
  unfold iloc in *. simpl.
  rewrite (nth_error_nth' df d Hi). simpl. rewrite IH. reflexivity.
Qed.

(** ** Lists of ranked candidates *)

Lemma combine_fst_snd {A B : Type} (l : list (A * B)) :
  combine (map fst l) (map snd l) = l.
Proof.
  induction l as [| [a b] l IH]; [reflexivity |].
  simpl. rewrite IH. reflexivity.
Qed.

Lemma map_snd_combine_seq {A : Type} (l : list A) (s : nat) :
  map snd (combine l (seq s (length l))) = seq s (length l).
Proof.
  revert s. induction l as [| a l IH]; intros s; [reflexivity |].
  simpl. rewrite IH. reflexivity.
Qed.

Lemma map_snd_combine_seq_angle {A : Type} (g : A -> Q) (l : list A) :
  map snd (combine (map g l) (seq 0 (length l))) = seq 0 (length l).
Proof.
  pose proof (map_snd_combine_seq (map g l) 0) as H.
  rewrite length_map in H. exact H.
Qed.

Lemma In_enumerated {A : Type} (g : A -> Q) (l : list A) (dflt : A) (s : nat) d i :
  In (d, i) (combine (map g l) (seq s (length l))) ->
  (s <= i < s + length l)%nat /\ d = g (nth (i - s) l dflt).
Proof.
  revert s. induction l as [| a l IH]; intros s Hin; [destruct Hin |].
  simpl in Hin. destruct Hin as [Heq | Hin].
  - inversion Heq; subst. rewrite Nat.sub_diag. simpl. split; [lia | reflexivity].
  - apply IH in Hin as [Hr Hd]. simpl. split; [lia |].
    destruct (i - s)%nat as [| m] eqn:Hm; [lia |].
    replace (i - S s)%nat with m in Hd by lia. exact Hd.
Qed.

Lemma enumerated_In {A : Type} (g : A -> Q) (l : list A) (dflt : A) (s i : nat) :
  (i < length l)%nat ->
  In (g (nth i l dflt), (s + i)%nat) (combine (map g l) (seq s (length l))).
Proof.
  revert s i. induction l as [| a l IH]; intros s i Hi; simpl in Hi; [lia |].
  destruct i as [| i]; simpl.
  - left. f_equal. lia.
  - right. replace (s + S i)%nat with (S s + i)%nat by lia.
    apply IH. lia.
Qed.

Lemma In_firstn_inv {A : Type} (k : nat) (l : list A) (x : A) :
  In x (firstn k l) -> In x l.
Proof.
  intros H. rewrite <- (firstn_skipn k l). apply in_or_app. by left.
Qed.

Lemma NoDup_map_filter {A B : Type} (f : A -> B) (p : A -> bool) (l : list A) :
  List.NoDup (map f l) -> List.NoDup (map f (List.filter p l)).
Proof.
  induction l as [| a l IH]; intros Hnd; [exact Hnd |].
  simpl in *. apply List.NoDup_cons_iff in Hnd as [Hnotin Hnd].
  destruct (p a); [| by apply IH].
  simpl. apply List.NoDup_cons_iff. split; [| by apply IH].
  intros Hin. apply Hnotin.
  apply in_map_iff in Hin as [x [Hfx Hx]].
  apply filter_In in Hx as [Hx _].
  apply in_map_iff. exists x. by split.
Qed.

Lemma StronglySorted_filter_keep {A : Type} (R : A -> A -> Prop) (p : A -> bool) (l : list A) :
  StronglySorted R l -> StronglySorted R (List.filter p l).
Proof.
  induction 1 as [| a l Hs IH Hall]; [constructor |].
  simpl. destruct (p a); [| exact IH].
  constructor; [exact IH |].
  apply List.Forall_forall. intros x Hx. apply filter_In in Hx as [Hx _].
  by apply (proj1 (List.Forall_forall _ _) Hall).
Qed.

Lemma StronglySorted_map_on {A B : Type} (R : A -> A -> Prop) (R' : B -> B -> Prop)
    (f : A -> B) (l : list A) :
  (forall x y, In x l -> In y l -> R x y -> R' (f x) (f y)) ->
  StronglySorted R l -> StronglySorted R' (map f l).
Proof.
  intros Hmono Hs. induction Hs as [| a l Hs IH Hall]; [constructor |].
  simpl. constructor.
  - apply IH. intros x y Hx Hy. apply Hmono; by right.
  - apply List.Forall_forall. intros b Hb.
    apply in_map_iff in Hb as [x [<- Hx]].
    apply Hmono; [by left | by right |].
    by apply (proj1 (List.Forall_forall _ _) Hall).
Qed.

(** ** Dropping duplicate stations *)

Lemma drop_duplicates_from_In (seen : list string) (df : DataFrame) (r : Reading) :
  In r (drop_duplicates_from seen df) -> In r df /\ ~ In (AQSID r) seen.
Proof.
  revert seen. induction df as [| a df IH]; intros seen Hin; [destruct Hin |].
  simpl in Hin. destruct (existsb (String.eqb (AQSID a)) seen) eqn:Hseen.
  - apply IH in Hin as [Hin Hns]. split; [by right | exact Hns].
  - destruct Hin as [-> | Hin].
    + split; [by left |]. intros Hs.
      assert (existsb (String.eqb (AQSID r)) seen = true) as Ht.
      { apply existsb_exists. exists (AQSID r). split; [exact Hs |].
        apply String.eqb_refl. }
      congruence.
    + apply IH in Hin as [Hin Hns]. split; [by right |].
      intros Hs. apply Hns. by right.
Qed.

Lemma drop_duplicates_from_NoDup (seen : list string) (df : DataFrame) :
  List.NoDup (map AQSID (drop_duplicates_from seen df)).
Proof.
  revert seen. induction df as [| a df IH]; intros seen; [constructor |].
  simpl. destruct (existsb (String.eqb (AQSID a)) seen); [apply IH |].
  simpl. constructor; [| apply IH].
  intros Hin. apply in_map_iff in Hin as [x [Hx Hin]].
  apply drop_duplicates_from_In in Hin as [_ Hns].
  apply Hns. left. by symmetry.
Qed.

Lemma drop_duplicates_In (df : DataFrame) (r : Reading) :
  In r (drop_duplicates df) -> In r df.
Proof. intros H. by apply drop_duplicates_from_In in H as [H _]. Qed.

Lemma drop_duplicates_NoDup (df : DataFrame) :
  List.NoDup (map AQSID (drop_duplicates df)).
Proof. apply drop_duplicates_from_NoDup. Qed.

(** ** Ranking by distance *)

Lemma insert_by_distance_Permutation (x : Q * nat) (l : list (Q * nat)) :
  Permutation (insert_by_distance x l) (x :: l).
Proof.
  induction l as [| y l IH]; [reflexivity |].
  simpl. destruct (Qle_bool (fst x) (fst y)); [reflexivity |].
  etransitivity; [apply perm_skip, IH | apply perm_swap].
Qed.

Lemma rank_by_distance_Permutation (l : list (Q * nat)) :
  Permutation (rank_by_distance l) l.
Proof.
  induction l as [| x l IH]; [constructor |].
  simpl. etransitivity; [apply insert_by_distance_Permutation |].
  by apply perm_skip.
Qed.

Lemma insert_by_distance_sorted (x : Q * nat) (l : list (Q * nat)) :
  StronglySorted nearer l -> StronglySorted nearer (insert_by_distance x l).
Proof.
  induction 1 as [| y l Hs IH Hall]; simpl.
  - repeat constructor.
  - destruct (Qle_bool (fst x) (fst y)) eqn:E.
    + apply Qle_bool_iff in E.
      constructor; [by constructor |].
      constructor; [exact E |].
      apply List.Forall_forall. intros z Hz.
      pose proof (proj1 (List.Forall_forall _ _) Hall z Hz) as Hyz.
      unfold nearer in *. by apply (Qle_trans _ (fst y)).
    + constructor; [exact IH |].
      apply List.Forall_forall. intros z Hz.
      apply (Permutation_in _ (insert_by_distance_Permutation x l)) in Hz.
      destruct Hz as [<- | Hz]; [| by apply (proj1 (List.Forall_forall _ _) Hall)].
      unfold nearer. destruct (Qlt_le_dec (fst y) (fst x)) as [Hlt | Hle].
      * by apply Qlt_le_weak.
      * apply Qle_bool_iff in Hle. congruence.
Qed.

Lemma rank_by_distance_sorted (l : list (Q * nat)) :
  StronglySorted nearer (rank_by_distance l).
Proof.
  induction l as [| x l IH]; [constructor |].
  simpl. by apply insert_by_distance_sorted.
Qed.

(** Candidates at one distance keep the order of the table. *)
Example rank_by_distance_ties :
  rank_by_distance [ (1%Q, 0%nat); (1%Q, 1%nat); ((1 # 2)%Q, 2%nat); (1%Q, 3%nat) ]
  = [ ((1 # 2)%Q, 2%nat); (1%Q, 0%nat); (1%Q, 1%nat); (1%Q, 3%nat) ].
Proof. reflexivity. Qed.

Lemma filter_length_Permutation {A : Type} (p : A -> bool) (l l' : list A) :
  Permutation l l' -> length (List.filter p l) = length (List.filter p l').
Proof.
  induction 1 as [| x l l' _ IH | x y l | l l' l'' _ IH1 _ IH2]; simpl.
  - reflexivity.
  - destruct (p x); simpl; by rewrite IH.
  - destruct (p x), (p y); reflexivity.
  - by rewrite IH1.
Qed.

Lemma filter_none {A : Type} (p : A -> bool) (l : list A) :
  (forall x, In x l -> p x = false) -> List.filter p l = [].
Proof.
  induction l as [| a l IH]; intros H; [reflexivity |].
  simpl. rewrite (H a) by (by left). apply IH. intros x Hx. apply H. by right.
Qed.

(** In a sorted list a test that is closed towards the front selects a
    prefix: cutting after [k] elements keeps [min k m] of the [m]
    selected ones. *)
Lemma filter_firstn_sorted {A : Type} (R : A -> A -> Prop) (p : A -> bool)
    (l : list A) (k : nat) :
  StronglySorted R l ->
  (forall x y, R x y -> p y = true -> p x = true) ->
  length (List.filter p (firstn k l)) = Nat.min k (length (List.filter p l)).
Proof.
  intros Hs Hp. revert k. induction Hs as [| a l Hs IH Hall]; intros k.
  - rewrite firstn_nil. simpl. lia.
  - destruct k as [| k]; [reflexivity |].
    cbn [firstn List.filter]. destruct (p a) eqn:Ha.
    + cbn [length]. rewrite IH. lia.
    + assert (Hnone : forall y, In y l -> p y = false).
      { intros y Hy. destruct (p y) eqn:Hy'; [| reflexivity].
        pose proof (proj1 (List.Forall_forall _ _) Hall y Hy) as Hay.
        rewrite (Hp a y Hay Hy') in Ha. discriminate. }
      rewrite (filter_none p l Hnone).
      rewrite (filter_none p (firstn k l)); [simpl; lia |].
      intros y Hy. apply Hnone. rewrite <- (firstn_skipn k l).
      apply in_or_app. by left.
Qed.

Lemma filter_enumerated_length {A : Type} (g : A -> Q) (p : Q * nat -> bool)
    (q : A -> bool) (l : list A) (s : nat) :
  (forall a i, p (g a, i) = q a) ->
  length (List.filter p (combine (map g l) (seq s (length l))))
  = length (List.filter q l).
Proof.
  intros Hpq. revert s. induction l as [| a l IH]; intros s; [reflexivity |].
  cbn [map length seq combine List.filter]. rewrite Hpq.
  destruct (q a); cbn [length]; by rewrite IH.
Qed.

Section SpatialFacts.

Variable radians : Q -> Q.
Variable haversine : LatLon -> LatLon -> Q.

Let km := km_to radians haversine.
Let within := within radians haversine.
Let radius_mode := find_nearby_predictions radians haversine.
Let nearest_mode := find_nearby_monitors radians haversine.

Lemma find_nearby_predictions_filter (R : DataFrame) (P : Q * Q) (max_distance : Q) :
  R <> [] ->
  radius_mode R P max_distance = Ok (List.filter (within P max_distance) R).
Proof.
  intros Hne.
  unfold radius_mode, find_nearby_predictions, haversine_distances, latlons_radians.
  rewrite length_map. destruct R as [| r0 R0]; [congruence |].
  cbn [length Nat.eqb rbind map]. rewrite !map_map.
  apply (iloc_nonzero (within P max_distance) (r0 :: R0)).
Qed.

(** A table without rows is refused by the distance routine. *)
Lemma find_nearby_predictions_no_rows (P : Q * Q) (max_distance : Q) :
  radius_mode [] P max_distance = Raise ValueError.
Proof. reflexivity. Qed.

(** C3, as the code has it.  On a table with at least one row, radius
    mode returns exactly the rows that lie within [max_distance]
    kilometres (great-circle angle times 6371) of the target: the
    result is the table filtered by that test, so every returned row is
    within range, every row within range is returned, and rows are
    neither merged nor capped.  (A table without rows is refused.) *)
Theorem find_nearby_predictions_exact (R : DataFrame) (P : Q * Q) (max_distance : Q) :
  R <> [] ->
  exists out : DataFrame,
    find_nearby_predictions radians haversine R P max_distance = Ok out
    /\ out = List.filter (fun r => Qle_bool (km_to radians haversine P r) max_distance) R
    /\ (forall r, In r out -> In r R /\ (km_to radians haversine P r <= max_distance)%Q)
    /\ (forall r, In r R -> (km_to radians haversine P r <= max_distance)%Q -> In r out).
Proof.
  intros Hne.
  exists (List.filter (within P max_distance) R).
  split; [by apply find_nearby_predictions_filter |].
  split; [reflexivity |].
  split.
  - intros r Hr. apply filter_In in Hr as [Hin Hw].
    split; [exact Hin | by apply Qle_bool_iff].
  - intros r Hin Hle. apply filter_In. split; [exact Hin |].
    by apply Qle_bool_iff.
Qed.

(** The angle from the target to the point of a row. *)
Let angle (P : Q * Q) (r : Reading) : Q :=
  haversine (radians (fst P), radians (snd P))
            (radians (Latitude r), radians (Longitude r)).

(** The candidates of the neighbour search: (angle, position) for
    every row of the deduplicated table, nearest first. *)
Let ranking (P : Q * Q) (aqs : DataFrame) : list (Q * nat) :=
  rank_by_distance (combine (map (angle P) aqs) (seq 0 (length aqs))).

Lemma ranking_In (P : Q * Q) (aqs : DataFrame) (dflt : Reading) d i :
  In (d, i) (ranking P aqs) <->
  (i < length aqs)%nat /\ d = angle P (nth i aqs dflt).
Proof.
  unfold ranking.
  assert (Hperm := rank_by_distance_Permutation
                     (combine (map (angle P) aqs) (seq 0 (length aqs)))).
  split.
  - intros Hin. apply (Permutation_in _ Hperm) in Hin.
    apply (In_enumerated (angle P) aqs dflt) in Hin as [Hr Hd].
    rewrite Nat.sub_0_r in Hd. split; [lia | exact Hd].
  - intros [Hi ->]. apply (Permutation_in _ (Permutation_sym Hperm)).
    apply (enumerated_In (angle P) aqs dflt 0 i Hi).
Qed.

Lemma ranking_positions_NoDup (P : Q * Q) (aqs : DataFrame) :
  List.NoDup (map snd (ranking P aqs)).
Proof.
  unfold ranking.
  eapply Permutation_NoDup.
  - apply Permutation_map. apply Permutation_sym. apply rank_by_distance_Permutation.
  - rewrite map_snd_combine_seq_angle. apply seq_NoDup.
Qed.

Lemma km_to_angle (P : Q * Q) (r : Reading) :
  (km P r == angle P r * 6371)%Q.
Proof. unfold km, km_to, angle. apply Qmult_comm. Qed.

(** The stations that survive the cut at [max_distance], in rank
    order. *)
Let survivors (P : Q * Q) (max_distance : Q) (k : nat) (aqs : DataFrame)
  : list (Q * nat) :=
  List.filter (fun di => Qle_bool (fst di * 6371) max_distance)
              (firstn k (ranking P aqs)).

Lemma find_nearby_monitors_unfold
    (readings : DataFrame) (P : Q * Q) (max_distance : Q) (k : nat) (dflt : Reading) :
  (0 < k)%nat ->
  (k <= length (drop_duplicates readings))%nat ->
  nearest_mode readings P max_distance k
  = Ok (List.filter
          (fun r => isin (map AQSID
                            (map (fun di => nth (snd di) (drop_duplicates readings) dflt)
                                 (survivors P max_distance k (drop_duplicates readings))))
                         (AQSID r))
          readings).
Proof.
  intros Hk Hlen.
  unfold nearest_mode, find_nearby_monitors, kneighbors.
  set (aqs := drop_duplicates readings) in *.
  assert (Hlen' : length (latlons_radians radians aqs) = length aqs)
    by apply length_map.
  rewrite Hlen'.
  destruct (Nat.eqb_spec k 0) as [? | _]; [lia |].
  destruct (Nat.eqb_spec (length aqs) 0) as [? | _]; [lia |].
  destruct (Nat.ltb_spec (length aqs) k) as [? | _]; [lia |].
  unfold latlons_radians. rewrite map_map.
  change (map (fun x : Reading =>
                 haversine (radians (fst P), radians (snd P))
                           (radians (Latitude x), radians (Longitude x))) aqs)
    with (map (angle P) aqs).
  fold (ranking P aqs).
  cbn [rbind fst snd].
  rewrite combine_fst_snd.
  fold (survivors P max_distance k aqs).
  rewrite (iloc_in_range (map AQSID aqs) _ (AQSID dflt)).
  - cbn [rbind].
    assert (Hids :
              map (fun i => nth i (map AQSID aqs) (AQSID dflt))
                  (map snd (survivors P max_distance k aqs))
              = map AQSID (map (fun di => nth (snd di) aqs dflt)
                               (survivors P max_distance k aqs))).
    { rewrite !map_map. apply map_ext. intros di. apply (map_nth AQSID). }
    rewrite Hids. reflexivity.
  - apply List.Forall_forall. intros i Hi.
    apply in_map_iff in Hi as [[d j] [<- Hin]].
    apply filter_In in Hin as [Hin _].
    apply (In_firstn_inv _ _ _) in Hin.
    apply (ranking_In P aqs dflt) in Hin as [Hj _].
    rewrite length_map. exact Hj.
Qed.

Lemma survivors_In (P : Q * Q) (max_distance : Q) (k : nat) (aqs : DataFrame)
    (dflt : Reading) d i :
  In (d, i) (survivors P max_distance k aqs) ->
  In (d, i) (firstn k (ranking P aqs))
  /\ (i < length aqs)%nat
  /\ d = angle P (nth i aqs dflt)
  /\ (km P (nth i aqs dflt) <= max_distance)%Q.
Proof.
  intros Hin. apply filter_In in Hin as [Hin Hle].
  split; [exact Hin |].
  apply In_firstn_inv in Hin.
  apply (ranking_In P aqs dflt) in Hin as [Hi Hd].
  split; [exact Hi |]. split; [exact Hd |].
  apply Qle_bool_iff in Hle. cbn [fst] in Hle.
  rewrite km_to_angle, <- Hd. exact Hle.
Qed.

Lemma survivors_positions_NoDup (P : Q * Q) (max_distance : Q) (k : nat)
    (aqs : DataFrame) :
  List.NoDup (map snd (survivors P max_distance k aqs)).
Proof.
  unfold survivors. apply NoDup_map_filter.
  rewrite <- firstn_map.
  apply (NoDup_app_remove_r _ (skipn k (map snd (ranking P aqs)))).
  rewrite firstn_skipn. apply ranking_positions_NoDup.
Qed.

Lemma survivors_sorted (P : Q * Q) (max_distance : Q) (k : nat) (aqs : DataFrame) :
  StronglySorted nearer (survivors P max_distance k aqs).
Proof.
  unfold survivors. apply StronglySorted_filter_keep.
  apply (StronglySorted_app_1_l nearer _ (skipn k (ranking P aqs))).
  rewrite firstn_skipn. unfold ranking.
  apply rank_by_distance_sorted.
Qed.

Lemma within_angle (P : Q * Q) (max_distance : Q) (r : Reading) (i : nat) :
  Qle_bool (fst (angle P r, i) * 6371) max_distance = within P max_distance r.
Proof.
  cbn [fst]. change (within P max_distance r) with (Qle_bool (km P r) max_distance).
  apply Bool.eq_iff_eq_true. rewrite !Qle_bool_iff, km_to_angle. reflexivity.
Qed.

(** Of the [k] best ranked candidates, the ones within range are as
    many as [k] allows of all the stations within range. *)
Lemma survivors_length (P : Q * Q) (max_distance : Q) (k : nat) (aqs : DataFrame) :
  length (survivors P max_distance k aqs)
  = Nat.min k (length (List.filter (within P max_distance) aqs)).
Proof.
  unfold survivors.
  rewrite (filter_firstn_sorted nearer).
  - f_equal. unfold ranking.
    rewrite (filter_length_Permutation _ _ _
               (rank_by_distance_Permutation
                  (combine (map (angle P) aqs) (seq 0 (length aqs))))).
    apply filter_enumerated_length. intros r i. apply within_angle.
  - unfold ranking. apply rank_by_distance_sorted.
  - intros x y Hxy Hy. apply Qle_bool_iff. apply Qle_bool_iff in Hy.
    apply (Qle_trans _ (fst y * 6371)); [| exact Hy].
    apply Qmult_le_compat_r; [exact Hxy | discriminate].
Qed.

(** C2, as the code has it.  Nearest-K mode on a table with at least
    [max_neighbors] distinct stations.  The surviving stations, listed in the order in which
    the neighbour search ranks them, are rows of the deduplicated
    table; they are as many as [max_neighbors] allows of the distinct
    stations within [max_distance] kilometres (the smaller of the two
    numbers), pairwise of different identity, each within
    [max_distance], in non-decreasing distance, and no station left
    out while within range is nearer than a surviving one: they are
    the nearest stations within range.  The result is every row of
    the original table that belongs to a surviving station, in the
    original row order. *)
Theorem find_nearby_monitors_nearest
    (readings : DataFrame) (P : Q * Q) (max_distance : Q) (max_neighbors : nat) :
  (0 < max_neighbors)%nat ->
  (max_neighbors <= length (drop_duplicates readings))%nat ->
  exists stations : list Reading,
    find_nearby_monitors radians haversine readings P max_distance max_neighbors
    = Ok (List.filter (fun r => isin (map AQSID stations) (AQSID r)) readings)
    /\ length stations
       = Nat.min max_neighbors
           (length (List.filter
                      (fun r => Qle_bool (km_to radians haversine P r) max_distance)
                      (drop_duplicates readings)))
    /\ (length stations <= max_neighbors)%nat
    /\ List.NoDup (map AQSID stations)
    /\ (forall s, In s stations ->
          In s (drop_duplicates readings)
          /\ (km_to radians haversine P s <= max_distance)%Q)
    /\ StronglySorted
         (fun a b => (km_to radians haversine P a <= km_to radians haversine P b)%Q)
         stations
    /\ (forall s t, In s stations ->
          In t (drop_duplicates readings) -> ~ In t stations ->
          (km_to radians haversine P t <= max_distance)%Q ->
          (km_to radians haversine P s <= km_to radians haversine P t)%Q).
Proof.
  intros Hk Hlen.
  set (dflt := mkReading "" 0 0 0 0).
  set (aqs := drop_duplicates readings) in *.
  set (surv := survivors P max_distance max_neighbors aqs).
  exists (map (fun di => nth (snd di) aqs dflt) surv).
  split; [apply (find_nearby_monitors_unfold readings P max_distance
                   max_neighbors dflt Hk Hlen) |].
  split.
  { rewrite length_map. apply survivors_length. }
  split.
  { rewrite length_map. unfold surv, survivors.
    etransitivity; [apply filter_length_le |].
    rewrite length_firstn. lia. }
  split.
  { replace (map AQSID (map (fun di : Q * nat => nth (snd di) aqs dflt) surv))
      with (map (fun i => AQSID (nth i aqs dflt)) (map snd surv))
      by (rewrite !map_map; reflexivity).
    apply NoDup_map_NoDup_ForallPairs;
      [| apply survivors_positions_NoDup].
    intros i j Hi Hj Heq.
    apply in_map_iff in Hi as [[di ?] [Hieq Hi]]. cbn in Hieq. subst.
    apply in_map_iff in Hj as [[dj ?] [Hjeq Hj]]. cbn in Hjeq. subst.
    apply (survivors_In P max_distance max_neighbors aqs dflt) in Hi as (_ & Hi & _).
    apply (survivors_In P max_distance max_neighbors aqs dflt) in Hj as (_ & Hj & _).
    rewrite <- !(map_nth AQSID) in Heq.
    apply (proj1 (NoDup_nth (map AQSID aqs) (AQSID dflt))
                 (drop_duplicates_NoDup readings));
      rewrite ?length_map; assumption. }
  split.
  { intros s Hs. apply in_map_iff in Hs as [[d i] [<- Hin]].
    apply (survivors_In P max_distance max_neighbors aqs dflt) in Hin
      as (_ & Hi & _ & Hle).
    split; [apply nth_In; exact Hi | exact Hle]. }
  split.
  { apply (StronglySorted_map_on nearer); [| apply survivors_sorted].
    intros [d1 i1] [d2 i2] H1 H2 Hnear.
    apply (survivors_In P max_distance max_neighbors aqs dflt) in H1
      as (_ & _ & Hd1 & _).
    apply (survivors_In P max_distance max_neighbors aqs dflt) in H2
      as (_ & _ & Hd2 & _).
    unfold nearer in Hnear. cbn [fst snd] in *.
    fold km. rewrite !km_to_angle, <- Hd1, <- Hd2.
    apply Qmult_le_compat_r; [exact Hnear | discriminate]. }
  intros s t Hs Ht Hnot Hle.
  apply in_map_iff in Hs as [[d i] [<- Hin]].
  apply (survivors_In P max_distance max_neighbors aqs dflt) in Hin
    as (Hfirst & _ & Hd & _).
  destruct (In_nth aqs t dflt Ht) as [j [Hj Hnth]].
  assert (Hrank : In (angle P t, j) (ranking P aqs)).
  { apply (ranking_In P aqs dflt). split; [exact Hj | by rewrite Hnth]. }
  rewrite <- (firstn_skipn max_neighbors (ranking P aqs)) in Hrank.
  apply in_app_or in Hrank as [Hhead | Htail].
  - exfalso. apply Hnot. apply in_map_iff.
    exists (angle P t, j). split; [exact Hnth |].
    apply filter_In. split; [exact Hhead |].
    apply Qle_bool_iff. cbn [fst]. rewrite <- km_to_angle. exact Hle.
  - assert (Hsorted : StronglySorted nearer (ranking P aqs))
      by (unfold ranking; apply rank_by_distance_sorted).
    rewrite <- (firstn_skipn max_neighbors (ranking P aqs)) in Hsorted.
    assert (Hnear : nearer (d, i) (angle P t, j)).
    { apply (StronglySorted_app_1_elem_of nearer _ _ _ _ Hsorted);
        by apply list_elem_of_In. }
    unfold nearer in Hnear. cbn [fst snd] in *.
    fold km. rewrite !km_to_angle, <- Hd.
    apply Qmult_le_compat_r; [exact Hnear | discriminate].
Qed.

(** C8, as the code has it.  On the empty table both modes raise
    [ValueError] instead of returning an empty table: the distance
    routine of radius mode refuses a table without rows, and the
    neighbour search of nearest-K mode cannot be fitted on zero
    stations. *)
Theorem matchers_on_empty (P : Q * Q) (max_distance : Q) (max_neighbors : nat) :
  find_nearby_predictions radians haversine [] P max_distance = Raise ValueError
  /\ find_nearby_monitors radians haversine [] P max_distance max_neighbors
     = Raise ValueError.
Proof.
  split; [reflexivity |].
  unfold find_nearby_monitors, kneighbors. simpl.
  destruct (max_neighbors =? 0)%nat; reflexivity.
Qed.

(** With fewer distinct stations than [max_neighbors] the neighbour
    search refuses the query. *)
Lemma find_nearby_monitors_too_few
    (readings : DataFrame) (P : Q * Q) (max_distance : Q) (max_neighbors : nat) :
  (length (drop_duplicates readings) < max_neighbors)%nat ->
  find_nearby_monitors radians haversine readings P max_distance max_neighbors
  = Raise ValueError.
Proof.
  intros Hlt. unfold find_nearby_monitors, kneighbors.
  unfold latlons_radians. rewrite length_map.
  destruct (max_neighbors =? 0)%nat; [reflexivity |].
  destruct (length (drop_duplicates readings) =? 0)%nat; [reflexivity |].
  destruct (Nat.ltb_spec (length (drop_duplicates readings)) max_neighbors);
    [reflexivity | lia].
Qed.

End SpatialFacts.

(** C2, counterexample.  A table with a single station and the default
    [max_neighbors = 10] makes nearest-K mode raise; and with two
    stations in range the result lists the rows in table order, the
    farther station before the nearer one. *)
Lemma find_nearby_monitors_counterexample :
  find_nearby_monitors deg_to_rad meridian_angle [far_monitor 13 20] target_point 50 10
  = Raise ValueError
  /\ find_nearby_monitors deg_to_rad meridian_angle two_monitors target_point 50 2
     = Ok [ far_monitor 13 20; near_monitor 13 8; far_monitor 14 22 ]
  /\ (km_to deg_to_rad meridian_angle target_point (near_monitor 13 8)
      < km_to deg_to_rad meridian_angle target_point (far_monitor 13 20))%Q.
Proof. split; [| split]; reflexivity. Qed.

Lemma find_nearby_monitors_nearest_witness :
  (0 < 2)%nat
  /\ (2 <= length (drop_duplicates two_monitors))%nat
  /\ exists stations : list Reading,
      find_nearby_monitors deg_to_rad meridian_angle two_monitors target_point 50 2
      = Ok (List.filter (fun r => isin (map AQSID stations) (AQSID r)) two_monitors)
      /\ length stations
         = Nat.min 2
             (length (List.filter
                        (fun r => Qle_bool (km_to deg_to_rad meridian_angle target_point r) 50)
                        (drop_duplicates two_monitors)))
      /\ (length stations <= 2)%nat
      /\ List.NoDup (map AQSID stations)
      /\ (forall s, In s stations ->
            In s (drop_duplicates two_monitors)
            /\ (km_to deg_to_rad meridian_angle target_point s <= 50)%Q)
      /\ StronglySorted
           (fun a b => (km_to deg_to_rad meridian_angle target_point a
                        <= km_to deg_to_rad meridian_angle target_point b)%Q)
           stations
      /\ (forall s t, In s stations ->
            In t (drop_duplicates two_monitors) -> ~ In t stations ->
            (km_to deg_to_rad meridian_angle target_point t <= 50)%Q ->
            (km_to deg_to_rad meridian_angle target_point s
             <= km_to deg_to_rad meridian_angle target_point t)%Q).
Proof.
  split; [lia |]. split; [simpl; lia |].
  apply (find_nearby_monitors_nearest deg_to_rad meridian_angle
           two_monitors target_point 50 2); [lia | simpl; lia].
Defined.

(** C3, counterexample.  Radius mode on a table without rows returns
    no subset: the distance routine refuses the table. *)
Lemma find_nearby_predictions_counterexample :
  find_nearby_predictions deg_to_rad meridian_angle [] target_point 50
  = Raise ValueError.
Proof. reflexivity. Qed.

Lemma find_nearby_predictions_exact_witness :
  two_monitors <> []
  /\ exists out : DataFrame,
      find_nearby_predictions deg_to_rad meridian_angle two_monitors target_point 20
      = Ok out
      /\ out = List.filter
                 (fun r => Qle_bool (km_to deg_to_rad meridian_angle target_point r) 20)
                 two_monitors
      /\ (forall r, In r out ->
            In r two_monitors
            /\ (km_to deg_to_rad meridian_angle target_point r <= 20)%Q)
      /\ (forall r, In r two_monitors ->
            (km_to deg_to_rad meridian_angle target_point r <= 20)%Q -> In r out).
Proof.
  split; [discriminate |].
  apply (find_nearby_predictions_exact deg_to_rad meridian_angle two_monitors
           target_point 20).
  discriminate.
Defined.

(** Within 20 km of the target only the near monitor remains. *)
Example find_nearby_predictions_example :
  find_nearby_predictions deg_to_rad meridian_angle two_monitors target_point 20
  = Ok [ near_monitor 13 8 ].
Proof. reflexivity. Qed.

(** C8, counterexample.  Neither mode returns an empty table for the
    empty table: both raise. *)
Lemma find_nearby_monitors_empty_raises :
  find_nearby_monitors deg_to_rad meridian_angle [] target_point 50 10
  = Raise ValueError
  /\ find_nearby_predictions deg_to_rad meridian_angle [] target_point 50
     = Raise ValueError.
Proof. split; reflexivity. Qed.

(** Three monitors at one point, one wanted: the first of the table is
    kept. *)
Example find_nearby_monitors_ties :
  find_nearby_monitors deg_to_rad meridian_angle
    [ mkReading "a" 40 (-100) 13 1; mkReading "b" 40 (-100) 13 2;
      mkReading "c" 40 (-100) 13 3 ]
    target_point 50 1
  = Ok [ mkReading "a" 40 (-100) 13 1 ].
Proof. reflexivity. Qed.

(** ** Dictionaries *)

Lemma dict_get_set {V : Type} (k k' : string) (v : V) (d : dict V) :
  dict_get k (dict_set k' v d) = if String.eqb k' k then Some v else dict_get k d.
Proof.
  induction d as [| [k0 v0] d IH]; simpl.
  - reflexivity.
  - destruct (String.eqb_spec k0 k') as [-> | Hne]; simpl.
    + destruct (String.eqb k' k); reflexivity.
    + rewrite IH. destruct (String.eqb_spec k0 k) as [-> | Hne'].
      * destruct (String.eqb_spec k' k) as [-> | _]; [congruence | reflexivity].
      * reflexivity.
Qed.

Lemma dict_get_map {V W : Type} (f : V -> W) (k : string) (d : dict V) :
  dict_get k (dict_map f d) = option_map f (dict_get k d).
Proof.
  induction d as [| [k0 v0] d IH]; simpl; [reflexivity |].
  destruct (String.eqb k0 k); [reflexivity | exact IH].
Qed.

Lemma dict_get_In {V : Type} (k : string) (v : V) (d : dict V) :
  dict_get k d = Some v -> In v (map snd d).
Proof.
  induction d as [| [k0 v0] d IH]; simpl; [discriminate |].
  destruct (String.eqb k0 k); [intros [= ->]; by left | intros H; right; by apply IH].
Qed.

Lemma dict_mapM_total {V W : Type} (f : V -> result W) (g : V -> W) (d : dict V) :
  (forall v, In v (map snd d) -> f v = Ok (g v)) ->
  dict_mapM f d = Ok (dict_map g d).
Proof.
  unfold dict_mapM, dict_map.
  induction d as [| [k v] d IH]; intros Hf; [reflexivity |].
  simpl. rewrite (Hf v) by (by left). simpl.
  rewrite IH by (intros v' Hv'; apply Hf; by right). reflexivity.
Qed.

Lemma isin_In (values : list string) (s : string) :
  isin values s = true <-> In s values.
Proof.
  unfold isin. rewrite existsb_exists. split.
  - intros [x [Hx Heq]]. apply String.eqb_eq in Heq. by subst.
  - intros Hin. exists s. split; [exact Hin | apply String.eqb_refl].
Qed.

(** ** The forecasts of a day *)

Lemma build_forecast_known (day : DailyData) (name : string) :
  known name = true -> exists f, build_forecast day name = Ok f.
Proof.
  intros Hk. apply isin_In in Hk. unfold known_sources in Hk. simpl in Hk.
  destruct Hk as [<- | [<- | [<- | [<- | [<- | []]]]]]; eexists; reflexivity.
Qed.

Lemma build_forecast_unknown (day : DailyData) (name : string) :
  known name = false -> build_forecast day name = Raise ValueError.
Proof.
  unfold known, known_sources, isin, build_forecast. simpl.
  destruct (String.eqb name "airnow"); [discriminate |].
  destruct (String.eqb name "hrrr"); [discriminate |].
  destruct (String.eqb name "cams"); [discriminate |].
  destruct (String.eqb name "geoscf"); [discriminate |].
  destruct (String.eqb name "naqfc"); [discriminate | reflexivity].
Qed.

Lemma build_all_get (day : DailyData) (names : list string) :
  Forall (fun n => known n = true) names ->
  forall acc, exists d,
    build_all day names acc = Ok d
    /\ forall k, dict_get k d = if isin names k then built day k else dict_get k acc.
Proof.
  induction 1 as [| n names Hn _ IH]; intros acc.
  - exists acc. split; reflexivity.
  - destruct (build_forecast_known day n Hn) as [f Hf].
    destruct (IH (dict_set n f acc)) as [d [Hd Hget]].
    exists d. split.
    + simpl. rewrite Hf. exact Hd.
    + intros k. rewrite Hget, dict_get_set. unfold isin. simpl.
      fold (isin names k).
      destruct (isin names k); [by rewrite orb_true_r |].
      rewrite orb_false_r.
      destruct (String.eqb_spec n k) as [-> | Hne].
      * rewrite String.eqb_refl. unfold built. by rewrite Hf.
      * destruct (String.eqb_spec k n) as [-> | _]; [congruence | reflexivity].
Qed.

Lemma forecasts_get (day : DailyData) (names : list string) :
  _forecasts day = Some names ->
  Forall (fun n => known n = true) names ->
  exists d,
    forecasts day = Ok d
    /\ forall k, dict_get k d = if isin names k then built day k else None.
Proof.
  intros Hcfg Hknown. unfold forecasts. rewrite Hcfg.
  apply (build_all_get day names Hknown []).
Qed.

Lemma build_all_unknown (day : DailyData) (names : list string) (acc : dict Forecast) :
  Exists (fun n => known n = false) names ->
  build_all day names acc = Raise ValueError.
Proof.
  revert acc. induction names as [| n names IH]; intros acc Hex.
  - inversion Hex.
  - simpl. destruct (known n) eqn:Hn.
    + destruct (build_forecast_known day n Hn) as [f ->]. simpl.
      apply IH. inversion Hex; subst; [congruence | assumption].
    + by rewrite (build_forecast_unknown day n Hn).
Qed.

(** ** Minimum, maximum and argmin of a short series *)

Section Pick.

(** [np_min2] and [np_max2] keep one of two numbers according to a
    total preorder. *)
Variable leb : Q -> Q -> bool.
Hypothesis leb_total : forall x y, leb x y = false -> leb y x = true.
Hypothesis leb_trans : forall x y z, leb x y = true -> leb y z = true -> leb x z = true.

Let pick (a b : np_float) : np_float :=
  match a, b with
  | Val x, Val y => if leb x y then Val x else Val y
  | _, _ => NaN
  end.

Lemma leb_refl x : leb x x = true.
Proof.
  destruct (leb x x) eqn:E; [reflexivity |].
  pose proof (leb_total x x E). congruence.
Qed.

Lemma fold_pick_nan (rest : list np_float) : fold_left pick rest NaN = NaN.
Proof. induction rest as [| a rest IH]; [reflexivity | exact IH]. Qed.

Lemma fold_pick_in_nan (rest : list np_float) (a : np_float) :
  In NaN rest -> fold_left pick rest a = NaN.
Proof.
  revert a. induction rest as [| b rest IH]; intros a Hin; [destruct Hin |].
  simpl. destruct Hin as [-> | Hin].
  - replace (pick a NaN) with NaN by (by destruct a). apply fold_pick_nan.
  - by apply IH.
Qed.

Lemma fold_pick_val (rest : list np_float) (x : Q) :
  ~ In NaN rest ->
  exists m, fold_left pick rest (Val x) = Val m
            /\ In (Val m) (Val x :: rest)
            /\ forall v, In (Val v) (Val x :: rest) -> leb m v = true.
Proof.
  revert x. induction rest as [| a rest IH]; intros x Hnan.
  - exists x. split; [reflexivity |]. split; [by left |].
    intros v [[= ->] | []]. apply leb_refl.
  - destruct a as [y |]; [| exfalso; apply Hnan; by left].
    assert (Hnan' : ~ In NaN rest) by (intros H; apply Hnan; by right).
    simpl. destruct (leb x y) eqn:Hxy.
    + destruct (IH x Hnan') as [m [Hm [Hin Hall]]].
      exists m. split; [exact Hm |]. split.
      * destruct Hin as [Hin | Hin]; [by left | right; by right].
      * intros v [Hv | [Hv | Hv]].
        -- apply Hall. by left.
        -- injection Hv as ->. apply (leb_trans m x v); [| exact Hxy].
           apply Hall. by left.
        -- apply Hall. by right.
    + destruct (IH y Hnan') as [m [Hm [Hin Hall]]].
      exists m. split; [exact Hm |]. split.
      * right. exact Hin.
      * intros v [Hv | [Hv | Hv]].
        -- injection Hv as ->. apply (leb_trans m y v); [| by apply leb_total].
           apply Hall. by left.
        -- apply Hall. by left.
        -- apply Hall. by right.
Qed.

End Pick.

Lemma Qle_bool_total x y : Qle_bool x y = false -> Qle_bool y x = true.
Proof.
  intros H. apply Qle_bool_iff.
  destruct (Qlt_le_dec y x) as [Hlt | Hle]; [by apply Qlt_le_weak |].
  apply Qle_bool_iff in Hle. congruence.
Qed.

Lemma Qle_bool_trans x y z :
  Qle_bool x y = true -> Qle_bool y z = true -> Qle_bool x z = true.
Proof. rewrite !Qle_bool_iff. apply Qle_trans. Qed.

Lemma np_min_nan (l : list np_float) :
  l <> [] -> In NaN l -> np_min l = Ok NaN.
Proof.
  destruct l as [| a rest]; [congruence |]. intros _ [-> | Hin]; unfold np_min.
  - f_equal. apply (fold_pick_nan Qle_bool).
  - f_equal. apply (fold_pick_in_nan Qle_bool _ _ Hin).
Qed.

Lemma np_min_val (l : list np_float) :
  l <> [] -> ~ In NaN l ->
  exists m, np_min l = Ok (Val m)
            /\ In (Val m) l
            /\ forall v, In (Val v) l -> (m <= v)%Q.
Proof.
  destruct l as [| [x |] rest]; [congruence | | intros _ H; exfalso; apply H; by left].
  intros _ Hnan.
  destruct (fold_pick_val Qle_bool Qle_bool_total Qle_bool_trans rest x)
    as [m [Hm [Hin Hall]]]; [intros H; apply Hnan; by right |].
  exists m. split; [unfold np_min; f_equal; exact Hm |].
  split; [exact Hin |].
  intros v Hv. apply Qle_bool_iff. by apply Hall.
Qed.



Lemma np_max_ok (l : list np_float) : l <> [] -> exists mx, np_max l = Ok mx.
Proof. destruct l; [congruence | intros _; eexists; reflexivity]. Qed.

Lemma np_min_ok (l : list np_float) : l <> [] -> exists m, np_min l = Ok m.
Proof. destruct l; [congruence | intros _; eexists; reflexivity]. Qed.



Lemma argmin_from_range (l : list np_float) (i best_i : nat) (best : np_float) :
  (best_i < i)%nat -> (argmin_from i best_i best l < i + length l)%nat.
Proof.
  revert i best_i best. induction l as [| x l IH]; intros i best_i best Hlt; simpl.
  - lia.
  - destruct (displaces x best).
    + specialize (IH (S i) i x). lia.
    + specialize (IH (S i) best_i best). lia.
Qed.

Lemma np_argmin_range (l : list np_float) (r : nat) :
  np_argmin l = Ok r -> (r < length l)%nat.
Proof.
  destruct l as [| x l]; [discriminate |]. intros [= <-].
  pose proof (argmin_from_range l 1 0 x). simpl. lia.
Qed.

Lemma np_argmin_ok (l : list np_float) : l <> [] -> exists r, np_argmin l = Ok r.
Proof. destruct l; [congruence | intros _; eexists; reflexivity]. Qed.

Lemma argmin_from_min (l : list np_float) (i best_i : nat) (b : Q) :
  ~ In NaN l ->
  (argmin_from i best_i (Val b) l = best_i
   /\ forall v, In (Val v) l -> (b <= v)%Q)
  \/ (exists k v, argmin_from i best_i (Val b) l = (i + k)%nat
                  /\ nth_error l k = Some (Val v)
                  /\ (v <= b)%Q
                  /\ forall v', In (Val v') l -> (v <= v')%Q).
Proof.
  revert i best_i b. induction l as [| x l IH]; intros i best_i b Hnan.
  - left. split; [reflexivity | intros v []].
  - destruct x as [c |]; [| exfalso; apply Hnan; by left].
    assert (Hnan' : ~ In NaN l) by (intros H; apply Hnan; by right).
    simpl. destruct (Qle_bool b c) eqn:Hbc; simpl.
    + apply Qle_bool_iff in Hbc.
      destruct (IH (S i) best_i b Hnan') as [[Hr Hall] | (k & v & Hr & Hk & Hvb & Hall)].
      * left. split; [exact Hr |].
        intros v [[= ->] | Hv]; [exact Hbc | by apply Hall].
      * right. exists (S k), v. split; [rewrite Hr; lia |].
        split; [exact Hk |]. split; [exact Hvb |].
        intros v' [[= ->] | Hv']; [by apply (Qle_trans _ b) | by apply Hall].
    + assert (Hcb : (c <= b)%Q).
      { apply Qle_bool_iff. by apply Qle_bool_total. }
      destruct (IH (S i) i c Hnan') as [[Hr Hall] | (k & v & Hr & Hk & Hvc & Hall)].
      * right. exists 0%nat, c. split; [rewrite Hr; lia |].
        split; [reflexivity |]. split; [exact Hcb |].
        intros v' [[= ->] | Hv']; [apply Qle_refl | by apply Hall].
      * right. exists (S k), v. split; [rewrite Hr; lia |].
        split; [exact Hk |]. split; [by apply (Qle_trans _ c) |].
        intros v' [[= ->] | Hv']; [exact Hvc | by apply Hall].
Qed.

(** On a series of numbers [np.argmin] returns a position that holds
    a smallest entry. *)
Lemma np_argmin_min (l : list np_float) :
  l <> [] -> ~ In NaN l ->
  exists r p, np_argmin l = Ok r
              /\ nth_error l r = Some (Val p)
              /\ forall v, In (Val v) l -> (p <= v)%Q.
Proof.
  destruct l as [| [b |] l]; [congruence | | intros _ H; exfalso; apply H; by left].
  intros _ Hnan.
  assert (Hnan' : ~ In NaN l) by (intros H; apply Hnan; by right).
  destruct (argmin_from_min l 1 0 b Hnan') as [[Hr Hall] | (k & v & Hr & Hk & Hvb & Hall)].
  - exists 0%nat, b. split; [simpl; by rewrite Hr |].
    split; [reflexivity |].
    intros v [[= ->] | Hv]; [apply Qle_refl | by apply Hall].
  - exists (S k), v. split; [simpl; by rewrite Hr |].
    split; [exact Hk |].
    intros v' [[= ->] | Hv']; [exact Hvb | by apply Hall].
Qed.

(** ** Sums and means with missing entries *)

Lemma np_sum_nan (l : list np_float) : In NaN l -> np_sum l = NaN.
Proof.
  induction l as [| a l IH]; intros Hin; [destruct Hin |].
  unfold np_sum in *. simpl. destruct Hin as [-> | Hin]; [reflexivity |].
  rewrite (IH Hin). by destruct a.
Qed.


Lemma np_mean_nan (l : list np_float) : In NaN l -> np_mean l = NaN.
Proof.
  intros Hin. destruct l as [| a l]; [reflexivity |].
  unfold np_mean. by rewrite (np_sum_nan _ Hin).
Qed.


(** The mean of an hour without rows is not a number. *)
Lemma hour_mean_missing (df : DataFrame) (h : Z) :
  (forall r, In r df -> ValidTime r <> h) -> hour_mean df h = NaN.
Proof.
  intros Hmiss. unfold hour_mean.
  replace (List.filter (fun r => (ValidTime r =? h)%Z) df) with (@nil Reading);
    [reflexivity |].
  symmetry. induction df as [| r df IH]; [reflexivity |].
  simpl. destruct (Z.eqb_spec (ValidTime r) h) as [Heq | _].
  - exfalso. apply (Hmiss r); [by left | exact Heq].
  - apply IH. intros r' Hr'. apply Hmiss. by right.
Qed.

(** ** The metrics *)

Lemma known_not_reserved (name : string) :
  known name = true ->
  String.eqb "persistence" name = false /\ String.eqb "observed" name = false.
Proof.
  intros Hk. apply isin_In in Hk. unfold known_sources in Hk. simpl in Hk.
  destruct Hk as [<- | [<- | [<- | [<- | [<- | []]]]]]; split; reflexivity.
Qed.

Lemma forecasts_with_airnow (day : DailyData) (names : list string) :
  _forecasts day = Some names ->
  Forall (fun n => known n = true) names ->
  In "airnow" names ->
  exists d,
    forecasts day = Ok d
    /\ dict_pop "airnow" d = Ok (airnow_of day, dict_remove "airnow" d)
    /\ forall k, dict_get k d = if isin names k then built day k else None.
Proof.
  intros Hcfg Hknown Hair.
  destruct (forecasts_get day names Hcfg Hknown) as [d [Hd Hget]].
  exists d. split; [exact Hd |]. split; [| exact Hget].
  unfold dict_pop. rewrite Hget.
  rewrite (proj2 (isin_In names "airnow") Hair). reflexivity.
Qed.

Lemma forecasts_entry (day : DailyData) (names : list string) (d : dict Forecast)
    (name : string) :
  Forall (fun n => known n = true) names ->
  (forall k, dict_get k d = if isin names k then built day k else None) ->
  In name names ->
  exists f, build_forecast day name = Ok f /\ dict_get name d = Some f.
Proof.
  intros Hknown Hget Hin.
  assert (Hk : known name = true)
    by (exact (proj1 (List.Forall_forall _ _) Hknown name Hin)).
  destruct (build_forecast_known day name Hk) as [f Hf].
  exists f. split; [exact Hf |].
  rewrite Hget, (proj2 (isin_In names name) Hin). unfold built. by rewrite Hf.
Qed.

Section MetricFacts.

Variable location_data : Forecast -> DataFrame.
Variable sqrtQ : Q -> Q.

(** C10, as the code has it.  When every configured name is one that
    [build_forecast] accepts and "airnow" is not among them, each of
    the three metrics raises [KeyError] at its first statement. *)
Theorem metrics_without_airnow
    (threshold : Q) (hours : list Z) (persistence_hour : Z)
    (day : DailyData) (names : list string) :
  _forecasts day = Some names ->
  Forall (fun n => known n = true) names ->
  ~ In "airnow" names ->
  RMSE_call location_data sqrtQ hours persistence_hour day = Raise KeyError
  /\ MeanExcessExposure_call location_data hours day = Raise KeyError
  /\ IsSmokeDay_call location_data threshold hours persistence_hour day = Raise KeyError.
Proof.
  intros Hcfg Hknown Hair.
  destruct (forecasts_get day names Hcfg Hknown) as [d [Hd Hget]].
  assert (Hpop : dict_pop "airnow" d = @Raise (Forecast * dict Forecast) KeyError).
  { unfold dict_pop. rewrite Hget.
    destruct (isin names "airnow") eqn:E; [| reflexivity].
    apply isin_In in E. contradiction. }
  unfold RMSE_call, MeanExcessExposure_call, IsSmokeDay_call.
  rewrite Hd. cbn [rbind]. rewrite Hpop. repeat split; reflexivity.
Qed.

(** A name that [build_forecast] rejects makes every metric raise
    [ValueError], whether or not "airnow" is configured. *)
Lemma metrics_unknown_source
    (threshold : Q) (hours : list Z) (persistence_hour : Z)
    (day : DailyData) (names : list string) :
  _forecasts day = Some names ->
  Exists (fun n => known n = false) names ->
  RMSE_call location_data sqrtQ hours persistence_hour day = Raise ValueError
  /\ MeanExcessExposure_call location_data hours day = Raise ValueError
  /\ IsSmokeDay_call location_data threshold hours persistence_hour day = Raise ValueError.
Proof.
  intros Hcfg Hex.
  assert (Hd : forecasts day = Raise ValueError).
  { unfold forecasts. rewrite Hcfg. by apply build_all_unknown. }
  unfold RMSE_call, MeanExcessExposure_call, IsSmokeDay_call.
  rewrite Hd. repeat split; reflexivity.
Qed.


Lemma hourly_nonempty (hours : list Z) (f : Forecast) :
  hours <> [] -> hourly location_data hours f <> [].
Proof. unfold hourly. destruct hours; [congruence | discriminate]. Qed.


Let np_argmin_of (l : list np_float) : nat :=
  match np_argmin l with
  | Ok r => r
  | Raise _ => O
  end.

Lemma argmins_total (hours : list Z) (d : dict Forecast) :
  hours <> [] ->
  dict_mapM np_argmin (dict_map (hourly location_data hours) d)
  = Ok (dict_map np_argmin_of (dict_map (hourly location_data hours) d)).
Proof.
  intros Hne. apply dict_mapM_total. intros l Hl.
  unfold dict_map in Hl. rewrite map_map in Hl.
  apply in_map_iff in Hl as [[k f] [<- _]]. cbn [snd].
  destruct (np_argmin_ok _ (hourly_nonempty hours f Hne)) as [r Hr].
  unfold np_argmin_of. by rewrite Hr.
Qed.

Lemma np_argmin_of_range (hours : list Z) (f : Forecast) :
  hours <> [] ->
  (np_argmin_of (hourly location_data hours f) < length hours)%nat.
Proof.
  intros Hne.
  destruct (np_argmin_ok _ (hourly_nonempty hours f Hne)) as [r Hr].
  unfold np_argmin_of. rewrite Hr.
  apply np_argmin_range in Hr. unfold hourly in Hr.
  by rewrite length_map in Hr.
Qed.

(** The excess exposures once the observed minimum [m] is known. *)
Lemma excess_total (hours : list Z) (d : dict Forecast) (airnow : Forecast)
    (m : np_float) :
  hours <> [] ->
  np_min (hourly location_data hours airnow) = Ok m ->
  dict_mapM
    (fun best_predicted_hour =>
       match nth_error (hourly location_data hours airnow) best_predicted_hour with
       | None => Raise IndexError
       | Some o =>
           m' <-! np_min (hourly location_data hours airnow) ;; Ok (np_sub o m')
       end)
    (dict_map np_argmin_of (dict_map (hourly location_data hours) d))
  = Ok (dict_map
          (fun best => np_sub (nth best (hourly location_data hours airnow) NaN) m)
          (dict_map np_argmin_of (dict_map (hourly location_data hours) d))).
Proof.
  intros Hne Hm. apply dict_mapM_total. intros best Hbest.
  unfold dict_map in Hbest. rewrite !map_map in Hbest.
  apply in_map_iff in Hbest as [[k f] [<- _]]. cbn [snd fst].
  pose proof (np_argmin_of_range hours f Hne) as Hr.
  rewrite (nth_error_nth' (hourly location_data hours airnow) NaN)
    by (unfold hourly at 2; rewrite length_map; exact Hr).
  rewrite Hm. reflexivity.
Qed.

Lemma MeanExcessExposure_unfold
    (hours : list Z) (day : DailyData) (names : list string) (d : dict Forecast)
    (m : np_float) :
  forecasts day = Ok d ->
  dict_pop "airnow" d = Ok (airnow_of day, dict_remove "airnow" d) ->
  hours <> [] ->
  np_min (hourly location_data hours (airnow_of day)) = Ok m ->
  MeanExcessExposure_call location_data hours day
  = Ok (dict_set "persistence"
          (np_sub (np_mean (hourly location_data hours (airnow_of day))) m)
          (dict_map
             (fun best =>
                np_sub (nth best (hourly location_data hours (airnow_of day)) NaN) m)
             (dict_map np_argmin_of (dict_map (hourly location_data hours) d)))).
Proof.
  intros Hd Hpop Hne Hm.
  unfold MeanExcessExposure_call. rewrite Hd. cbn [rbind].
  rewrite Hpop. cbn [rbind fst].
  fold (hourly location_data hours (airnow_of day)).
  rewrite (argmins_total hours d Hne). cbn [rbind].
  rewrite (excess_total hours d (airnow_of day) m Hne Hm). cbn [rbind].
  rewrite Hm. reflexivity.
Qed.

Lemma MeanExcessExposure_entry
    (hours : list Z) (day : DailyData) (names : list string) (d : dict Forecast)
    (m x : np_float) (name : string) (f : Forecast) :
  known name = true ->
  dict_get name d = Some f ->
  dict_get name
    (dict_set "persistence" x
       (dict_map
          (fun best =>
             np_sub (nth best (hourly location_data hours (airnow_of day)) NaN) m)
          (dict_map np_argmin_of (dict_map (hourly location_data hours) d))))
  = Some (np_sub (nth (np_argmin_of (hourly location_data hours f))
                      (hourly location_data hours (airnow_of day)) NaN) m).
Proof.
  intros Hk Hgf. destruct (known_not_reserved name Hk) as [Hp _].
  rewrite dict_get_set, Hp, !dict_get_map, Hgf. reflexivity.
Qed.


Lemma squared_errors_nan (observed predicted : list np_float) :
  length observed = length predicted ->
  In NaN observed \/ In NaN predicted ->
  In NaN (squared_errors observed predicted).
Proof.
  unfold squared_errors. revert predicted.
  induction observed as [| o observed IH]; intros [| p predicted] Hlen Hin;
    try discriminate.
  - destruct Hin as [[] | []].
  - simpl. injection Hlen as Hlen.
    destruct Hin as [[-> | Hin] | [-> | Hin]].
    + by left.
    + right. apply IH; [exact Hlen | by left].
    + left. by destruct o.
    + right. apply IH; [exact Hlen | by right].
Qed.

Lemma hourly_missing (hours : list Z) (f : Forecast) (h : Z) :
  In h hours ->
  hour_mean (location_data f) h = NaN ->
  In NaN (hourly location_data hours f).
Proof. intros Hin Hnan. unfold hourly. rewrite <- Hnan. by apply in_map. Qed.

Lemma dict_get_map_inv {V W : Type} (F : V -> W) (k : string) (d : dict V) (w : W) :
  dict_get k (dict_map F d) = Some w ->
  exists u, In u (map snd d) /\ w = F u.
Proof.
  rewrite dict_get_map. destruct (dict_get k d) as [u |] eqn:Hu; [| discriminate].
  intros [= <-]. exists u. split; [by apply (dict_get_In k) | reflexivity].
Qed.

Lemma np_sub_nan_r (a : np_float) : np_sub a NaN = NaN.
Proof. by destruct a. Qed.

Let rmse_of (observed predicted : list np_float) : np_float :=
  np_sqrt sqrtQ (np_mean (squared_errors observed predicted)).

Lemma rmse_of_nan (hours : list Z) (airnow f : Forecast) :
  In NaN (hourly location_data hours airnow) \/ In NaN (hourly location_data hours f) ->
  rmse_of (hourly location_data hours airnow) (hourly location_data hours f) = NaN.
Proof.
  intros Hin. unfold rmse_of.
  rewrite np_mean_nan; [reflexivity |].
  apply squared_errors_nan; [| exact Hin].
  unfold hourly. by rewrite !length_map.
Qed.

(** C7, as the code has it.  When the location data of a configured
    source has no row at some hour of the window, that hour's average
    is not a number and the RMSE score of that source is not a number;
    when the source is the observation source "airnow", every RMSE
    entry and every Mean Excess Exposure entry is not a number. *)
Theorem missing_hour_scores
    (hours : list Z) (persistence_hour : Z) (day : DailyData)
    (names : list string) (name : string) (f : Forecast) (h : Z) :
  _forecasts day = Some names ->
  Forall (fun n => known n = true) names ->
  In "airnow" names ->
  In name names ->
  build_forecast day name = Ok f ->
  In h hours ->
  (forall r, In r (location_data f) -> ValidTime r <> h) ->
  hour_mean (location_data f) h = NaN
  /\ (exists rmses,
        RMSE_call location_data sqrtQ hours persistence_hour day = Ok rmses
        /\ dict_get name rmses = Some NaN
        /\ (name = "airnow" -> forall k v, dict_get k rmses = Some v -> v = NaN))
  /\ (name = "airnow" ->
      exists scores,
        MeanExcessExposure_call location_data hours day = Ok scores
        /\ forall k v, dict_get k scores = Some v -> v = NaN).
Proof.
  intros Hcfg Hknown Hair Hin Hf Hh Hmiss.
  pose proof (hour_mean_missing (location_data f) h Hmiss) as Hnan.
  pose proof (hourly_missing hours f h Hh Hnan) as Hseries.
  assert (Hne : hours <> []) by (intros ->; destruct Hh).
  destruct (forecasts_with_airnow day names Hcfg Hknown Hair) as [d (Hd & Hpop & Hget)].
  destruct (forecasts_entry day names d name Hknown Hget Hin) as [f' [Hf' Hgf]].
  rewrite Hf in Hf'. injection Hf' as <-.
  assert (Hk : known name = true)
    by (exact (proj1 (List.Forall_forall _ _) Hknown name Hin)).
  destruct (known_not_reserved name Hk) as [Hp _].
  split; [exact Hnan |]. split.
  - eexists. split.
    { unfold RMSE_call. rewrite Hd. cbn [rbind]. rewrite Hpop. cbn [rbind fst].
      fold (hourly location_data hours (airnow_of day)).
      fold (rmse_of (hourly location_data hours (airnow_of day))).
      reflexivity. }
    split.
    { rewrite dict_get_set, Hp, !dict_get_map, Hgf. cbn [option_map].
      f_equal. apply rmse_of_nan. by right. }
    intros -> k v.
    change (build_forecast day "airnow") with (Ok (airnow_of day)) in Hf.
    injection Hf as <-.
    rewrite dict_get_set. destruct (String.eqb "persistence" k).
    + intros [= <-]. rewrite np_mean_nan; [reflexivity |].
      apply in_map_iff. exists NaN. split; [reflexivity | exact Hseries].
    + intros Hv. apply dict_get_map_inv in Hv as [u [Hu ->]].
      unfold dict_map in Hu. rewrite map_map in Hu.
      apply in_map_iff in Hu as [[k' f'] [<- _]]. cbn [snd].
      apply rmse_of_nan. by left.
  - intros ->.
    change (build_forecast day "airnow") with (Ok (airnow_of day)) in Hf.
    injection Hf as <-.
    pose proof (np_min_nan _ (hourly_nonempty hours (airnow_of day) Hne) Hseries) as Hm.
    eexists. split;
      [apply (MeanExcessExposure_unfold hours day names d NaN Hd Hpop Hne Hm) |].
    intros k v. rewrite dict_get_set. destruct (String.eqb "persistence" k).
    + intros [= <-]. apply np_sub_nan_r.
    + intros Hv. apply dict_get_map_inv in Hv as [u [_ ->]]. apply np_sub_nan_r.
Qed.

End MetricFacts.

(** ** The metrics on the example days *)

Ltac known_names := repeat constructor.
Ltac no_nan := vm_compute; intuition discriminate.

(** Observed window [50, 10, 30] and a source predicting [5, 40, 20]:
    the source's lowest prediction is at the first hour, where 50 was
    observed; its score is 50 - 10 = 40. *)
Example MeanExcessExposure_example :
  MeanExcessExposure_call exposure_tables [13; 14; 15]%Z example_day
  = Ok [ ("airnow", Val 0); ("cams", Val 40); ("persistence", Val (60 # 3)) ].
Proof. reflexivity. Qed.


(** Observed window [10, 20, 40, 15] with threshold 35: "observed" is
    true; a source whose largest prediction is 30: false. *)
Example IsSmokeDay_example :
  IsSmokeDay_call smoke_tables 35 [13; 14; 15; 16]%Z 11 example_day
  = Ok [ ("airnow", true); ("cams", false); ("persistence", false);
         ("observed", true) ].
Proof. reflexivity. Qed.


(** The maximum must exceed the threshold: a window that peaks at
    exactly 35 is not a smoke day. *)
Example np_gt_strict :
  np_max [Val 10; Val 35; Val 20] = Ok (Val 35)
  /\ np_gt (Val 35) default_threshold = false.
Proof. split; reflexivity. Qed.

(** C7, counterexample.  The forecast source has no row at hour 14, its
    average there is not a number, and yet its Mean Excess Exposure
    score is the number 0: [np.argmin] settles on the missing hour,
    where the observation happens to be lowest. *)
Lemma MeanExcessExposure_gap_counterexample :
  hour_mean (gap_tables (CAMSForecast "Boston, MA--NH Urban Area" (mkDate 2023 6 7) "data"))
            14 = NaN
  /\ MeanExcessExposure_call gap_tables [13; 14; 15]%Z example_day
     = Ok [ ("airnow", Val 0); ("cams", Val 0); ("persistence", Val (60 # 3)) ].
Proof. split; reflexivity. Qed.

Lemma missing_hour_scores_witness :
  hour_mean (gap_tables (CAMSForecast "Boston, MA--NH Urban Area" (mkDate 2023 6 7) "data"))
            14 = NaN
  /\ exists rmses,
      RMSE_call gap_tables sqrt_approx [13; 14; 15]%Z 11 example_day = Ok rmses
      /\ dict_get "cams" rmses = Some NaN.
Proof.
  destruct (missing_hour_scores gap_tables sqrt_approx [13; 14; 15]%Z 11 example_day
              ["airnow"; "cams"] "cams"
              (CAMSForecast "Boston, MA--NH Urban Area" (mkDate 2023 6 7) "data") 14)
    as (Hnan & (rmses & Hcall & Hget & _) & _).
  - reflexivity.
  - known_names.
  - by left.
  - right. by left.
  - reflexivity.
  - right. by left.
  - intros r [<- | [<- | []]]; discriminate.
  - split; [exact Hnan |]. exists rmses. by split.
Defined.

(** C10, counterexample.  "airnow" is not configured, and the metrics
    raise [ValueError], not [KeyError]: the unknown name is rejected
    while the dictionary of forecasts is built, before the pop. *)
Lemma metrics_unknown_source_counterexample :
  ~ In "airnow" ["hrrr"; "bogus"]
  /\ RMSE_call gap_tables sqrt_approx default_hours_to_include
               default_persistence_hour misconfigured_day = Raise ValueError
  /\ MeanExcessExposure_call gap_tables default_hours_to_include misconfigured_day
     = Raise ValueError
  /\ IsSmokeDay_call gap_tables default_threshold default_hours_to_include
                     default_persistence_hour misconfigured_day = Raise ValueError.
Proof.
  split; [simpl; intuition discriminate |].
  repeat split; reflexivity.
Qed.

Lemma metrics_without_airnow_witness :
  RMSE_call gap_tables sqrt_approx default_hours_to_include
            default_persistence_hour day_without_airnow = Raise KeyError
  /\ MeanExcessExposure_call gap_tables default_hours_to_include day_without_airnow
     = Raise KeyError
  /\ IsSmokeDay_call gap_tables default_threshold default_hours_to_include
                     default_persistence_hour day_without_airnow = Raise KeyError.
Proof.
  apply (metrics_without_airnow gap_tables sqrt_approx default_threshold
           default_hours_to_include default_persistence_hour
           day_without_airnow ["hrrr"; "cams"]).
  - reflexivity.
  - known_names.
  - simpl. intuition discriminate.
Defined.

(** ** The grid index codec *)

Lemma round_half_even_close (x : Q) :
  (inject_Z (round_half_even x) - (1 # 2) <= x
   <= inject_Z (round_half_even x) + (1 # 2))%Q.
Proof.
  unfold round_half_even.
  pose proof (Qfloor_le x) as Hlo.
  pose proof (Qlt_floor x) as Hhi.
  rewrite inject_Z_plus in Hhi. change (inject_Z 1) with 1%Q in Hhi.
  destruct (Qcompare_spec (x - inject_Z (Qfloor x)) (1 # 2)) as [Heq | Hlt | Hgt].
  - destruct (Z.even (Qfloor x)).
    + lra.
    + rewrite inject_Z_plus. change (inject_Z 1) with 1%Q. lra.
  - lra.
  - rewrite inject_Z_plus. change (inject_Z 1) with 1%Q. lra.
Qed.

(** Rounding to six decimals moves a coordinate by at most 1e-6 (in
    fact by at most half of that). *)
Lemma round6_close (q : Q) : (Qabs (round6 q - q) <= 1 # 1000000)%Q.
Proof.
  pose proof (round_half_even_close (q * 1000000)) as [Hlo Hhi].
  unfold round6.
  set (z := round_half_even (q * 1000000)) in *.
  assert (Hz : (z # 1000000 == inject_Z z * (1 # 1000000))%Q).
  { unfold Qeq, inject_Z, Qmult. simpl. lia. }
  rewrite Hz. apply Qabs_Qle_condition. split; lra.
Qed.

Lemma round6_comp (q1 q2 : Q) : (q1 == q2)%Q -> round6 q1 = round6 q2.
Proof.
  intros H. unfold round6, round_half_even.
  assert (H6 : (q1 * 1000000 == q2 * 1000000)%Q) by (by rewrite H).
  rewrite (Qfloor_comp _ _ H6).
  assert (Hc : ((q1 * 1000000 - inject_Z (Qfloor (q2 * 1000000)) ?= 1 # 2)
                = (q2 * 1000000 - inject_Z (Qfloor (q2 * 1000000)) ?= 1 # 2))%Q).
  { apply Qcompare_comp; [by rewrite H6 | reflexivity]. }
  rewrite Hc. reflexivity.
Qed.

Lemma same_latlon_iff (a b : LatLon) :
  same_latlon a b = true <-> (fst a == fst b)%Q /\ (snd a == snd b)%Q.
Proof. unfold same_latlon. rewrite andb_true_iff, !Qeq_bool_iff. reflexivity. Qed.

Lemma same_latlon_refl (a : LatLon) : same_latlon a a = true.
Proof. apply same_latlon_iff. split; reflexivity. Qed.

Lemma same_latlon_trans (a b c : LatLon) :
  same_latlon a b = true -> same_latlon b c = true -> same_latlon a c = true.
Proof.
  rewrite !same_latlon_iff. intros [H1 H2] [H3 H4].
  split; [by rewrite H1 | by rewrite H2].
Qed.

Lemma unique_latlons_represents (l : list LatLon) (p : LatLon) :
  In p l -> exists u, In u (unique_latlons l) /\ same_latlon u p = true.
Proof.
  induction l as [| a l IH]; intros Hin; [destruct Hin |].
  destruct Hin as [-> | Hin].
  - exists p. split; [by left | apply same_latlon_refl].
  - destruct (IH Hin) as [u [Hu Hsame]].
    destruct (same_latlon a u) eqn:Hau.
    + exists a. split; [by left | by apply (same_latlon_trans a u p)].
    + exists u. split; [| exact Hsame].
      simpl. right. apply filter_In. split; [exact Hu | by rewrite Hau].
Qed.

(** The index built from a table covers that table. *)
Lemma build_latlon_idx_covers (prediction : DataFrame) :
  covered (build_latlon_idx prediction) prediction.
Proof.
  intros r Hr.
  destruct (unique_latlons_represents (coords prediction) (Latitude r, Longitude r))
    as [u [Hu Hsame]].
  { unfold coords. apply in_map_iff. exists r. by split. }
  exists (round6_pair u). split.
  - unfold build_latlon_idx, savetxt. by apply in_map.
  - apply same_latlon_iff in Hsame as [H1 H2]. cbn [fst snd] in *.
    unfold round6_pair. rewrite (round6_comp _ _ H1), (round6_comp _ _ H2).
    apply same_latlon_refl.
Qed.

Lemma idx_lookup_from_found (i : nat) (rows : list LatLon) (key : LatLon) (j : nat) :
  idx_lookup_from i rows key = Some j ->
  (i <= j)%nat
  /\ exists r, nth_error rows (j - i) = Some r /\ same_latlon r key = true.
Proof.
  revert i. induction rows as [| r rows IH]; intros i; [discriminate |].
  simpl. destruct (idx_lookup_from (S i) rows key) as [j' |] eqn:Hrest.
  - intros [= ->]. destruct (IH (S i) Hrest) as [Hle [r' [Hnth Hsame]]].
    split; [lia |]. exists r'. split; [| exact Hsame].
    replace (j - i)%nat with (S (j - S i)) by lia. exact Hnth.
  - destruct (same_latlon r key) eqn:Hsame; [| discriminate].
    intros [= ->]. split; [lia |]. exists r.
    rewrite Nat.sub_diag. by split.
Qed.

Lemma idx_lookup_from_covered (i : nat) (rows : list LatLon) (key : LatLon) :
  (exists l, In l rows /\ same_latlon l key = true) ->
  exists j, idx_lookup_from i rows key = Some j.
Proof.
  revert i. induction rows as [| r rows IH]; intros i [l [Hin Hsame]];
    [destruct Hin |].
  simpl. destruct (idx_lookup_from (S i) rows key) as [j |] eqn:Hrest;
    [by exists j |].
  destruct Hin as [-> | Hin].
  - rewrite Hsame. by exists i.
  - destruct (IH (S i)) as [j Hj]; [by exists l | congruence].
Qed.

Lemma mapM_Forall2 {A B : Type} (f : A -> result B) (l : list A) (out : list B) :
  mapM f l = Ok out -> Forall2 (fun a b => f a = Ok b) l out.
Proof.
  revert out. induction l as [| a l IH]; intros out; simpl.
  - intros [= <-]. constructor.
  - destruct (f a) as [b |] eqn:Hb; [| discriminate]. simpl.
    destruct (mapM f l) as [bs |]; [| discriminate]. simpl.
    intros [= <-]. constructor; [exact Hb | by apply IH].
Qed.

Lemma mapM_total {A B : Type} (f : A -> result B) (g : A -> B) (l : list A) :
  (forall a, In a l -> f a = Ok (g a)) -> mapM f l = Ok (map g l).
Proof.
  induction l as [| a l IH]; intros Hf; [reflexivity |].
  simpl. rewrite (Hf a) by (by left). simpl.
  rewrite IH by (intros a' Ha'; apply Hf; by right). reflexivity.
Qed.

Lemma loadtxt_two_lines (lines : list LatLon) :
  (2 <= length lines)%nat -> loadtxt lines = Arr2 lines.
Proof. destruct lines as [| a [| b rest]]; simpl; [lia | lia | reflexivity]. Qed.

(** What a successful encoding against a persisted index records in
    each row. *)
Lemma latlon_to_idx_convert_rows
    (lines : list LatLon) (prediction : DataFrame) (encoded : list IdxReading) :
  fst (latlon_to_idx_convert (Some lines) prediction) = Ok encoded ->
  Forall2 (fun r e =>
             idx_lookup lines (round6 (Latitude r), round6 (Longitude r))
             = Some (LatLonIdx e)
             /\ idx_ValidTime e = ValidTime r
             /\ idx_PM25 e = PM25 r)
          prediction encoded.
Proof.
  unfold latlon_to_idx_convert. cbn [fst].
  destruct lines as [| a [| b rest]]; cbn [loadtxt].
  - destruct prediction; [intros [= <-]; constructor | discriminate].
  - discriminate.
  - intros H. apply mapM_Forall2 in H.
    induction H as [| r e X enc Hre _ IH]; constructor; [| exact IH].
    destruct (idx_lookup (a :: b :: rest) (round6 (Latitude r), round6 (Longitude r)));
      [| discriminate].
    injection Hre as <-. repeat split.
Qed.

Lemma combine_map_self {A B : Type} (f : A -> B) (l : list A) :
  combine l (map f l) = map (fun x => (x, f x)) l.
Proof. induction l as [| a l IH]; [reflexivity |]. simpl. by rewrite IH. Qed.

Lemma Forall2_nth_error_both {A B : Type} (P : A -> B -> Prop)
    (l1 : list A) (l2 : list B) (i : nat) (a : A) (b : B) :
  Forall2 P l1 l2 -> nth_error l1 i = Some a -> nth_error l2 i = Some b -> P a b.
Proof.
  intros H. revert i. induction H as [| x y l1 l2 Hxy _ IH]; intros i.
  - destruct i; discriminate.
  - destruct i as [| i]; simpl.
    + intros [= <-] [= <-]. exact Hxy.
    + apply IH.
Qed.

Lemma latlon_to_idx_convert_in_force (idx_file : option (list LatLon)) (X : DataFrame) :
  latlon_to_idx_convert idx_file X
  = latlon_to_idx_convert (Some (index_in_force idx_file X)) X.
Proof. destruct idx_file; reflexivity. Qed.

Lemma latlon_to_idx_convert_covered (lines : list LatLon) (X : DataFrame) :
  (2 <= length lines)%nat ->
  covered lines X ->
  exists encoded, latlon_to_idx_convert (Some lines) X = (Ok encoded, Some lines).
Proof.
  intros Hlen Hcov. unfold latlon_to_idx_convert.
  rewrite (loadtxt_two_lines lines Hlen).
  eexists. f_equal.
  apply (mapM_total _
           (fun r => mkIdxReading
                       (match idx_lookup lines (round6 (Latitude r), round6 (Longitude r)) with
                        | Some i => i
                        | None => O
                        end)
                       (ValidTime r) (PM25 r))).
  intros r Hr.
  destruct (idx_lookup_from_covered 0 lines _ (Hcov r Hr)) as [j Hj].
  unfold idx_lookup. by rewrite Hj.
Qed.

Lemma idx_to_latlon_convert_rows (lines : list LatLon) (encoded : list IdxReading) :
  (2 <= length lines)%nat ->
  Forall (fun e => (LatLonIdx e < length lines)%nat) encoded ->
  idx_to_latlon_convert (Some lines) encoded = Ok (map (decoded_row lines) encoded).
Proof.
  intros Hlen Hrange. unfold idx_to_latlon_convert.
  rewrite (loadtxt_two_lines lines Hlen).
  rewrite (iloc_in_range lines _ (0, 0)%Q).
  - cbn [rbind]. rewrite map_map, combine_map_self, map_map. reflexivity.
  - apply List.Forall_forall. intros i Hi.
    apply in_map_iff in Hi as [e [<- He]].
    exact (proj1 (List.Forall_forall _ _) Hrange e He).
Qed.

Lemma Forall2_right_all {A B : Type} (P : B -> Prop) (R : A -> B -> Prop)
    (l1 : list A) (l2 : list B) :
  Forall2 (fun a b => P b /\ R a b) l1 l2 -> Forall P l2.
Proof. induction 1 as [| a b ? ? [Hp _] _ IH]; by constructor. Qed.

Lemma Forall2_right_map {A B C : Type} (P : B -> Prop) (R : A -> C -> Prop) (g : B -> C)
    (l1 : list A) (l2 : list B) :
  Forall2 (fun a b => P b /\ R a (g b)) l1 l2 -> Forall2 R l1 (map g l2).
Proof. induction 1 as [| a b ? ? [_ Hr] _ IH]; simpl; by constructor. Qed.

Lemma restores_rows (lines : list LatLon) (X : DataFrame) (encoded : list IdxReading) :
  Forall2 (fun r e =>
             idx_lookup lines (round6 (Latitude r), round6 (Longitude r))
             = Some (LatLonIdx e)
             /\ idx_ValidTime e = ValidTime r
             /\ idx_PM25 e = PM25 r)
          X encoded ->
  Forall2 (fun r e =>
             (LatLonIdx e < length lines)%nat /\ restores r (decoded_row lines e))
          X encoded.
Proof.
  induction 1 as [| r e X' enc' (Hlook & Hvt & Hpm) _ IH]; constructor; [| exact IH].
  apply idx_lookup_from_found in Hlook as [_ [l [Hnth Hsame]]].
  rewrite Nat.sub_0_r in Hnth.
  assert (Hi : (LatLonIdx e < length lines)%nat)
    by (apply nth_error_Some; congruence).
  split; [exact Hi |].
  apply same_latlon_iff in Hsame as [Hlat Hlon]. cbn [fst snd] in *.
  unfold restores, decoded_row. cbn [Latitude Longitude ValidTime PM25].
  rewrite (nth_error_nth lines (LatLonIdx e) (0, 0)%Q Hnth).
  split; [exact Hlat |]. split; [exact Hlon |].
  split; [rewrite Hlat; apply round6_close |].
  split; [rewrite Hlon; apply round6_close |].
  by split.
Qed.

(** C4, as the code has it.  Take the index file in force for an
    encoding call (the persisted one, or the one built from the table
    when none is persisted).  If it has at least two lines and, when it
    was persisted earlier, holds every rounded coordinate pair of the
    table, then encoding succeeds, decoding the encoded table against
    the same index succeeds, and every decoded row carries the original
    coordinates rounded to six decimals, within 1e-6 of the originals,
    with the other columns unchanged.  Moreover any other table encoded
    against the same index receives, for a row with the same
    coordinates, the same integer index. *)
Theorem codec_roundtrip (idx_file : option (list LatLon)) (X : DataFrame) :
  (2 <= length (index_in_force idx_file X))%nat ->
  (forall lines, idx_file = Some lines -> covered lines X) ->
  exists encoded decoded,
    latlon_to_idx_convert idx_file X = (Ok encoded, Some (index_in_force idx_file X))
    /\ idx_to_latlon_convert (Some (index_in_force idx_file X)) encoded = Ok decoded
    /\ Forall2 restores X decoded
    /\ forall (Y : DataFrame) (encodedY : list IdxReading),
         fst (latlon_to_idx_convert (Some (index_in_force idx_file X)) Y) = Ok encodedY ->
         forall i j rx ry ex ey,
           nth_error X i = Some rx -> nth_error encoded i = Some ex ->
           nth_error Y j = Some ry -> nth_error encodedY j = Some ey ->
           (Latitude rx == Latitude ry)%Q -> (Longitude rx == Longitude ry)%Q ->
           LatLonIdx ex = LatLonIdx ey.
Proof.
  intros Hlen Hpersisted.
  set (lines := index_in_force idx_file X) in *.
  assert (Hcov : covered lines X).
  { unfold lines. destruct idx_file as [l |]; cbn [index_in_force].
    - by apply Hpersisted.
    - apply build_latlon_idx_covers. }
  destruct (latlon_to_idx_convert_covered lines X Hlen Hcov) as [encoded Henc].
  pose proof (latlon_to_idx_convert_rows lines X encoded) as Hrows.
  rewrite Henc in Hrows. specialize (Hrows eq_refl).
  exists encoded, (map (decoded_row lines) encoded).
  split; [rewrite latlon_to_idx_convert_in_force; exact Henc |].
  pose proof (restores_rows lines X encoded Hrows) as Hfound.
  split.
  { apply idx_to_latlon_convert_rows; [exact Hlen |].
    apply (Forall2_right_all _ _ _ _ Hfound). }
  split.
  { apply (Forall2_right_map _ _ _ _ _ Hfound). }
  intros Y encodedY HencY i j rx ry ex ey Hrx Hex Hry Hey Hlat Hlon.
  pose proof (latlon_to_idx_convert_rows lines Y encodedY HencY) as HrowsY.
  destruct (Forall2_nth_error_both _ _ _ _ _ _ Hrows Hrx Hex) as [Hx _].
  destruct (Forall2_nth_error_both _ _ _ _ _ _ HrowsY Hry Hey) as [Hy _].
  rewrite (round6_comp _ _ Hlat), (round6_comp _ _ Hlon) in Hx.
  congruence.
Qed.

(** C4, counterexample.  Against a persisted index that lacks the
    point of the table, encoding raises [KeyError]; and for a table on
    a single point with no index persisted, the index built from it has
    one line, which [np.loadtxt] squeezes to a one-dimensional array,
    and encoding raises [IndexError].  In both cases there is nothing
    to decode. *)
Lemma codec_counterexample :
  latlon_to_idx_convert (Some two_point_index) off_grid_table
  = (Raise KeyError, Some two_point_index)
  /\ fst (latlon_to_idx_convert None single_point_table) = Raise IndexError.
Proof. split; reflexivity. Qed.

(** Decoding without an index file is refused. *)
Lemma idx_to_latlon_convert_no_index (prediction : list IdxReading) :
  idx_to_latlon_convert None prediction = Raise FileNotFoundError.
Proof. reflexivity. Qed.

Lemma codec_roundtrip_witness :
  exists encoded decoded,
    latlon_to_idx_convert None fine_grid_table
    = (Ok encoded, Some (index_in_force None fine_grid_table))
    /\ idx_to_latlon_convert (Some (index_in_force None fine_grid_table)) encoded
       = Ok decoded
    /\ Forall2 restores fine_grid_table decoded
    /\ map LatLonIdx encoded = [0; 1; 0]%nat.
Proof.
  destruct (codec_roundtrip None fine_grid_table) as (encoded & decoded & H1 & H2 & H3 & _).
  - vm_compute. lia.
  - discriminate.
  - exists encoded, decoded. split; [exact H1 |]. split; [exact H2 |].
    split; [exact H3 |].
    vm_compute in H1. injection H1 as <-. reflexivity.
Defined.

(** ** The lazy cache *)

Section CacheFacts.

Variable csv : Type.
Variable to_csv : DataFrame -> csv.
Variable read_csv : csv -> DataFrame.
Variable idx_to_csv : list IdxReading -> csv.
Variable read_idx_csv : csv -> list IdxReading.
Variable savetxt_text : list LatLon -> csv.
Variable loadtxt_text : csv -> list LatLon.
Variable download_fn : Forecast -> gmap path csv -> option DataFrame * gmap path csv.

Let access :=
  data to_csv read_csv idx_to_csv read_idx_csv savetxt_text loadtxt_text download_fn.
Let fetch := download to_csv idx_to_csv savetxt_text loadtxt_text download_fn.
Let load := load_day read_csv read_idx_csv loadtxt_text.

Lemma is_downloaded_present (self : Forecast) (w : World csv) (c : csv) :
  files w !! datapath self = Some c -> is_downloaded self w = true.
Proof.
  intros H. unfold is_downloaded, path_exists. rewrite H.
  apply bool_decide_eq_true. by eexists.
Qed.

(** With the day file on disk [download] does nothing. *)
Lemma download_cached (self : Forecast) (w : World csv) (c : csv) :
  files w !! datapath self = Some c -> fetch self w = (Ok tt, w).
Proof.
  intros H. unfold fetch, download, GenericForecast_download, HRRRForecast_download.
  rewrite (is_downloaded_present self w c H). by destruct (kind self).
Qed.

Lemma data_cached_unfold (self : Forecast) (w : World csv) (c : csv) :
  files w !! datapath self = Some c ->
  _data self = None ->
  access self w
  = (match load self w with
     | Ok d => Ok (d, set_data self d)
     | Raise e => Raise e
     end, w).
Proof.
  intros H Hnone. unfold access, data. rewrite Hnone.
  fold fetch. rewrite (download_cached self w c H).
  fold load. by destruct (load self w).
Qed.

Lemma datapath_identity (a b : Forecast) :
  same_identity a b -> datapath a = datapath b.
Proof.
  intros (_ & Hn & Hd & Hdir & _). unfold datapath. by rewrite Hn, Hd, Hdir.
Qed.

Lemma load_day_identity (a b : Forecast) (w : World csv) :
  same_identity a b -> load a w = load b w.
Proof.
  intros Hid. pose proof (datapath_identity a b Hid) as Hp.
  destruct Hid as (Hk & _ & _ & Hdir & _).
  unfold load, load_day, idx_file_of, latlon_idx_path. by rewrite Hp, Hk, Hdir.
Qed.

(** C1, as the code has it.  Once the raw day file of an entity is on
    disk, an access to [data] by an entity that holds nothing in memory
    leaves the world as it is (no adapter call, no write); a second
    access on the same entity returns the same table from memory; and
    an access by any other entity of the same identity has the same
    outcome.  For the generic sources the outcome is the table read
    from the file; for HRRR it is the decoded table provided the index
    file is present with at least two lines and holds every index of
    the cached rows. *)
Theorem data_cached (self : Forecast) (w : World csv) (c : csv) :
  files w !! datapath self = Some c ->
  _data self = None ->
  snd (data to_csv read_csv idx_to_csv read_idx_csv savetxt_text loadtxt_text
            download_fn self w) = w
  /\ (forall d self1,
        fst (data to_csv read_csv idx_to_csv read_idx_csv savetxt_text loadtxt_text
                  download_fn self w) = Ok (d, self1) ->
        data to_csv read_csv idx_to_csv read_idx_csv savetxt_text loadtxt_text
             download_fn self1 w = (Ok (d, self1), w))
  /\ (forall other,
        same_identity self other -> _data other = None ->
        snd (data to_csv read_csv idx_to_csv read_idx_csv savetxt_text loadtxt_text
                  download_fn other w) = w
        /\ table_of (fst (data to_csv read_csv idx_to_csv read_idx_csv savetxt_text
                               loadtxt_text download_fn other w))
           = table_of (fst (data to_csv read_csv idx_to_csv read_idx_csv savetxt_text
                                 loadtxt_text download_fn self w)))
  /\ (kind self <> HRRR ->
      table_of (fst (data to_csv read_csv idx_to_csv read_idx_csv savetxt_text
                          loadtxt_text download_fn self w))
      = Ok (read_csv c))
  /\ (kind self = HRRR ->
      forall lines,
        idx_file_of loadtxt_text self w = Some lines ->
        (2 <= length lines)%nat ->
        Forall (fun e => (LatLonIdx e < length lines)%nat) (read_idx_csv c) ->
        table_of (fst (data to_csv read_csv idx_to_csv read_idx_csv savetxt_text
                            loadtxt_text download_fn self w))
        = Ok (map (decoded_row lines) (read_idx_csv c))).
Proof.
  intros H Hnone. fold access.
  rewrite (data_cached_unfold self w c H Hnone). cbn [fst snd].
  split; [reflexivity |]. split.
  { intros d self1 Heq. destruct (load self w) as [d' |]; [| discriminate].
    injection Heq as <- <-. reflexivity. }
  split.
  { intros other Hid Hother.
    assert (H' : files w !! datapath other = Some c)
      by (by rewrite <- (datapath_identity self other Hid)).
    rewrite (data_cached_unfold other w c H' Hother). cbn [fst snd].
    split; [reflexivity |].
    rewrite <- (load_day_identity self other w Hid).
    by destruct (load self w). }
  split.
  { intros Hk. unfold load, load_day. rewrite H.
    destruct (kind self); [reflexivity | congruence | reflexivity..]. }
  intros Hk lines Hidx Hlen Hrange.
  unfold load, load_day. rewrite H, Hk, Hidx.
  by rewrite (idx_to_latlon_convert_rows lines _ Hlen Hrange).
Qed.

(** The first access of a generic entity whose day file is absent:
    the adapter runs once, the table is written, and the access returns
    what is read back. *)
Lemma data_first_access (self : Forecast) (w : World csv) (d : DataFrame)
    (fs1 : gmap path csv) :
  kind self <> HRRR ->
  _data self = None ->
  files w !! datapath self = None ->
  download_fn self (files w) = (Some d, fs1) ->
  access self w
  = (Ok (read_csv (to_csv d), set_data self (read_csv (to_csv d))),
     mkWorld (<[datapath self := to_csv d]> fs1)
             (dirs w ∪ list_to_set (ancestors (parent (datapath self))))
             (adapter_calls w ++ [self])).
Proof.
  intros Hk Hnone Habsent Hdl.
  unfold access, data. rewrite Hnone.
  assert (Hfetch :
            download to_csv idx_to_csv savetxt_text loadtxt_text download_fn self w
            = (Ok tt,
               mkWorld (<[datapath self := to_csv d]> fs1)
                       (dirs w ∪ list_to_set (ancestors (parent (datapath self))))
                       (adapter_calls w ++ [self]))).
  { unfold download, GenericForecast_download, is_downloaded, path_exists.
    rewrite Habsent.
    rewrite bool_decide_eq_false_2 by (intros [? ?]; discriminate).
    unfold call_adapter. rewrite Hdl. cbn.
    destruct (kind self); [reflexivity | congruence | reflexivity..]. }
  rewrite Hfetch. unfold load_day. cbn [files].
  rewrite lookup_insert_eq.
  destruct (kind self); [reflexivity | congruence | reflexivity..].
Qed.

End CacheFacts.

(** C1, counterexample.  The raw day file of the HRRR entity is on
    disk, the index file is not: the access makes no adapter call, but
    it returns no table; decoding raises [FileNotFoundError]. *)
Lemma hrrr_data_without_index :
  files hrrr_cached_without_index !! datapath hrrr_entity
  = Some (IdxTableText [mkIdxReading 0 13 5])
  /\ run_data hrrr_entity hrrr_cached_without_index
     = (Raise FileNotFoundError, hrrr_cached_without_index).
Proof.
  assert (H : files hrrr_cached_without_index !! datapath hrrr_entity
              = Some (IdxTableText [mkIdxReading 0 13 5]))
    by apply lookup_singleton_eq.
  split; [exact H |].
  unfold run_data.
  rewrite (data_cached_unfold _ _ _ _ _ _ _ _ hrrr_entity hrrr_cached_without_index _ H eq_refl).
  unfold load_day. rewrite H. cbn [kind hrrr_entity HRRRForecast].
  unfold idx_file_of. cbn [files hrrr_cached_without_index].
  rewrite lookup_singleton_ne by discriminate. reflexivity.
Qed.

Lemma data_cached_witness :
  files cams_cached !! datapath cams_entity
  = Some (TableText (readings_at "" [at_hour 13 5; at_hour 14 40]))
  /\ snd (run_data cams_entity cams_cached) = cams_cached
  /\ table_of (fst (run_data cams_entity cams_cached))
     = Ok (readings_at "" [at_hour 13 5; at_hour 14 40])
  /\ table_of (fst (run_data (fresh cams_entity) cams_cached))
     = table_of (fst (run_data cams_entity cams_cached)).
Proof.
  assert (H : files cams_cached !! datapath cams_entity
              = Some (TableText (readings_at "" [at_hour 13 5; at_hour 14 40])))
    by apply lookup_singleton_eq.
  split; [exact H |].
  destruct (data_cached file_text TableText text_table IdxTableText text_idx_table
              LinesText text_lines offline_adapter cams_entity cams_cached _ H eq_refl)
    as (Hw & _ & Hother & Hgen & _).
  split; [exact Hw |].
  split; [apply Hgen; discriminate |].
  apply (Hother (fresh cams_entity)); [repeat split | reflexivity].
Defined.

(** ** Saving results *)

Lemma list_ascii_of_string_app (s1 s2 : string) :
  String.list_ascii_of_string (s1 +:+ s2)
  = String.list_ascii_of_string s1 ++ String.list_ascii_of_string s2.
Proof. induction s1 as [| a s1 IH]; [reflexivity |]. simpl. by rewrite IH. Qed.

Lemma string_app_inv_tail (s1 s2 t : string) : s1 +:+ t = s2 +:+ t -> s1 = s2.
Proof.
  intros H. apply (f_equal String.list_ascii_of_string) in H.
  rewrite !list_ascii_of_string_app in H. apply app_inv_tail in H.
  apply (f_equal String.string_of_list_ascii) in H.
  by rewrite !String.string_of_list_ascii_of_string in H.
Qed.

(** Different dates have different result files. *)
Lemma result_path_inj (self : Experiment) (date1 date2 : string) :
  result_path self date1 = result_path self date2 -> date1 = date2.
Proof.
  unfold result_path. intros H. injection H as H.
  by apply string_app_inv_tail in H.
Qed.

Section SaveFacts.

Variable json_text : day_result -> string.

Lemma save_day_files (self : Experiment) (date : string) (r : day_result) (d : Disk) :
  exists d',
    save_day json_text self date r d = (Ok tt, d')
    /\ result_files d'
       = match json_tricks_dumps json_text r with
         | Ok txt => <[result_path self date := txt]> (result_files d)
         | Raise _ => result_files d
         end.
Proof.
  unfold save_day, json_tricks_dump, json_tricks_dumps.
  destruct (has_nan r); eexists; split; reflexivity.
Qed.

(** C9.  [save_results] on a results dictionary (distinct dates)
    returns normally; for a date whose record cannot be serialized the
    result file is left exactly as it was (absent if it was absent:
    nothing is written, not even in part); for every other date the
    file holds the complete text of its record; files of other paths
    are untouched. *)
Theorem save_results_skips_unserializable
    (self : Experiment) (results : dict day_result) (d : Disk) :
  List.NoDup (dict_keys results) ->
  exists d',
    save_results json_text self results d = (Ok tt, d')
    /\ (forall date r e,
          In (date, r) results ->
          json_tricks_dumps json_text r = Raise e ->
          result_files d' !! result_path self date
          = result_files d !! result_path self date)
    /\ (forall date r txt,
          In (date, r) results ->
          json_tricks_dumps json_text r = Ok txt ->
          result_files d' !! result_path self date = Some txt)
    /\ (forall p,
          (forall date, In date (dict_keys results) -> p <> result_path self date) ->
          result_files d' !! p = result_files d !! p).
Proof.
  revert d. induction results as [| [date0 r0] rest IH]; intros d Hnd.
  - exists d. split; [reflexivity |].
    split; [intros ? ? ? [] |]. split; [intros ? ? ? [] | reflexivity].
  - cbn [dict_keys map fst] in Hnd. apply List.NoDup_cons_iff in Hnd as [Hfresh Hnd].
    destruct (save_day_files self date0 r0 d) as [d1 [Hstep Hfiles1]].
    destruct (IH d1 Hnd) as (d' & Hrun & Hfail & Hdone & Hother).
    assert (Hkeep : result_files d' !! result_path self date0
                    = result_files d1 !! result_path self date0).
    { apply Hother. intros date Hin Heq.
      apply result_path_inj in Heq. subst. contradiction. }
    assert (Hstep_other : forall p, p <> result_path self date0 ->
                                    result_files d1 !! p = result_files d !! p).
    { intros p0 Hp. rewrite Hfiles1.
      destruct (json_tricks_dumps json_text r0); [| reflexivity].
      by rewrite lookup_insert_ne. }
    exists d'. split; [cbn [save_results]; rewrite Hstep; exact Hrun |].
    split; [| split].
    + intros date r e [[= <- <-] | Hin] Hraise.
      * rewrite Hkeep, Hfiles1, Hraise. reflexivity.
      * rewrite (Hfail date r e Hin Hraise). apply Hstep_other.
        intros Heq. apply result_path_inj in Heq. subst.
        apply Hfresh. unfold dict_keys. apply in_map_iff.
        by exists (date0, r).
    + intros date r txt [[= <- <-] | Hin] Hok.
      * rewrite Hkeep, Hfiles1, Hok. apply lookup_insert_eq.
      * by apply (Hdone date r txt).
    + intros p0 Hp. rewrite Hother.
      * apply Hstep_other. apply Hp. cbn. by left.
      * intros date Hin. apply Hp. cbn. by right.
Qed.

End SaveFacts.

Lemma save_results_skips_unserializable_witness :
  exists d',
    save_results metric_names_text example_experiment example_results empty_disk
    = (Ok tt, d')
    /\ result_files d' !! result_path example_experiment "2023-06-07" = None
    /\ result_files d' !! result_path example_experiment "2023-06-08"
       = Some (metric_names_text complete_day).
Proof.
  destruct (save_results_skips_unserializable metric_names_text example_experiment
              example_results empty_disk)
    as (d' & Hrun & Hfail & Hdone & _).
  - repeat constructor; simpl; intuition discriminate.
  - exists d'. split; [exact Hrun |]. split.
    + rewrite (Hfail "2023-06-07" incomplete_day ValueError); [reflexivity | by left | reflexivity].
    + apply (Hdone "2023-06-08" complete_day); [right; by left | reflexivity].
Defined.

(** * Further properties *)

(** ** The observation source counted as a forecast *)

Section MetricExtras.

Variable tables : Forecast -> DataFrame.
Variable sqrtQ : Q -> Q.

Lemma known_airnow : known "airnow" = true.
Proof. reflexivity. Qed.

Lemma airnow_entry (day : DailyData) (names : list string) (d : dict Forecast) :
  In "airnow" names ->
  (forall k, dict_get k d = if isin names k then built day k else None) ->
  dict_get "airnow" d = Some (airnow_of day).
Proof.
  intros Hair Hget. rewrite Hget, (proj2 (isin_In names "airnow") Hair). reflexivity.
Qed.

(** X1.  The property [forecasts] is evaluated anew after the pop, so the
    observation source is scored like any forecast: its Mean Excess
    Exposure is observed-at-its-own-minimum minus the observed minimum,
    which is zero. *)
Theorem MeanExcessExposure_airnow_zero
    (hours : list Z) (day : DailyData) (names : list string) :
  _forecasts day = Some names ->
  Forall (fun n => known n = true) names ->
  In "airnow" names ->
  hours <> [] ->
  ~ In NaN (hourly tables hours (airnow_of day)) ->
  exists scores s,
    MeanExcessExposure_call tables hours day = Ok scores
    /\ dict_get "airnow" scores = Some (Val s)
    /\ (s == 0)%Q.
Proof.
  intros Hcfg Hknown Hair Hne Hobs.
  destruct (forecasts_with_airnow day names Hcfg Hknown Hair) as [d (Hd & Hpop & Hget)].
  pose proof (hourly_nonempty tables hours (airnow_of day) Hne) as Hone.
  destruct (np_min_val _ Hone Hobs) as [m (Hm & Hmin & Hmall)].
  destruct (np_argmin_min _ Hone Hobs) as (r & p & Hr & Hnth & Hpall).
  exists (dict_set "persistence"
            (np_sub (np_mean (hourly tables hours (airnow_of day))) (Val m))
            (dict_map
               (fun best => np_sub (nth best (hourly tables hours (airnow_of day)) NaN)
                                   (Val m))
               (dict_map
                  (fun l : list np_float =>
                     match np_argmin l with
                     | Ok r => r
                     | Raise _ => O
                     end)
                  (dict_map (hourly tables hours) d)))),
         (p - m)%Q.
  split; [apply (MeanExcessExposure_unfold tables hours day names d (Val m) Hd Hpop Hne Hm) |].
  split.
  - rewrite (MeanExcessExposure_entry tables hours day names d (Val m) _ "airnow"
               (airnow_of day) known_airnow (airnow_entry day names d Hair Hget)).
    rewrite Hr. by rewrite (nth_error_nth _ _ NaN Hnth).
  - assert (H1 : (p <= m)%Q) by (by apply Hpall).
    assert (H2 : (m <= p)%Q) by (apply Hmall; by apply (nth_error_In _ r)).
    lra.
Qed.

Lemma IsSmokeDay_unfold
    (threshold : Q) (hours : list Z) (persistence_hour : Z)
    (day : DailyData) (d : dict Forecast) (mo : np_float) :
  forecasts day = Ok d ->
  dict_pop "airnow" d = Ok (airnow_of day, dict_remove "airnow" d) ->
  hours <> [] ->
  np_max (hourly tables hours (airnow_of day)) = Ok mo ->
  IsSmokeDay_call tables threshold hours persistence_hour day
  = Ok (dict_set "observed" (np_gt mo threshold)
          (dict_set "persistence"
             (np_gt (hour_mean (tables (airnow_of day)) persistence_hour) threshold)
             (dict_map (fun mx => np_gt mx threshold)
                (dict_map
                   (fun l : list np_float =>
                      match np_max l with
                      | Ok m => m
                      | Raise _ => NaN
                      end)
                   (dict_map (hourly tables hours) d))))).
Proof.
  intros Hd Hpop Hne Hmo.
  unfold IsSmokeDay_call. rewrite Hd. cbn [rbind]. rewrite Hpop. cbn [rbind fst].
  fold (hourly tables hours (airnow_of day)). rewrite Hmo. cbn [rbind].
  rewrite (dict_mapM_total np_max
             (fun l : list np_float =>
                match np_max l with
                | Ok m => m
                | Raise _ => NaN
                end)).
  - reflexivity.
  - intros l Hl. unfold dict_map in Hl. rewrite map_map in Hl.
    apply in_map_iff in Hl as [[k f] [<- _]]. cbn [snd].
    destruct (np_max_ok _ (hourly_nonempty tables hours f Hne)) as [m Hm].
    by rewrite Hm.
Qed.

(** X2.  In the smoke-day record the entry of the observation source and
    the entry "observed" are the same boolean. *)
Theorem IsSmokeDay_airnow_is_observed
    (threshold : Q) (hours : list Z) (persistence_hour : Z)
    (day : DailyData) (names : list string) :
  _forecasts day = Some names ->
  Forall (fun n => known n = true) names ->
  In "airnow" names ->
  hours <> [] ->
  exists results b,
    IsSmokeDay_call tables threshold hours persistence_hour day = Ok results
    /\ dict_get "airnow" results = Some b
    /\ dict_get "observed" results = Some b.
Proof.
  intros Hcfg Hknown Hair Hne.
  destruct (forecasts_with_airnow day names Hcfg Hknown Hair) as [d (Hd & Hpop & Hget)].
  destruct (np_max_ok _ (hourly_nonempty tables hours (airnow_of day) Hne)) as [mo Hmo].
  eexists. exists (np_gt mo threshold).
  split; [apply (IsSmokeDay_unfold threshold hours persistence_hour day d mo Hd Hpop Hne Hmo) |].
  split.
  - rewrite !dict_get_set. cbn [String.eqb Ascii.eqb Bool.eqb].
    rewrite !dict_get_map, (airnow_entry day names d Hair Hget). cbn [option_map].
    by rewrite Hmo.
  - rewrite dict_get_set. reflexivity.
Qed.

Lemma squared_errors_self (l : list np_float) :
  ~ In NaN l ->
  exists s, np_sum (squared_errors l l) = Val s /\ (s == 0)%Q.
Proof.
  induction l as [| a l IH]; intros Hnan.
  - exists 0%Q. split; reflexivity.
  - destruct a as [x |]; [| exfalso; apply Hnan; by left].
    destruct IH as [s [Hs Hz]]; [intros H; apply Hnan; by right |].
    exists ((x - x) * (x - x) + s)%Q. split.
    + unfold squared_errors, np_sum in *. simpl. by rewrite Hs.
    + rewrite Hz. ring.
Qed.

Lemma squared_errors_length (l : list np_float) :
  length (squared_errors l l) = length l.
Proof.
  unfold squared_errors. rewrite length_map, length_combine. lia.
Qed.

(** X3.  A source whose hourly averages over the window equal the observed
    ones, all of them numbers, has an RMSE of [sqrt 0]; this is always
    so for the entry of the observation source itself. *)
Theorem RMSE_exact_forecast
    (hours : list Z) (persistence_hour : Z) (day : DailyData)
    (names : list string) (name : string) (f : Forecast) :
  _forecasts day = Some names ->
  Forall (fun n => known n = true) names ->
  In "airnow" names ->
  In name names ->
  build_forecast day name = Ok f ->
  hours <> [] ->
  hourly tables hours f = hourly tables hours (airnow_of day) ->
  ~ In NaN (hourly tables hours (airnow_of day)) ->
  exists rmses z,
    RMSE_call tables sqrtQ hours persistence_hour day = Ok rmses
    /\ dict_get name rmses = Some (Val (sqrtQ z))
    /\ (z == 0)%Q.
Proof.
  intros Hcfg Hknown Hair Hin Hf Hne Hsame Hobs.
  destruct (forecasts_with_airnow day names Hcfg Hknown Hair) as [d (Hd & Hpop & Hget)].
  destruct (forecasts_entry day names d name Hknown Hget Hin) as [f' [Hf' Hgf]].
  rewrite Hf in Hf'. injection Hf' as <-.
  assert (Hk : known name = true)
    by (exact (proj1 (List.Forall_forall _ _) Hknown name Hin)).
  destruct (known_not_reserved name Hk) as [Hp _].
  destruct (squared_errors_self _ Hobs) as [s [Hs Hz]].
  eexists. exists (s / inject_Z (Z.of_nat (length (squared_errors
                      (hourly tables hours (airnow_of day))
                      (hourly tables hours (airnow_of day))))))%Q.
  split.
  { unfold RMSE_call. rewrite Hd. cbn [rbind]. rewrite Hpop. cbn [rbind fst].
    reflexivity. }
  split.
  - rewrite dict_get_set, Hp, !dict_get_map, Hgf. cbn [option_map].
    fold (hourly tables hours (airnow_of day)). rewrite Hsame.
    unfold np_sqrt, np_mean. rewrite Hs.
    destruct (squared_errors (hourly tables hours (airnow_of day))
                (hourly tables hours (airnow_of day))) eqn:Hsq.
    + exfalso. apply (hourly_nonempty tables hours (airnow_of day) Hne).
      apply length_zero_iff_nil. rewrite <- squared_errors_length, Hsq. reflexivity.
    + reflexivity.
  - rewrite Hz. unfold Qdiv. ring.
Qed.

End MetricExtras.

(** ** Narrowing a radius selection *)

Section SpatialExtras.

Variable radians : Q -> Q.
Variable haversine : LatLon -> LatLon -> Q.

Lemma filter_filter_implied {A : Type} (p q : A -> bool) (l : list A) :
  (forall a, p a = true -> q a = true) ->
  List.filter p (List.filter q l) = List.filter p l.
Proof.
  intros Himp. induction l as [| a l IH]; [reflexivity |].
  simpl. destruct (q a) eqn:Hq; simpl.
  - by rewrite IH.
  - destruct (p a) eqn:Hp; [| exact IH].
    apply Himp in Hp. congruence.
Qed.

(** X4.  A selection within a radius can be narrowed later, as long
    as the wider selection is not empty: when some row lies within
    [d2], selecting within [d1] from the rows already selected within
    the wider [d2] gives the rows selected within [d1] from the whole
    table.  (A location file built with a wide radius holds every
    narrower one.) *)
Theorem find_nearby_predictions_narrow
    (R : DataFrame) (P : Q * Q) (d1 d2 : Q) (r0 : Reading) :
  (d1 <= d2)%Q ->
  In r0 R ->
  (km_to radians haversine P r0 <= d2)%Q ->
  exists wide,
    find_nearby_predictions radians haversine R P d2 = Ok wide
    /\ find_nearby_predictions radians haversine wide P d1
       = find_nearby_predictions radians haversine R P d1.
Proof.
  intros Hle Hin Hr0.
  assert (HR : R <> []) by (intros ->; destruct Hin).
  assert (Hwide : List.filter (within radians haversine P d2) R <> []).
  { intros Hnil.
    assert (Hr : In r0 (List.filter (within radians haversine P d2) R)).
    { apply filter_In. split; [exact Hin |]. by apply Qle_bool_iff. }
    rewrite Hnil in Hr. destruct Hr. }
  eexists. split; [by apply find_nearby_predictions_filter |].
  rewrite (find_nearby_predictions_filter radians haversine _ P d1 Hwide).
  rewrite (find_nearby_predictions_filter radians haversine R P d1 HR). f_equal.
  apply filter_filter_implied. intros r Hr. unfold within in *.
  apply Qle_bool_iff in Hr. apply Qle_bool_iff. by apply (Qle_trans _ d1).
Qed.

(** When nothing lies within the wider radius the two differ: the
    selection from the whole table is empty, the selection from the
    empty wide selection is refused. *)
Lemma find_nearby_predictions_narrow_nothing
    (R : DataFrame) (P : Q * Q) (d1 d2 : Q) :
  (d1 <= d2)%Q ->
  R <> [] ->
  find_nearby_predictions radians haversine R P d2 = Ok [] ->
  find_nearby_predictions radians haversine R P d1 = Ok []
  /\ find_nearby_predictions radians haversine [] P d1 = Raise ValueError.
Proof.
  intros Hle HR. rewrite !(find_nearby_predictions_filter radians haversine R P _ HR).
  intros [= Hnil]. split; [| reflexivity]. f_equal.
  rewrite <- (filter_filter_implied (within radians haversine P d1)
                (within radians haversine P d2) R).
  - by rewrite Hnil.
  - intros r Hr. unfold within in *.
    apply Qle_bool_iff in Hr. apply Qle_bool_iff. by apply (Qle_trans _ d1).
Qed.

(** Widening does not work: rows outside the narrow radius are gone. *)
Lemma find_nearby_predictions_in_range (R out : DataFrame) (P : Q * Q) (d : Q) :
  R <> [] ->
  out <> [] ->
  find_nearby_predictions radians haversine R P d = Ok out ->
  find_nearby_predictions radians haversine out P d = Ok out.
Proof.
  intros HR Hout. rewrite (find_nearby_predictions_filter radians haversine R P d HR).
  intros [= <-].
  rewrite (find_nearby_predictions_filter radians haversine _ P d Hout). f_equal.
  apply filter_filter_implied. auto.
Qed.

End SpatialExtras.

Lemma find_nearby_predictions_narrow_witness :
  exists wide,
    find_nearby_predictions deg_to_rad meridian_angle two_monitors target_point 50
    = Ok wide
    /\ find_nearby_predictions deg_to_rad meridian_angle wide target_point 20
       = Ok [ near_monitor 13 8 ].
Proof.
  destruct (find_nearby_predictions_narrow deg_to_rad meridian_angle two_monitors
              target_point 20 50 (near_monitor 13 8)) as [wide [Hwide Hnarrow]].
  - discriminate.
  - right. left. reflexivity.
  - vm_compute. discriminate.
  - exists wide. split; [exact Hwide |]. rewrite Hnarrow. reflexivity.
Defined.

Lemma find_nearby_monitors_too_few_witness :
  find_nearby_monitors deg_to_rad meridian_angle two_monitors target_point 50 10
  = Raise ValueError.
Proof.
  apply (find_nearby_monitors_too_few deg_to_rad meridian_angle two_monitors
           target_point 50 10).
  simpl. lia.
Defined.

(** ** Re-encoding decoded tables *)

Lemma round_half_even_integer (x : Q) (z : Z) :
  (x == inject_Z z)%Q -> round_half_even x = z.
Proof.
  intros Hx. unfold round_half_even.
  rewrite (Qfloor_comp _ _ Hx), Qfloor_Z.
  assert (Hc : ((x - inject_Z z ?= 1 # 2) = (0 ?= 1 # 2))%Q).
  { apply Qcompare_comp; [rewrite Hx; ring | reflexivity]. }
  rewrite Hc. reflexivity.
Qed.

(** Rounding to six decimals is idempotent: a coordinate that went
    through the index file is found again under its own value. *)
Theorem round6_idempotent (q : Q) : round6 (round6 q) = round6 q.
Proof.
  unfold round6. f_equal.
  apply round_half_even_integer.
  unfold Qeq, Qmult, inject_Z. simpl. lia.
Qed.

Lemma build_latlon_idx_six_decimals (prediction : DataFrame) :
  Forall six_decimals (build_latlon_idx prediction).
Proof.
  unfold build_latlon_idx, savetxt. apply List.Forall_forall. intros l Hl.
  apply in_map_iff in Hl as [u [<- _]]. unfold six_decimals, round6_pair. cbn [fst snd].
  rewrite !round6_idempotent. split; reflexivity.
Qed.

Lemma decoded_rows_covered (lines : list LatLon) (encoded : list IdxReading) :
  Forall six_decimals lines ->
  Forall (fun e => (LatLonIdx e < length lines)%nat) encoded ->
  covered lines (map (decoded_row lines) encoded)
  /\ Forall (fun r => six_decimals (Latitude r, Longitude r))
            (map (decoded_row lines) encoded).
Proof.
  intros Hfix Hrange.
  assert (Hrow : forall e, In e encoded ->
                           In (nth (LatLonIdx e) lines (0, 0)%Q) lines
                           /\ six_decimals (nth (LatLonIdx e) lines (0, 0)%Q)).
  { intros e He.
    assert (Hin : In (nth (LatLonIdx e) lines (0, 0)%Q) lines)
      by (apply nth_In; exact (proj1 (List.Forall_forall _ _) Hrange e He)).
    split; [exact Hin | exact (proj1 (List.Forall_forall _ _) Hfix _ Hin)]. }
  split.
  - intros r Hr. apply in_map_iff in Hr as [e [<- He]].
    destruct (Hrow e He) as [Hin [H1 H2]].
    exists (nth (LatLonIdx e) lines (0, 0)%Q). split; [exact Hin |].
    apply same_latlon_iff. unfold decoded_row. cbn [fst snd Latitude Longitude].
    split; by symmetry.
  - apply List.Forall_forall. intros r Hr. apply in_map_iff in Hr as [e [<- He]].
    destruct (Hrow e He) as [_ Hsix]. exact Hsix.
Qed.

Lemma Forall2_with_left {A B : Type} (P : A -> Prop) (R S : A -> B -> Prop)
    (l1 : list A) (l2 : list B) :
  (forall a b, P a -> R a b -> S a b) ->
  Forall P l1 -> Forall2 R l1 l2 -> Forall2 S l1 l2.
Proof.
  intros Himp HP HR. induction HR as [| a b l1 l2 Hab _ IH]; [constructor |].
  apply List.Forall_cons_iff in HP as [Ha HP].
  constructor; [by apply Himp | by apply IH].
Qed.

(** X5.  The HRRR location pipeline: a table decoded against an index of
    six-decimal lines (at least two) can be encoded again against the
    same index without a missing key, and decoding the result gives
    the same rows. *)
Theorem reencode_decoded (lines : list LatLon) (encoded : list IdxReading) :
  (2 <= length lines)%nat ->
  Forall six_decimals lines ->
  Forall (fun e => (LatLonIdx e < length lines)%nat) encoded ->
  exists decoded again decoded2,
    idx_to_latlon_convert (Some lines) encoded = Ok decoded
    /\ latlon_to_idx_convert (Some lines) decoded = (Ok again, Some lines)
    /\ idx_to_latlon_convert (Some lines) again = Ok decoded2
    /\ Forall2 same_row decoded decoded2.
Proof.
  intros Hlen Hfix Hrange.
  destruct (decoded_rows_covered lines encoded Hfix Hrange) as [Hcov Hsix].
  destruct (latlon_to_idx_convert_covered lines _ Hlen Hcov) as [again Hagain].
  pose proof (latlon_to_idx_convert_rows lines (map (decoded_row lines) encoded) again)
    as Hrows.
  rewrite Hagain in Hrows. specialize (Hrows eq_refl).
  pose proof (restores_rows lines _ again Hrows) as Hfound.
  exists (map (decoded_row lines) encoded), again, (map (decoded_row lines) again).
  split; [by apply idx_to_latlon_convert_rows |].
  split; [exact Hagain |].
  split.
  { apply idx_to_latlon_convert_rows; [exact Hlen |].
    apply (Forall2_right_all _ _ _ _ Hfound). }
  apply (Forall2_right_map (fun e => (LatLonIdx e < length lines)%nat)).
  refine (Forall2_with_left (fun r => six_decimals (Latitude r, Longitude r)) _ _ _ _
            _ Hsix Hfound).
  intros r e [H1 H2] [Hi (Hlat & Hlon & _ & _ & Hvt & Hpm)]. cbn [fst snd] in *.
  split; [exact Hi |].
  unfold same_row. split; [by rewrite Hlat, H1 |]. split; [by rewrite Hlon, H2 |].
  by split.
Qed.

Lemma reencode_decoded_witness :
  exists decoded again decoded2,
    idx_to_latlon_convert (Some (build_latlon_idx fine_grid_table))
                          [mkIdxReading 1 13 (9 # 2); mkIdxReading 0 14 (5 # 2)]
    = Ok decoded
    /\ latlon_to_idx_convert (Some (build_latlon_idx fine_grid_table)) decoded
       = (Ok again, Some (build_latlon_idx fine_grid_table))
    /\ idx_to_latlon_convert (Some (build_latlon_idx fine_grid_table)) again = Ok decoded2
    /\ Forall2 same_row decoded decoded2.
Proof.
  apply (reencode_decoded (build_latlon_idx fine_grid_table)
           [mkIdxReading 1 13 (9 # 2); mkIdxReading 0 14 (5 # 2)]).
  - vm_compute. lia.
  - apply build_latlon_idx_six_decimals.
  - repeat constructor; vm_compute; lia.
Defined.

(** ** The day cache when the adapter returns no table *)

Section CacheExtras.

Variable csv : Type.
Variable to_csv : DataFrame -> csv.
Variable read_csv : csv -> DataFrame.
Variable idx_to_csv : list IdxReading -> csv.
Variable read_idx_csv : csv -> list IdxReading.
Variable savetxt_text : list LatLon -> csv.
Variable loadtxt_text : csv -> list LatLon.
Variable download_fn : Forecast -> gmap path csv -> option DataFrame * gmap path csv.

Lemma is_downloaded_absent (self : Forecast) (w : World csv) :
  files w !! datapath self = None -> is_downloaded self w = false.
Proof.
  intros H. unfold is_downloaded, path_exists. rewrite H.
  apply bool_decide_eq_false_2. intros [? ?]. discriminate.
Qed.

Lemma generic_download_none (self : Forecast) (w : World csv) (fs1 : gmap path csv) :
  kind self <> HRRR ->
  files w !! datapath self = None ->
  download_fn self (files w) = (None, fs1) ->
  download to_csv idx_to_csv savetxt_text loadtxt_text download_fn self w
  = (Raise AttributeError,
     mkWorld fs1 (dirs w ∪ list_to_set (ancestors (parent (datapath self))))
             (adapter_calls w ++ [self])).
Proof.
  intros Hk Habsent Hdl.
  unfold download, GenericForecast_download.
  rewrite (is_downloaded_absent self w Habsent).
  unfold call_adapter. rewrite Hdl. cbn.
  destruct (kind self); [reflexivity | congruence | reflexivity..].
Qed.

(** X6.  A generic adapter that returns no table (AirNow when an hour
    cannot be downloaded): the access raises [AttributeError] at
    [data.to_csv], the call is recorded, the files are as the adapter
    left them, and if the adapter left no day file the entity still
    counts as not downloaded, so the next access runs the adapter
    again. *)
Theorem data_adapter_returns_none
    (self : Forecast) (w : World csv) (fs1 : gmap path csv) :
  kind self <> HRRR ->
  _data self = None ->
  files w !! datapath self = None ->
  download_fn self (files w) = (None, fs1) ->
  exists w',
    data to_csv read_csv idx_to_csv read_idx_csv savetxt_text loadtxt_text
         download_fn self w = (Raise AttributeError, w')
    /\ files w' = fs1
    /\ adapter_calls w' = adapter_calls w ++ [self]
    /\ (fs1 !! datapath self = None -> is_downloaded self w' = false).
Proof.
  intros Hk Hnone Habsent Hdl.
  eexists. split.
  { unfold data. rewrite Hnone.
    rewrite (generic_download_none self w fs1 Hk Habsent Hdl). reflexivity. }
  split; [reflexivity |]. split; [reflexivity |].
  intros Hfs1. by apply is_downloaded_absent.
Qed.

(** X7.  An adapter that returns no table but writes the day file itself
    (the CAMS adapter saves one file per day of the month next to the
    day path and has no return value): the first access raises
    [AttributeError]; the second access of the same entity finds the
    file, does not run the adapter again and returns its table. *)
Theorem data_adapter_writes_day_file
    (self : Forecast) (w : World csv) (fs1 : gmap path csv) (c : csv) :
  kind self <> HRRR ->
  _data self = None ->
  files w !! datapath self = None ->
  download_fn self (files w) = (None, fs1) ->
  fs1 !! datapath self = Some c ->
  exists w',
    data to_csv read_csv idx_to_csv read_idx_csv savetxt_text loadtxt_text
         download_fn self w = (Raise AttributeError, w')
    /\ adapter_calls w' = adapter_calls w ++ [self]
    /\ data to_csv read_csv idx_to_csv read_idx_csv savetxt_text loadtxt_text
            download_fn self w'
       = (Ok (read_csv c, set_data self (read_csv c)), w').
Proof.
  intros Hk Hnone Habsent Hdl Hday.
  set (w' := mkWorld fs1 (dirs w ∪ list_to_set (ancestors (parent (datapath self))))
                     (adapter_calls w ++ [self])).
  assert (Hday' : files w' !! datapath self = Some c) by exact Hday.
  exists w'. split.
  { unfold data. rewrite Hnone.
    rewrite (generic_download_none self w fs1 Hk Habsent Hdl). reflexivity. }
  split; [reflexivity |].
  rewrite (data_cached_unfold csv to_csv read_csv idx_to_csv read_idx_csv savetxt_text
             loadtxt_text download_fn self w' c Hday' Hnone).
  unfold load_day. rewrite Hday'.
  destruct (kind self); [reflexivity | congruence | reflexivity..].
Qed.

(** The three kinds of cache files never share a path. *)
Theorem cache_paths_disjoint (a b c : Forecast) :
  datapath a <> location_datapath b
  /\ datapath a <> latlon_idx_path c
  /\ location_datapath b <> latlon_idx_path c.
Proof. repeat split; discriminate. Qed.

(** What pandas and numpy read back is what they wrote. *)
Hypothesis read_idx_csv_to_csv : forall rows, read_idx_csv (idx_to_csv rows) = rows.
Hypothesis loadtxt_savetxt : forall lines, loadtxt_text (savetxt_text lines) = lines.


End CacheExtras.

(** ** The location cache *)

Section LocationFacts.

Variable csv : Type.
Variable to_csv : DataFrame -> csv.
Variable read_csv : csv -> DataFrame.
Variable idx_to_csv : list IdxReading -> csv.
Variable read_idx_csv : csv -> list IdxReading.
Variable savetxt_text : list LatLon -> csv.
Variable loadtxt_text : csv -> list LatLon.
Variable download_fn : Forecast -> gmap path csv -> option DataFrame * gmap path csv.
Variable radians : Q -> Q.
Variable haversine : LatLon -> LatLon -> Q.
Variable get_lat_lon : string -> string -> gmap path csv -> option (Q * Q) * gmap path csv.

Let locate :=
  location_data to_csv read_csv idx_to_csv read_idx_csv savetxt_text loadtxt_text
                download_fn radians haversine get_lat_lon.
Let build :=
  build_location_data to_csv read_csv idx_to_csv read_idx_csv savetxt_text loadtxt_text
                      download_fn radians haversine get_lat_lon.

Lemma location_built_present (self : Forecast) (w : World csv) (c : csv) :
  files w !! location_datapath self = Some c -> location_built self w = true.
Proof.
  intros H. unfold location_built, path_exists. rewrite H.
  apply bool_decide_eq_true. by eexists.
Qed.

Lemma location_built_absent (self : Forecast) (w : World csv) :
  files w !! location_datapath self = None -> location_built self w = false.
Proof.
  intros H. unfold location_built, path_exists. rewrite H.
  apply bool_decide_eq_false_2. intros [? ?]. discriminate.
Qed.

(** X9.  Once the location file of an entity is on disk, an access to
    [location_data] leaves the world as it is: no adapter call and no
    write, whether or not the day file exists; the day table is not
    loaded into the entity, and neither the coordinates of the location
    nor the matcher parameters are consulted.  For the generic sources
    the access returns the table of the file. *)
Theorem location_data_cached (self : Forecast) (w : World csv) (c : csv) :
  files w !! location_datapath self = Some c ->
  _location_data self = None ->
  snd (location_data to_csv read_csv idx_to_csv read_idx_csv savetxt_text loadtxt_text
                     download_fn radians haversine get_lat_lon self w) = w
  /\ (forall d self1,
        fst (location_data to_csv read_csv idx_to_csv read_idx_csv savetxt_text
                           loadtxt_text download_fn radians haversine get_lat_lon self w)
        = Ok (d, self1) -> _data self1 = _data self)
  /\ (kind self <> HRRR ->
      fst (location_data to_csv read_csv idx_to_csv read_idx_csv savetxt_text
                         loadtxt_text download_fn radians haversine get_lat_lon self w)
      = Ok (read_csv c, set_location_data self (read_csv c))).
Proof.
  intros H Hnone. fold locate.
  assert (Hrun : locate self w
                 = (match load_location read_csv read_idx_csv loadtxt_text self w with
                    | Ok d => Ok (d, set_location_data self d)
                    | Raise e => Raise e
                    end, w)).
  { unfold locate, location_data, build_location_data. rewrite Hnone.
    rewrite (location_built_present self w c H).
    by destruct (load_location read_csv read_idx_csv loadtxt_text self w). }
  rewrite Hrun. cbn [fst snd]. split; [reflexivity |]. split.
  - intros d self1 Heq.
    destruct (load_location read_csv read_idx_csv loadtxt_text self w); [| discriminate].
    injection Heq as <- <-. reflexivity.
  - intros Hk. unfold load_location. rewrite H.
    destruct (kind self); [reflexivity | congruence | reflexivity..].
Qed.

Lemma data_on_disk (self : Forecast) (w : World csv) (c : csv) :
  kind self <> HRRR ->
  _data self = None ->
  files w !! datapath self = Some c ->
  data to_csv read_csv idx_to_csv read_idx_csv savetxt_text loadtxt_text
       download_fn self w
  = (Ok (read_csv c, set_data self (read_csv c)), w).
Proof.
  intros Hk Hnone H.
  rewrite (data_cached_unfold csv to_csv read_csv idx_to_csv read_idx_csv savetxt_text
             loadtxt_text download_fn self w c H Hnone).
  unfold load_day. rewrite H.
  destruct (kind self); [reflexivity | congruence | reflexivity..].
Qed.

(** X10.  The first access to [location_data] of a gridded generic source
    (CAMS, GEOS-CF, NAQFC) whose day file is on disk and holds at least
    one row: the location file receives the rows of the day table
    within the entity's [max_distance] of the location, the access
    returns that file's table, the day file is untouched and the
    adapter is not run. *)
Theorem location_data_from_day_file
    (self : Forecast) (w : World csv) (c : csv) (P : Q * Q) (d : Q) :
  kind self <> HRRR ->
  kind self <> AirNow ->
  _data self = None ->
  _location_data self = None ->
  _max_distance self = Some d ->
  files w !! datapath self = Some c ->
  read_csv c <> [] ->
  files w !! location_datapath self = None ->
  get_lat_lon (data_directory self) (_location self) (files w) = (Some P, files w) ->
  exists near self' w',
    location_data to_csv read_csv idx_to_csv read_idx_csv savetxt_text loadtxt_text
                  download_fn radians haversine get_lat_lon self w
    = (Ok (read_csv (to_csv near), self'), w')
    /\ near = List.filter (fun r => Qle_bool (km_to radians haversine P r) d) (read_csv c)
    /\ files w' = <[location_datapath self := to_csv near]> (files w)
    /\ files w' !! datapath self = Some c
    /\ adapter_calls w' = adapter_calls w.
Proof.
  intros Hk Ha Hnone Hlnone Hd Hday Hrows Hloc Hgaz.
  set (day := read_csv c) in *.
  set (near := List.filter (within radians haversine P d) day).
  set (self1 := set_data self day).
  set (w3 := write_file (location_datapath self) (to_csv near)
               (makedirs (parent (location_datapath self)) w)).
  assert (Hbuild : build self w = (Ok self1, w3)).
  { unfold build, build_location_data.
    rewrite (location_built_absent self w Hloc).
    rewrite (data_on_disk self w c Hk Hnone Hday). fold day self1.
    cbn [data_directory _location self1 set_data]. rewrite Hgaz. cbn [fst snd].
    unfold find_neighbor_fn. cbn [kind _max_distance self1 set_data]. rewrite Hd.
    assert (Hmatch : find_nearby_predictions radians haversine day P d = Ok near)
      by (by apply find_nearby_predictions_filter).
    destruct w as [fs ds calls]. cbn [files dirs adapter_calls] in *.
    unfold w3, makedirs, write_file. cbn [files dirs adapter_calls].
    destruct (kind self); [congruence | congruence | rewrite Hmatch; reflexivity..]. }
  exists near, (set_location_data self1 (read_csv (to_csv near))), w3.
  split.
  { unfold location_data. rewrite Hlnone. fold build. rewrite Hbuild.
    unfold load_location. cbn [kind self1 set_data].
    assert (Hread : files w3 !! location_datapath self1 = Some (to_csv near)).
    { unfold w3, write_file. cbn [files]. apply lookup_insert_eq. }
    rewrite Hread.
    destruct (kind self); [reflexivity | congruence | reflexivity..]. }
  split; [reflexivity |]. split; [reflexivity |]. split; [| reflexivity].
  unfold w3, write_file, makedirs. cbn [files].
  rewrite lookup_insert_ne by discriminate. exact Hday.
Qed.

(** On a day file without rows the matcher is refused: the access
    raises [ValueError] and writes no location file. *)
Lemma location_data_empty_day_file
    (self : Forecast) (w : World csv) (c : csv) (P : Q * Q) (d : Q) :
  kind self <> HRRR ->
  kind self <> AirNow ->
  _data self = None ->
  _location_data self = None ->
  _max_distance self = Some d ->
  files w !! datapath self = Some c ->
  read_csv c = [] ->
  files w !! location_datapath self = None ->
  get_lat_lon (data_directory self) (_location self) (files w) = (Some P, files w) ->
  exists w',
    location_data to_csv read_csv idx_to_csv read_idx_csv savetxt_text loadtxt_text
                  download_fn radians haversine get_lat_lon self w
    = (Raise ValueError, w')
    /\ files w' = files w.
Proof.
  intros Hk Ha Hnone Hlnone Hd Hday Hrows Hloc Hgaz.
  eexists. split.
  { unfold location_data. rewrite Hlnone. unfold build_location_data.
    rewrite (location_built_absent self w Hloc).
    rewrite (data_on_disk self w c Hk Hnone Hday).
    cbn [data_directory _location set_data]. rewrite Hgaz. cbn [fst snd].
    unfold find_neighbor_fn. cbn [kind _max_distance set_data]. rewrite Hd, Hrows.
    destruct (kind self); [congruence | congruence | reflexivity..]. }
  reflexivity.
Qed.

(** X11.  The day table is fetched before the location is looked up: for a
    location that the gazetteer does not know, the access runs the
    adapter, caches the day file, and only then raises [TypeError]; no
    location file is written. *)
Theorem location_data_unknown_location
    (self : Forecast) (w : World csv) (X : DataFrame) (fs1 fs2 : gmap path csv) :
  kind self <> HRRR ->
  _data self = None ->
  _location_data self = None ->
  files w !! location_datapath self = None ->
  files w !! datapath self = None ->
  download_fn self (files w) = (Some X, fs1) ->
  get_lat_lon (data_directory self) (_location self)
              (<[datapath self := to_csv X]> fs1) = (None, fs2) ->
  exists w',
    location_data to_csv read_csv idx_to_csv read_idx_csv savetxt_text loadtxt_text
                  download_fn radians haversine get_lat_lon self w
    = (Raise TypeError, w')
    /\ adapter_calls w' = adapter_calls w ++ [self]
    /\ files w' = fs2.
Proof.
  intros Hk Hnone Hlnone Hloc Hday Hdl Hgaz.
  eexists. split.
  { unfold location_data. rewrite Hlnone. unfold build_location_data.
    rewrite (location_built_absent self w Hloc).
    rewrite (data_first_access csv to_csv read_csv idx_to_csv read_idx_csv savetxt_text
               loadtxt_text download_fn self w X fs1 Hk Hnone Hday Hdl).
    cbn [data_directory _location set_data files]. rewrite Hgaz. cbn [fst snd].
    reflexivity. }
  split; reflexivity.
Qed.

(** X12.  The observation source asks for [max_neighbors] monitors (10 by
    default): on a day table with fewer distinct monitors the first
    access to [location_data] raises [ValueError] whatever the
    distances, and writes no location file. *)
Theorem airnow_location_too_few_monitors
    (self : Forecast) (w : World csv) (c : csv) (P : Q * Q) (d : Q) (k : nat) :
  kind self = AirNow ->
  _data self = None ->
  _location_data self = None ->
  _max_distance self = Some d ->
  _max_neighbors self = Some k ->
  files w !! datapath self = Some c ->
  files w !! location_datapath self = None ->
  get_lat_lon (data_directory self) (_location self) (files w) = (Some P, files w) ->
  (length (drop_duplicates (read_csv c)) < k)%nat ->
  exists w',
    location_data to_csv read_csv idx_to_csv read_idx_csv savetxt_text loadtxt_text
                  download_fn radians haversine get_lat_lon self w
    = (Raise ValueError, w')
    /\ files w' = files w.
Proof.
  intros Hk Hnone Hlnone Hd Hn Hday Hloc Hgaz Hfew.
  assert (Hk' : kind self <> HRRR) by (rewrite Hk; discriminate).
  eexists. split.
  { unfold location_data. rewrite Hlnone. unfold build_location_data.
    rewrite (location_built_absent self w Hloc).
    rewrite (data_on_disk self w c Hk' Hnone Hday).
    cbn [data_directory _location set_data]. rewrite Hgaz. cbn [fst snd].
    unfold find_neighbor_fn. cbn [kind _max_distance _max_neighbors set_data].
    rewrite Hk, Hd, Hn.
    rewrite (find_nearby_monitors_too_few radians haversine (read_csv c) P d k Hfew).
    reflexivity. }
  reflexivity.
Qed.

End LocationFacts.

Lemma location_data_cached_witness :
  snd (location_data TableText text_table IdxTableText text_idx_table LinesText text_lines
                     offline_adapter deg_to_rad meridian_angle (gazetteer None)
                     cams_entity cams_location_on_disk) = cams_location_on_disk
  /\ fst (location_data TableText text_table IdxTableText text_idx_table LinesText
                        text_lines offline_adapter deg_to_rad meridian_angle
                        (gazetteer None) cams_entity cams_location_on_disk)
     = Ok ([near_monitor 13 8], set_location_data cams_entity [near_monitor 13 8]).
Proof.
  destruct (location_data_cached file_text TableText text_table IdxTableText text_idx_table
              LinesText text_lines offline_adapter deg_to_rad meridian_angle
              (gazetteer None) cams_entity cams_location_on_disk
              (TableText [near_monitor 13 8]))
    as (Hw & _ & Hgen).
  - apply lookup_singleton_eq.
  - reflexivity.
  - split; [exact Hw | apply Hgen; discriminate].
Defined.

Lemma location_data_from_day_file_witness :
  exists near self' w',
    location_data TableText text_table IdxTableText text_idx_table LinesText text_lines
                  offline_adapter deg_to_rad meridian_angle (gazetteer (Some target_point))
                  cams_entity cams_day_on_disk
    = (Ok (text_table (TableText near), self'), w')
    /\ near = List.filter (fun r => Qle_bool (km_to deg_to_rad meridian_angle target_point r) 60)
                          (text_table (TableText two_monitors))
    /\ files w' = <[location_datapath cams_entity := TableText near]> (files cams_day_on_disk)
    /\ files w' !! datapath cams_entity = Some (TableText two_monitors)
    /\ adapter_calls w' = adapter_calls cams_day_on_disk.
Proof.
  apply (location_data_from_day_file file_text TableText text_table IdxTableText
           text_idx_table LinesText text_lines offline_adapter deg_to_rad meridian_angle
           (gazetteer (Some target_point)) cams_entity cams_day_on_disk
           (TableText two_monitors) target_point 60).
  - discriminate.
  - discriminate.
  - reflexivity.
  - reflexivity.
  - reflexivity.
  - apply lookup_singleton_eq.
  - discriminate.
  - apply lookup_singleton_ne. discriminate.
  - reflexivity.
Defined.

Lemma location_data_unknown_location_witness :
  exists w',
    location_data TableText text_table IdxTableText text_idx_table LinesText text_lines
                  grid_adapter deg_to_rad meridian_angle (gazetteer None)
                  cams_entity empty_world
    = (Raise TypeError, w')
    /\ adapter_calls w' = adapter_calls empty_world ++ [cams_entity]
    /\ files w' = <[datapath cams_entity := TableText fine_grid_table]> ∅.
Proof.
  apply (location_data_unknown_location file_text TableText text_table IdxTableText
           text_idx_table LinesText text_lines grid_adapter deg_to_rad meridian_angle
           (gazetteer None) cams_entity empty_world fine_grid_table ∅).
  - discriminate.
  - reflexivity.
  - reflexivity.
  - reflexivity.
  - reflexivity.
  - reflexivity.
  - reflexivity.
Defined.

Lemma airnow_location_too_few_monitors_witness :
  exists w',
    location_data TableText text_table IdxTableText text_idx_table LinesText text_lines
                  offline_adapter deg_to_rad meridian_angle (gazetteer (Some target_point))
                  airnow_entity airnow_day_on_disk
    = (Raise ValueError, w')
    /\ files w' = files airnow_day_on_disk.
Proof.
  apply (airnow_location_too_few_monitors file_text TableText text_table IdxTableText
           text_idx_table LinesText text_lines offline_adapter deg_to_rad meridian_angle
           (gazetteer (Some target_point)) airnow_entity airnow_day_on_disk
           (TableText two_monitors) target_point 50 10).
  - reflexivity.
  - reflexivity.
  - reflexivity.
  - reflexivity.
  - reflexivity.
  - apply lookup_singleton_eq.
  - apply lookup_singleton_ne. discriminate.
  - reflexivity.
  - simpl. lia.
Defined.

Lemma data_adapter_returns_none_witness :
  exists w',
    data TableText text_table IdxTableText text_idx_table LinesText text_lines
         offline_adapter cams_entity empty_world = (Raise AttributeError, w')
    /\ files w' = ∅
    /\ adapter_calls w' = adapter_calls empty_world ++ [cams_entity]
    /\ ((∅ : gmap path file_text) !! datapath cams_entity = None
        -> is_downloaded cams_entity w' = false).
Proof.
  apply (data_adapter_returns_none file_text TableText text_table IdxTableText
           text_idx_table LinesText text_lines offline_adapter cams_entity empty_world ∅).
  - discriminate.
  - reflexivity.
  - reflexivity.
  - reflexivity.
Defined.

Lemma data_adapter_writes_day_file_witness :
  exists w',
    data TableText text_table IdxTableText text_idx_table LinesText text_lines
         self_saving_adapter cams_entity empty_world = (Raise AttributeError, w')
    /\ adapter_calls w' = adapter_calls empty_world ++ [cams_entity]
    /\ data TableText text_table IdxTableText text_idx_table LinesText text_lines
            self_saving_adapter cams_entity w'
       = (Ok (text_table (TableText (readings_at "" [at_hour 13 5; at_hour 14 40])),
              set_data cams_entity
                (text_table (TableText (readings_at "" [at_hour 13 5; at_hour 14 40])))),
          w').
Proof.
  apply (data_adapter_writes_day_file file_text TableText text_table IdxTableText
           text_idx_table LinesText text_lines self_saving_adapter cams_entity empty_world
           (<[datapath cams_entity
              := TableText (readings_at "" [at_hour 13 5; at_hour 14 40])]> ∅)).
  - discriminate.
  - reflexivity.
  - reflexivity.
  - reflexivity.
  - apply lookup_insert_eq.
Defined.


Lemma MeanExcessExposure_airnow_zero_witness :
  exists scores s,
    MeanExcessExposure_call exposure_tables [13; 14; 15]%Z example_day = Ok scores
    /\ dict_get "airnow" scores = Some (Val s)
    /\ (s == 0)%Q.
Proof.
  apply (MeanExcessExposure_airnow_zero exposure_tables [13; 14; 15]%Z example_day
           ["airnow"; "cams"]).
  - reflexivity.
  - known_names.
  - by left.
  - discriminate.
  - no_nan.
Defined.

Lemma IsSmokeDay_airnow_is_observed_witness :
  exists results b,
    IsSmokeDay_call smoke_tables default_threshold [13; 14; 15; 16]%Z
                    default_persistence_hour example_day = Ok results
    /\ dict_get "airnow" results = Some b
    /\ dict_get "observed" results = Some b.
Proof.
  apply (IsSmokeDay_airnow_is_observed smoke_tables default_threshold [13; 14; 15; 16]%Z
           default_persistence_hour example_day ["airnow"; "cams"]).
  - reflexivity.
  - known_names.
  - by left.
  - discriminate.
Defined.

Lemma RMSE_exact_forecast_witness :
  exists rmses z,
    RMSE_call exact_tables sqrt_approx [13; 14; 15]%Z default_persistence_hour example_day
    = Ok rmses
    /\ dict_get "cams" rmses = Some (Val (sqrt_approx z))
    /\ (z == 0)%Q.
Proof.
  apply (RMSE_exact_forecast exact_tables sqrt_approx [13; 14; 15]%Z
           default_persistence_hour example_day ["airnow"; "cams"] "cams"
           (CAMSForecast "Boston, MA--NH Urban Area" (mkDate 2023 6 7) "data")).
  - reflexivity.
  - known_names.
  - by left.
  - right. by left.
  - reflexivity.
  - discriminate.
  - reflexivity.
  - no_nan.
Defined.

(** ** Running an experiment *)

Section RunFacts.

Variable add_days : Date -> nat -> Date.
Variable days_between : Date -> Date -> Z.
Variable date_str : Date -> string.
Variable json_text : day_result -> string.

Lemma evaluate_day_raises (ms : list Metric) (day : DailyData) (m : Metric) (e : exn) :
  In m ms ->
  metric_call m day = Raise e ->
  exists e', forall acc, evaluate_day ms day acc = Raise e'.
Proof.
  induction ms as [| m0 ms IH]; intros Hin Hm; [destruct Hin |].
  destruct (metric_call m0 day) as [r | e0] eqn:H0.
  - destruct Hin as [-> | Hin]; [congruence |].
    destruct (IH Hin Hm) as [e' He']. exists e'. intros acc.
    cbn [evaluate_day]. rewrite H0. cbn [rbind]. apply He'.
  - exists e0. intros acc. cbn [evaluate_day]. rewrite H0. reflexivity.
Qed.

Lemma evaluate_days_raises
    (ms : list Metric) (days : list DailyData) (day : DailyData) (e : exn) :
  In day days ->
  evaluate_day ms day [] = Raise e ->
  exists e', forall acc, evaluate_days ms days acc = Raise e'.
Proof.
  induction days as [| d0 days IH]; intros Hin Hday; [destruct Hin |].
  destruct (evaluate_day ms d0 []) as [r | e0] eqn:H0.
  - destruct Hin as [-> | Hin]; [congruence |].
    destruct (IH Hin Hday) as [e' He']. exists e'. intros acc.
    cbn [evaluate_days]. rewrite H0. cbn [rbind]. apply He'.
  - exists e0. intros acc. cbn [evaluate_days]. rewrite H0. reflexivity.
Qed.

(** X13.  Results are saved only after every day of the range has been
    evaluated: if one metric raises on one day, [run] raises and no
    result file is written, not even for the days evaluated before. *)
Theorem run_saves_nothing_on_error
    (self : ExperimentArgs) (d : Disk) (day : DailyData) (m : Metric) (e : exn) :
  In day (load_data add_days days_between self) ->
  In m (metrics self) ->
  metric_call m day = Raise e ->
  exists e', run add_days days_between date_str json_text self d = (Raise e', d).
Proof.
  intros Hday Hm He.
  destruct (evaluate_day_raises (metrics self) day m e Hm He) as [e1 H1].
  destruct (evaluate_days_raises (metrics self) (load_data add_days days_between self)
              day e1 Hday (H1 [])) as [e' H'].
  exists e'. unfold run, evaluate_metrics. by rewrite (H' []).
Qed.

Lemma load_data_first (self : ExperimentArgs) :
  (0 <= days_between (start_date self) (end_date self))%Z ->
  exists rest,
    load_data add_days days_between self
    = mkDailyData (add_days (start_date self) 0) (location (experiment self))
                  (experiment_data_directory self) (experiment_forecasts self) :: rest.
Proof.
  intros Hle. unfold load_data.
  destruct (Z.to_nat (days_between (start_date self) (end_date self) + 1)) as [| n] eqn:Hn;
    [lia |].
  eexists. reflexivity.
Qed.

(** X14.  The argument [forecasts] of [Experiment] defaults to [None], and
    [None] is what the days are built with: an experiment that leaves
    it out, over a range of at least one day and starting with one of the
    three metrics, raises [TypeError] in [run] and writes nothing. *)
Theorem run_default_forecasts
    (tables : Forecast -> DataFrame) (sqrtQ : Q -> Q)
    (self : ExperimentArgs) (d : Disk) (m : Metric) (rest : list Metric) :
  experiment_forecasts self = None ->
  (0 <= days_between (start_date self) (end_date self))%Z ->
  metrics self = m :: rest ->
  (m = RMSE_metric tables sqrtQ
   \/ m = MeanExcessExposure_metric tables
   \/ m = IsSmokeDay_metric tables) ->
  run add_days days_between date_str json_text self d = (Raise TypeError, d).
Proof.
  intros Hnone Hle Hms Hstd.
  destruct (load_data_first self Hle) as [days Hdays].
  unfold run, evaluate_metrics. rewrite Hdays, Hms, Hnone.
  cbn [evaluate_days evaluate_day].
  destruct Hstd as [-> | [-> | ->]]; reflexivity.
Qed.

(** X15.  An experiment whose end date precedes its start date is not an
    error: no day is evaluated, [run] returns the empty results and
    writes nothing. *)
Theorem run_backwards_range (self : ExperimentArgs) (d : Disk) :
  (days_between (start_date self) (end_date self) < 0)%Z ->
  run add_days days_between date_str json_text self d = (Ok [], d).
Proof.
  intros Hlt. unfold run, evaluate_metrics, load_data.
  replace (Z.to_nat (days_between (start_date self) (end_date self) + 1)) with O by lia.
  reflexivity.
Qed.

End RunFacts.

Lemma run_saves_nothing_on_error_witness :
  exists e',
    run add_days_in_month days_between_in_month strftime_ymd metric_names_text
        misconfigured_experiment empty_disk = (Raise e', empty_disk).
Proof.
  apply (run_saves_nothing_on_error add_days_in_month days_between_in_month strftime_ymd
           metric_names_text misconfigured_experiment empty_disk
           (mkDailyData (mkDate 2023 6 8) "Boston, MA--NH Urban Area" "data"
                        (Some ["airnow"; "wrf"]))
           (IsSmokeDay_metric smoke_tables) ValueError).
  - right. left. reflexivity.
  - left. reflexivity.
  - reflexivity.
Defined.

Lemma run_default_forecasts_witness :
  run add_days_in_month days_between_in_month strftime_ymd metric_names_text
      default_experiment empty_disk = (Raise TypeError, empty_disk).
Proof.
  apply (run_default_forecasts add_days_in_month days_between_in_month strftime_ymd
           metric_names_text exposure_tables sqrt_approx default_experiment empty_disk
           (RMSE_metric exposure_tables sqrt_approx) [IsSmokeDay_metric smoke_tables]).
  - reflexivity.
  - vm_compute. discriminate.
  - reflexivity.
  - left. reflexivity.
Defined.

Lemma run_backwards_range_witness :
  run add_days_in_month days_between_in_month strftime_ymd metric_names_text
      backwards_experiment empty_disk = (Ok [], empty_disk).
Proof.
  apply (run_backwards_range add_days_in_month days_between_in_month strftime_ymd
           metric_names_text backwards_experiment empty_disk).
  reflexivity.
Defined.

(** ** Confusion matrices *)

Lemma total_days_update (m : matrix) (predicted observed : score) :
  total_days (update_confusion_matrix m predicted observed) = S (total_days m).
Proof.
  unfold update_confusion_matrix, total_days.
  destruct (truthy predicted), (truthy observed); simpl; lia.
Qed.

Lemma dict_get_remove {V : Type} (k k' : string) (d : dict V) :
  dict_get k (dict_remove k' d) = if String.eqb k' k then None else dict_get k d.
Proof.
  unfold dict_remove. induction d as [| [k0 v0] d IH]; simpl.
  - by destruct (String.eqb k' k).
  - destruct (String.eqb_spec k0 k') as [-> | Hne]; simpl.
    + rewrite IH. destruct (String.eqb k' k); reflexivity.
    + rewrite IH. destruct (String.eqb_spec k0 k) as [-> | Hne2].
      * destruct (String.eqb_spec k' k) as [-> | _]; [congruence | reflexivity].
      * reflexivity.
Qed.

Lemma entries_of_cons (model k : string) (p : score) (models : dict score) :
  entries_of model ((k, p) :: models)
  = ((if String.eqb k model then 1 else 0) + entries_of model models)%nat.
Proof.
  unfold entries_of. cbn [List.filter fst]. by destruct (String.eqb k model).
Qed.

Lemma tally_models_counted (observed : score) (models : dict score) (acc : dict matrix)
    (model : string) :
  counted model (tally_models observed models acc)
  = (counted model acc
     + if String.eqb model "observed" then O else entries_of model models)%nat.
Proof.
  revert acc. induction models as [| [k p] models IH]; intros acc.
  - unfold entries_of. cbn. destruct (String.eqb model "observed"); lia.
  - rewrite entries_of_cons. cbn [tally_models].
    destruct (String.eqb_spec k "observed") as [Hk | Hk].
    + rewrite IH. subst k.
      destruct (String.eqb_spec "observed" model) as [Heq | Hne].
      * rewrite <- Heq. cbn. lia.
      * destruct (String.eqb model "observed"); lia.
    + rewrite IH. unfold counted. rewrite dict_get_set.
      destruct (String.eqb_spec k model) as [Heq | Hne].
      * subst k. rewrite total_days_update.
        destruct (String.eqb_spec model "observed") as [Hm | _]; [congruence |].
        destruct (dict_get model acc); cbn; lia.
      * destruct (String.eqb model "observed"); lia.
Qed.

Lemma tally_models_positive (observed : score) (models : dict score) (acc : dict matrix) :
  (forall model m, dict_get model acc = Some m -> (1 <= total_days m)%nat) ->
  forall model m,
    dict_get model (tally_models observed models acc) = Some m -> (1 <= total_days m)%nat.
Proof.
  revert acc. induction models as [| [k p] models IH]; intros acc Hacc; [exact Hacc |].
  cbn [tally_models]. destruct (String.eqb k "observed"); [by apply IH |].
  apply IH. intros model m. rewrite dict_get_set.
  destruct (String.eqb k model); [| apply Hacc].
  intros [= <-]. rewrite total_days_update. lia.
Qed.

Lemma tally_days_counted (days : list day_result) (acc : dict matrix) :
  Forall (fun data => dict_get "smokeday" data <> None) days ->
  (forall model m, dict_get model acc = Some m -> (1 <= total_days m)%nat) ->
  exists ms,
    tally_days days acc = Ok ms
    /\ (forall model,
          counted model ms
          = (counted model acc
             + if String.eqb model "observed" then O
               else list_sum (map (occurrences model) days))%nat)
    /\ (forall model m, dict_get model ms = Some m -> (1 <= total_days m)%nat).
Proof.
  revert acc. induction days as [| data days IH]; intros acc Hall Hacc.
  - exists acc. split; [reflexivity |]. split; [| exact Hacc].
    intros model. cbn. destruct (String.eqb model "observed"); lia.
  - apply List.Forall_cons_iff in Hall as [Hd Hall].
    cbn [tally_days]. destruct (dict_get "smokeday" data) as [smokeday |] eqn:Hs;
      [| congruence].
    set (observed := match dict_get "observed" smokeday with
                     | Some o => o
                     | None => bool_score false
                     end).
    destruct (IH (tally_models observed smokeday acc) Hall
                 (tally_models_positive observed smokeday acc Hacc))
      as (ms & Hrun & Hcount & Hpos).
    exists ms. split; [exact Hrun |]. split; [| exact Hpos].
    intros model. rewrite Hcount, tally_models_counted.
    assert (Hocc : occurrences model data = entries_of model smokeday)
      by (unfold occurrences; by rewrite Hs).
    cbn [map]. change (list_sum (occurrences model data :: map (occurrences model) days))
      with (occurrences model data + list_sum (map (occurrences model) days))%nat.
    rewrite Hocc. destruct (String.eqb model "observed"); lia.
Qed.

(** X16.  The matrices of a city whose day files all have a smoke-day
    record: there is none for "airnow" and none for "observed"; the
    four cells of a model's matrix sum to the number of day files that
    have an entry of the model, and that number is at least one, so the
    percentages of the table never divide by zero. *)
Theorem confusion_matrices_count_days (days : list day_result) :
  Forall (fun data => dict_get "smokeday" data <> None) days ->
  exists ms,
    confusion_matrices days = Ok ms
    /\ dict_get "airnow" ms = None
    /\ dict_get "observed" ms = None
    /\ (forall model m,
          dict_get model ms = Some m ->
          total_days m = list_sum (map (occurrences model) days)
          /\ (1 <= total_days m)%nat).
Proof.
  intros Hall.
  destruct (tally_days_counted days [] Hall) as (ms & Hrun & Hcount & Hpos);
    [intros ? ? [=] |].
  exists (dict_remove "airnow" ms).
  split; [unfold confusion_matrices; by rewrite Hrun |].
  split; [by rewrite dict_get_remove |].
  split.
  - rewrite dict_get_remove. cbn [String.eqb Ascii.eqb Bool.eqb].
    specialize (Hcount "observed"). cbn in Hcount. unfold counted in Hcount.
    destruct (dict_get "observed" ms) as [m |] eqn:Hm; [| reflexivity].
    apply Hpos in Hm. lia.
  - intros model m. rewrite dict_get_remove.
    destruct (String.eqb "airnow" model); [discriminate |].
    intros Hm. split; [| by apply (Hpos model)].
    specialize (Hcount model). unfold counted in Hcount. rewrite Hm in Hcount.
    cbn [dict_get] in Hcount.
    destruct (String.eqb_spec model "observed") as [-> | _]; [| lia].
    apply Hpos in Hm. lia.
Qed.

Lemma confusion_matrices_count_days_witness :
  exists ms,
    confusion_matrices [incomplete_day; complete_day] = Ok ms
    /\ dict_get "airnow" ms = None
    /\ dict_get "observed" ms = None
    /\ (forall model m,
          dict_get model ms = Some m ->
          total_days m = list_sum (map (occurrences model) [incomplete_day; complete_day])
          /\ (1 <= total_days m)%nat).
Proof.
  apply (confusion_matrices_count_days [incomplete_day; complete_day]).
  repeat constructor; discriminate.
Defined.

Lemma Q_ratio_range (a b : nat) :
  (0 < a + b)%nat ->
  (0 <= inject_Z (Z.of_nat a) / inject_Z (Z.of_nat (a + b))
   /\ inject_Z (Z.of_nat a) / inject_Z (Z.of_nat (a + b)) <= 1)%Q.
Proof.
  intros Hpos.
  assert (Hb : (0 < inject_Z (Z.of_nat (a + b)))%Q).
  { unfold Qlt, inject_Z. simpl. lia. }
  split.
  - apply Qle_shift_div_l; [exact Hb |]. unfold Qle, inject_Z. simpl. lia.
  - apply Qle_shift_div_r; [exact Hb |]. unfold Qle, inject_Z. simpl. lia.
Qed.

(** X17.  Precision is undefined ("--") exactly when the model never
    predicted a smoke day, recall exactly when none was observed on the
    model's days; when defined, both lie between 0 and 1. *)
Theorem calculate_precision_recall_range (m : matrix) :
  (fst (calculate_precision_recall m) = None <-> (TP m + FP m = 0)%nat)
  /\ (snd (calculate_precision_recall m) = None <-> (TP m + FN m = 0)%nat)
  /\ (forall p, fst (calculate_precision_recall m) = Some p -> (0 <= p /\ p <= 1)%Q)
  /\ (forall r, snd (calculate_precision_recall m) = Some r -> (0 <= r /\ r <= 1)%Q).
Proof.
  unfold calculate_precision_recall. cbn [fst snd].
  split; [| split; [| split]].
  - destruct (Nat.eqb_spec (TP m + FP m) 0) as [Hp | Hp]; split; intros H;
      [exact Hp | reflexivity | discriminate | contradiction].
  - destruct (Nat.eqb_spec (TP m + FN m) 0) as [Hr | Hr]; split; intros H;
      [exact Hr | reflexivity | discriminate | contradiction].
  - intros p. destruct (Nat.eqb_spec (TP m + FP m) 0) as [Hp | Hp]; [discriminate |].
    intros [= <-]. apply Q_ratio_range. lia.
  - intros r. destruct (Nat.eqb_spec (TP m + FN m) 0) as [Hr | Hr]; [discriminate |].
    intros [= <-]. apply Q_ratio_range. lia.
Qed.

Lemma tally_models_agreeing (observed : score) (models : dict score) (acc : dict matrix)
    (model : string) :
  (forall v, In (model, v) models -> truthy v = truthy observed) ->
  (forall m, dict_get model acc = Some m -> FP m = O /\ FN m = O) ->
  forall m, dict_get model (tally_models observed models acc) = Some m -> FP m = O /\ FN m = O.
Proof.
  revert acc. induction models as [| [k p] models IH]; intros acc Hagree Hacc; [exact Hacc |].
  cbn [tally_models]. destruct (String.eqb k "observed").
  - apply IH; [intros v Hv; apply Hagree; by right | exact Hacc].
  - apply IH; [intros v Hv; apply Hagree; by right |].
    intros m. rewrite dict_get_set.
    destruct (String.eqb_spec k model) as [-> | _]; [| apply Hacc].
    intros [= <-].
    assert (Hp : truthy p = truthy observed) by (apply Hagree; by left).
    assert (Hm : FP (match dict_get model acc with
                     | Some m => m
                     | None => zero_matrix
                     end) = O
                 /\ FN (match dict_get model acc with
                        | Some m => m
                        | None => zero_matrix
                        end) = O).
    { destruct (dict_get model acc) as [m0 |]; [by apply Hacc | by split]. }
    unfold update_confusion_matrix. rewrite Hp.
    destruct (truthy observed); simpl; exact Hm.
Qed.

Lemma tally_days_agreeing (days : list day_result) (acc : dict matrix) (model : string) :
  Forall (fun data => dict_get "smokeday" data <> None) days ->
  Forall (fun data =>
            forall v, In v (model_flags model data) -> truthy v = truthy (observed_flag data))
         days ->
  (forall m, dict_get model acc = Some m -> FP m = O /\ FN m = O) ->
  exists ms,
    tally_days days acc = Ok ms
    /\ forall m, dict_get model ms = Some m -> FP m = O /\ FN m = O.
Proof.
  revert acc. induction days as [| data days IH]; intros acc Hall Hagree Hacc.
  - exists acc. split; [reflexivity | exact Hacc].
  - apply List.Forall_cons_iff in Hall as [Hd Hall].
    apply List.Forall_cons_iff in Hagree as [Hdata Hagree].
    cbn [tally_days]. unfold model_flags, observed_flag in Hdata.
    destruct (dict_get "smokeday" data) as [smokeday |] eqn:Hs; [| congruence].
    apply IH; [exact Hall | exact Hagree |].
    apply tally_models_agreeing; [| exact Hacc].
    intros v Hv. apply Hdata. apply in_map_iff. exists (model, v).
    split; [reflexivity |]. apply filter_In. split; [exact Hv |].
    cbn [fst]. apply String.eqb_refl.
Qed.

Lemma Q_ratio_one (a : nat) :
  (0 < a)%nat ->
  (inject_Z (Z.of_nat a) / inject_Z (Z.of_nat (a + 0)) == 1)%Q.
Proof.
  intros Hpos. rewrite Nat.add_0_r. unfold Qdiv. apply Qmult_inv_r.
  unfold Qeq, inject_Z. simpl. lia.
Qed.

Lemma precision_recall_without_errors (m : matrix) :
  FP m = O ->
  FN m = O ->
  (forall p, fst (calculate_precision_recall m) = Some p -> (p == 1)%Q)
  /\ (forall r, snd (calculate_precision_recall m) = Some r -> (r == 1)%Q).
Proof.
  intros Hfp Hfn. unfold calculate_precision_recall. cbn [fst snd]. rewrite Hfp, Hfn.
  split; intros q; destruct (Nat.eqb_spec (TP m + 0) 0) as [Hz | Hz]; try discriminate;
    intros [= <-]; apply Q_ratio_one; lia.
Qed.

(** X18.  A model whose flag agrees with the observed flag in every day file
    has no false positive and no false negative, and its precision and
    recall are 1 where they are defined.  By the smoke-day metric the
    observation source "airnow" is such a model; its matrix is the one
    that is dropped. *)
Theorem confusion_matrices_agreeing_model (days : list day_result) (model : string) :
  Forall (fun data => dict_get "smokeday" data <> None) days ->
  Forall (fun data =>
            forall v, In v (model_flags model data) -> truthy v = truthy (observed_flag data))
         days ->
  exists ms,
    confusion_matrices days = Ok ms
    /\ forall m,
         dict_get model ms = Some m ->
         FP m = O /\ FN m = O
         /\ (forall p, fst (calculate_precision_recall m) = Some p -> (p == 1)%Q)
         /\ (forall r, snd (calculate_precision_recall m) = Some r -> (r == 1)%Q).
Proof.
  intros Hall Hagree.
  destruct (tally_days_agreeing days [] model Hall Hagree) as (ms & Hrun & Hm);
    [intros ? [=] |].
  exists (dict_remove "airnow" ms).
  split; [unfold confusion_matrices; by rewrite Hrun |].
  intros m. rewrite dict_get_remove.
  destruct (String.eqb "airnow" model); [discriminate |].
  intros Hget. destruct (Hm m Hget) as [Hfp Hfn].
  split; [exact Hfp |]. split; [exact Hfn |].
  by apply precision_recall_without_errors.
Qed.

Lemma confusion_matrices_agreeing_model_witness :
  exists ms,
    confusion_matrices [smoke_day_record; complete_day] = Ok ms
    /\ forall m,
         dict_get "cams" ms = Some m ->
         FP m = O /\ FN m = O
         /\ (forall p, fst (calculate_precision_recall m) = Some p -> (p == 1)%Q)
         /\ (forall r, snd (calculate_precision_recall m) = Some r -> (r == 1)%Q).
Proof.
  apply (confusion_matrices_agreeing_model [smoke_day_record; complete_day] "cams").
  - repeat constructor; discriminate.
  - repeat constructor; intros v [<- | []]; reflexivity.
Defined.

(** ** The hour files of the AirNow adapter *)

Lemma list_ascii_of_string_length (s : string) :
  length (String.list_ascii_of_string s) = String.length s.
Proof. induction s as [| a s IH]; [reflexivity |]. simpl. by rewrite IH. Qed.

Lemma string_app_inj_2 (s1 s2 t1 t2 : string) :
  String.length t1 = String.length t2 ->
  s1 +:+ t1 = s2 +:+ t2 ->
  s1 = s2 /\ t1 = t2.
Proof.
  intros Hlen H. apply (f_equal String.list_ascii_of_string) in H.
  rewrite !list_ascii_of_string_app in H.
  apply app_inj_2 in H as [H1 H2]; [| by rewrite !list_ascii_of_string_length].
  apply (f_equal String.string_of_list_ascii) in H1, H2.
  rewrite !String.string_of_list_ascii_of_string in H1, H2. by split.
Qed.

Lemma hour_suffix_length (hour : Z) :
  In hour (range 0 24) -> String.length (hour_suffix hour) = 7%nat.
Proof.
  intros Hin.
  assert (Hall : forallb (fun h => Nat.eqb (String.length (hour_suffix h)) 7) (range 0 24)
                 = true) by (vm_compute; reflexivity).
  pose proof (proj1 (forallb_forall _ _) Hall hour Hin) as Hcell. cbv beta in Hcell.
  by apply Nat.eqb_eq.
Qed.

Lemma hour_suffix_inj (h1 h2 : Z) :
  In h1 (range 0 24) -> In h2 (range 0 24) -> hour_suffix h1 = hour_suffix h2 -> h1 = h2.
Proof.
  intros H1 H2 Heq.
  assert (Hall : forallb
                   (fun a => forallb
                               (fun b => implb (String.eqb (hour_suffix a) (hour_suffix b))
                                               (Z.eqb a b))
                               (range 0 24))
                   (range 0 24) = true) by (vm_compute; reflexivity).
  pose proof (proj1 (forallb_forall _ _) Hall h1 H1) as Hrow. cbv beta in Hrow.
  pose proof (proj1 (forallb_forall _ _) Hrow h2 H2) as Hcell. cbv beta in Hcell.
  apply (proj2 (String.eqb_eq _ _)) in Heq. rewrite Heq in Hcell.
  by apply Z.eqb_eq.
Qed.

Lemma hour_file_inj (datadir : string) (d1 d2 : Date) (h1 h2 : Z) :
  In h1 (range 0 24) ->
  In h2 (range 0 24) ->
  hour_file datadir d1 h1 = hour_file datadir d2 h2 ->
  strftime_ymd d1 = strftime_ymd d2 /\ h1 = h2.
Proof.
  intros H1 H2 Heq. unfold hour_file in Heq. injection Heq as Heq.
  fold (hour_suffix h1) in Heq. fold (hour_suffix h2) in Heq.
  apply string_app_inj_2 in Heq as [Hd Hs].
  - split; [exact Hd | by apply hour_suffix_inj].
  - by rewrite !hour_suffix_length.
Qed.

Lemma range_sub (a b a' b' h : Z) :
  (a' <= a)%Z -> (b <= b')%Z -> In h (range a b) -> In h (range a' b').
Proof.
  intros Ha Hb Hin. unfold range in *.
  apply in_map_iff in Hin as [i [<- Hi]]. apply in_seq in Hi.
  apply in_map_iff. exists (Z.to_nat (a - a') + i)%nat.
  split; [lia |]. apply in_seq. lia.
Qed.

Lemma range_bounds (a b h : Z) : In h (range a b) -> (a <= h < b)%Z.
Proof.
  unfold range. intros Hin. apply in_map_iff in Hin as [i [<- Hi]].
  apply in_seq in Hi. lia.
Qed.

Lemma range_NoDup (a b : Z) : List.NoDup (range a b).
Proof.
  unfold range. apply List.NoDup_map_NoDup_ForallPairs; [| apply List.seq_NoDup].
  intros i j _ _ H. lia.
Qed.

Lemma hour_files_NoDup (datadir : string) (date : Date) (a b : Z) :
  (0 <= a)%Z -> (b <= 24)%Z ->
  List.NoDup (map (hour_file datadir date) (range a b)).
Proof.
  intros Ha Hb. apply List.NoDup_map_NoDup_ForallPairs; [| apply range_NoDup].
  intros h1 h2 H1 H2 Heq.
  apply (hour_file_inj datadir date date h1 h2); [| | exact Heq];
    by apply (range_sub a b 0 24).
Qed.

Section AirNowFacts.

Variable urlretrieve : Date -> Z -> option string.
Variable tomorrow_of : Date -> Date.
Variable read_hour : string -> result DataFrame.

Lemma download_hours_ok (datadir : string) (date : Date) (hours : list Z) (s : Downloads) :
  List.NoDup (map (hour_file datadir date) hours) ->
  (forall hour, In hour hours -> urlretrieve date hour <> None) ->
  exists s',
    download_hours urlretrieve datadir date hours s = (true, s')
    /\ download_dirs s' = download_dirs s
    /\ printed s' = printed s
    /\ (forall hour, In hour hours ->
                     hour_files s' !! hour_file datadir date hour = urlretrieve date hour)
    /\ (forall p, ~ In p (map (hour_file datadir date) hours) ->
                  hour_files s' !! p = hour_files s !! p).
Proof.
  revert s. induction hours as [| h hours IH]; intros s Hnd Hall.
  - exists s. split; [reflexivity |]. split; [reflexivity |]. split; [reflexivity |].
    split; [intros ? [] | reflexivity].
  - cbn [map] in Hnd. apply List.NoDup_cons_iff in Hnd as [Hfresh Hnd].
    destruct (urlretrieve date h) as [txt |] eqn:Hh;
      [| exfalso; apply (Hall h); [by left | exact Hh]].
    set (s1 := mkDownloads (<[hour_file datadir date h := txt]> (hour_files s))
                           (download_dirs s) (printed s)).
    destruct (IH s1 Hnd) as (s' & Hrun & Hd & Hp & Hin & Hout);
      [intros hour Hhour; apply Hall; by right |].
    exists s'. split.
    { cbn [download_hours]. unfold download_hour. rewrite Hh. cbn [fst snd]. exact Hrun. }
    split; [exact Hd |]. split; [exact Hp |]. split.
    + intros hour [<- | Hhour]; [| by apply Hin].
      rewrite (Hout _ Hfresh). unfold s1. cbn [hour_files].
      rewrite lookup_insert_eq. by rewrite Hh.
    + intros p Hp'. rewrite Hout by (intros H; apply Hp'; by right).
      unfold s1. cbn [hour_files]. apply lookup_insert_ne.
      intros Heq. apply Hp'. by left.
Qed.

Lemma download_hours_grows
    (datadir : string) (date : Date) (hours : list Z) (s : Downloads) (p : path) :
  is_Some (hour_files s !! p) ->
  is_Some (hour_files (snd (download_hours urlretrieve datadir date hours s)) !! p).
Proof.
  revert s. induction hours as [| h hours IH]; intros s Hp; [exact Hp |].
  cbn [download_hours]. unfold download_hour.
  destruct (urlretrieve date h) as [txt |]; cbn [fst snd]; [| exact Hp].
  apply IH. cbn [hour_files]. apply lookup_insert_is_Some'. by right.
Qed.

Lemma download_hours_fails
    (datadir : string) (date : Date) (hours : list Z) (s : Downloads) (hour : Z) :
  In hour hours ->
  urlretrieve date hour = None ->
  fst (download_hours urlretrieve datadir date hours s) = false.
Proof.
  revert s. induction hours as [| h hours IH]; intros s Hin Hnone; [destruct Hin |].
  cbn [download_hours]. unfold download_hour.
  destruct (urlretrieve date h) as [txt |] eqn:Hh; cbn [fst snd]; [| reflexivity].
  destruct Hin as [-> | Hin]; [congruence |]. by apply IH.
Qed.

Lemma download_hours_prefix
    (datadir : string) (date : Date) (pre post : list Z) (hour : Z) (s : Downloads) :
  (forall h, In h pre -> urlretrieve date h <> None) ->
  urlretrieve date hour <> None ->
  is_Some (hour_files (snd (download_hours urlretrieve datadir date (pre ++ hour :: post) s))
           !! hour_file datadir date hour).
Proof.
  revert s. induction pre as [| a pre IH]; intros s Hpre Hhour.
  - cbn [app download_hours]. unfold download_hour.
    destruct (urlretrieve date hour) as [txt |]; [| congruence]. cbn [fst snd].
    apply download_hours_grows. cbn [hour_files]. apply lookup_insert_is_Some'. by left.
  - cbn [app download_hours]. unfold download_hour.
    destruct (urlretrieve date a) as [txt |] eqn:Ha;
      [| exfalso; apply (Hpre a); [by left | exact Ha]].
    cbn [fst snd]. apply IH; [| exact Hhour]. intros h Hh. apply Hpre. by right.
Qed.

Lemma remove_all_ok (ps : list path) (s : Downloads) :
  List.NoDup ps ->
  (forall p, In p ps -> is_Some (hour_files s !! p)) ->
  exists s',
    remove_all ps s = (Ok tt, s')
    /\ (forall p, In p ps -> hour_files s' !! p = None)
    /\ (forall p, ~ In p ps -> hour_files s' !! p = hour_files s !! p).
Proof.
  revert s. induction ps as [| p0 ps IH]; intros s Hnd Hall.
  - exists s. split; [reflexivity |]. split; [intros ? [] | reflexivity].
  - apply List.NoDup_cons_iff in Hnd as [Hfresh Hnd].
    destruct (Hall p0) as [c Hc]; [by left |].
    set (s1 := mkDownloads (delete p0 (hour_files s)) (download_dirs s) (printed s)).
    destruct (IH s1 Hnd) as (s' & Hrun & Hin & Hout).
    { intros p Hp. unfold s1. cbn [hour_files]. rewrite lookup_delete_ne.
      - apply Hall. by right.
      - intros ->. contradiction. }
    exists s'. split.
    { cbn [remove_all]. unfold os_remove. rewrite Hc. exact Hrun. }
    split.
    + intros p [<- | Hp]; [| by apply Hin].
      rewrite (Hout _ Hfresh). unfold s1. cbn [hour_files]. apply lookup_delete_eq.
    + intros p Hp. rewrite Hout by (intros H; apply Hp; by right).
      unfold s1. cbn [hour_files]. apply lookup_delete_ne. intros ->. apply Hp. by left.
Qed.

Lemma mapM_exists {A B : Type} (f : A -> result B) (P : B -> Prop) (l : list A) :
  (forall a, In a l -> exists b, f a = Ok b /\ P b) ->
  exists out, mapM f l = Ok out /\ Forall P out.
Proof.
  induction l as [| a l IH]; intros Hall.
  - exists []. split; [reflexivity | constructor].
  - destruct (Hall a) as [b [Hb Pb]]; [by left |].
    destruct IH as [out [Hout Pout]]; [intros a' Ha'; apply Hall; by right |].
    exists (b :: out). split; [| by constructor].
    cbn [mapM]. rewrite Hb. cbn [rbind]. rewrite Hout. reflexivity.
Qed.

Lemma mapM_shift_hour_raises (frames : list DataFrame) :
  In [] frames -> mapM shift_hour frames = Raise IndexError.
Proof.
  induction frames as [| fr frames IH]; intros Hin; [destruct Hin |].
  cbn [mapM]. destruct fr as [| r fr]; [reflexivity |].
  destruct Hin as [Hin | Hin]; [discriminate |].
  cbn [shift_hour rbind]. by rewrite (IH Hin).
Qed.

Lemma NoDup_app_In {A : Type} (l k : list A) :
  List.NoDup l -> List.NoDup k -> (forall a, In a l -> ~ In a k) -> List.NoDup (l ++ k).
Proof.
  induction l as [| a l IH]; intros Hl Hk Hdis; [exact Hk |].
  apply List.NoDup_cons_iff in Hl as [Ha Hl]. cbn [app]. apply List.NoDup_cons_iff. split.
  - intros Hin. apply in_app_or in Hin as [Hin | Hin]; [contradiction |].
    apply (Hdis a); [by left | exact Hin].
  - apply IH; [exact Hl | exact Hk |]. intros a' Ha'. apply Hdis. by right.
Qed.

Lemma other_day_file (datadir : string) (d1 d2 : Date) (h : Z) (a b : Z) :
  strftime_ymd d1 <> strftime_ymd d2 ->
  (0 <= a)%Z -> (b <= 24)%Z ->
  In h (range 0 24) ->
  ~ In (hour_file datadir d1 h) (map (hour_file datadir d2) (range a b)).
Proof.
  intros Hd Ha Hb Hh Hin. apply in_map_iff in Hin as [h' [Heq Hh']].
  apply hour_file_inj in Heq as [Heq _]; [congruence | by apply (range_sub a b 0 24) | exact Hh].
Qed.

Lemma other_hour_file (datadir : string) (date : Date) (h : Z) (a b : Z) :
  (0 <= a)%Z -> (b <= 24)%Z ->
  In h (range 0 24) ->
  ~ In h (range a b) ->
  ~ In (hour_file datadir date h) (map (hour_file datadir date) (range a b)).
Proof.
  intros Ha Hb Hh Hout Hin. apply in_map_iff in Hin as [h' [Heq Hh']].
  apply hour_file_inj in Heq as [_ Heq]; [| by apply (range_sub a b 0 24) | exact Hh].
  subst h'. contradiction.
Qed.

(** The state after the two loops of [download_day], when every hour
    can be fetched. *)
Lemma download_day_ok (datadir : string) (date : Date) (s : Downloads) :
  strftime_ymd (tomorrow_of date) <> strftime_ymd date ->
  (forall hour, In hour (range 4 24) -> urlretrieve date hour <> None) ->
  (forall hour, In hour (range 0 18) -> urlretrieve (tomorrow_of date) hour <> None) ->
  exists s1,
    download_day urlretrieve tomorrow_of datadir date s = (true, s1)
    /\ printed s1 = printed s
    /\ (forall hour, In hour (range 4 24) ->
                     hour_files s1 !! hour_file datadir date hour = urlretrieve date hour)
    /\ (forall hour, In hour (range 0 18) ->
                     hour_files s1 !! hour_file datadir (tomorrow_of date) hour
                     = urlretrieve (tomorrow_of date) hour).
Proof.
  intros Hdates Htoday Htomorrow.
  destruct (download_hours_ok datadir date (range 4 24) s
              (hour_files_NoDup datadir date 4 24 ltac:(lia) ltac:(lia)) Htoday)
    as (s0 & Hrun0 & _ & Hp0 & Hin0 & _).
  destruct (download_hours_ok datadir (tomorrow_of date) (range 0 18) s0
              (hour_files_NoDup datadir (tomorrow_of date) 0 18 ltac:(lia) ltac:(lia))
              Htomorrow)
    as (s1 & Hrun1 & _ & Hp1 & Hin1 & Hout1).
  exists s1. split.
  { unfold download_day. rewrite Hrun0. cbn [fst snd]. exact Hrun1. }
  split; [congruence |]. split; [| exact Hin1].
  intros hour Hhour. rewrite Hout1; [by apply Hin0 |].
  apply other_day_file; [congruence | lia | lia | by apply (range_sub 4 24 0 24)].
Qed.

Lemma open_day_ok (datadir : string) (date : Date) (s1 : Downloads) :
  (forall hour, In hour (range 4 24) ->
     exists txt df,
       hour_files s1 !! hour_file datadir date hour = Some txt /\ read_hour txt = Ok df) ->
  (forall hour, In hour (range 0 18) ->
     exists txt r df,
       hour_files s1 !! hour_file datadir (tomorrow_of date) hour = Some txt
       /\ read_hour txt = Ok (r :: df)) ->
  exists day_df, open_day tomorrow_of read_hour datadir date s1 = Ok day_df.
Proof.
  intros Htoday Htomorrow.
  destruct (mapM_exists (fun hour => open_hour_df read_hour (hour_file datadir date hour) s1)
              (fun _ => True) (range 4 24)) as [dfs1 [H1 _]].
  { intros hour Hhour. destruct (Htoday hour Hhour) as (txt & df & Hf & Hr).
    exists df. unfold open_hour_df. by rewrite Hf. }
  destruct (mapM_exists
              (fun hour => open_hour_df read_hour
                             (hour_file datadir (tomorrow_of date) hour) s1)
              (fun df => df <> []) (range 0 18)) as [dfs2 [H2 Hne]].
  { intros hour Hhour. destruct (Htomorrow hour Hhour) as (txt & r & df & Hf & Hr).
    exists (r :: df). unfold open_hour_df. by rewrite Hf. }
  destruct (mapM_exists shift_hour (fun _ => True) dfs2) as [shifted [H3 _]].
  { intros df Hdf. pose proof (proj1 (List.Forall_forall _ _) Hne df Hdf) as Hdf'.
    destruct df as [| r df]; [congruence |]. eexists. split; [reflexivity | exact I]. }
  eexists. unfold open_day. rewrite H1. cbn [rbind]. rewrite H2. cbn [rbind].
  rewrite H3. reflexivity.
Qed.

(** X21.  A successful download of a day leaves hour files behind.  [clean_up]
    removes the hours 6 to 23 of the day and 0 to 11 of the next day,
    but [download_day] fetches 4 to 23 and 0 to 17: after the table has
    been returned the files of hours 4 and 5 of the day and 12 to 17 of
    the next day are still in the data directory, and the others are
    gone.  (An hour of the day itself may have no row; the hours of the
    next day must each have one.) *)
Theorem airnow_download_leaves_hour_files
    (datadir : string) (date : Date) (s : Downloads) :
  strftime_ymd (tomorrow_of date) <> strftime_ymd date ->
  (forall hour, In hour (range 4 24) ->
     exists txt df, urlretrieve date hour = Some txt /\ read_hour txt = Ok df) ->
  (forall hour, In hour (range 0 18) ->
     exists txt r df,
       urlretrieve (tomorrow_of date) hour = Some txt /\ read_hour txt = Ok (r :: df)) ->
  exists day_df s',
    airnow_data_download urlretrieve tomorrow_of read_hour date datadir s
    = (Ok (Some day_df), s')
    /\ (forall hour, In hour (range 4 6) ->
          hour_files s' !! hour_file datadir date hour = urlretrieve date hour)
    /\ (forall hour, In hour (range 12 18) ->
          hour_files s' !! hour_file datadir (tomorrow_of date) hour
          = urlretrieve (tomorrow_of date) hour)
    /\ (forall hour, In hour (range 6 24) ->
          hour_files s' !! hour_file datadir date hour = None)
    /\ (forall hour, In hour (range 0 12) ->
          hour_files s' !! hour_file datadir (tomorrow_of date) hour = None).
Proof.
  intros Hdates Htoday Htomorrow.
  set (s0 := mkDownloads (hour_files s)
                         (download_dirs s ∪ list_to_set (ancestors [datadir])) (printed s)).
  destruct (download_day_ok datadir date s0 Hdates) as (s1 & Hrun & _ & Hin0 & Hin1).
  { intros hour Hhour. destruct (Htoday hour Hhour) as (txt & df & -> & _). discriminate. }
  { intros hour Hhour. destruct (Htomorrow hour Hhour) as (txt & r & df & -> & _).
    discriminate. }
  destruct (open_day_ok datadir date s1) as [day_df Hopen].
  { intros hour Hhour. destruct (Htoday hour Hhour) as (txt & df & Hu & Hr).
    exists txt, df. split; [| exact Hr]. rewrite <- Hu. by apply Hin0. }
  { intros hour Hhour. destruct (Htomorrow hour Hhour) as (txt & r & df & Hu & Hr).
    exists txt, r, df. split; [| exact Hr]. rewrite <- Hu. by apply Hin1. }
  destruct (remove_all_ok
              (map (hour_file datadir date) (range 6 24)
               ++ map (hour_file datadir (tomorrow_of date)) (range 0 12)) s1)
    as (s' & Hclean & Hgone & Hkept).
  { apply NoDup_app_In; [apply hour_files_NoDup; lia | apply hour_files_NoDup; lia |].
    intros p Hp. apply in_map_iff in Hp as [h [<- Hh]].
    apply other_day_file; [congruence | lia | lia | by apply (range_sub 6 24 0 24)]. }
  { intros p Hp. apply in_app_or in Hp as [Hp | Hp]; apply in_map_iff in Hp as [h [<- Hh]].
    - rewrite Hin0 by (by apply (range_sub 6 24 4 24)).
      destruct (Htoday h) as (txt & df & -> & _); [by apply (range_sub 6 24 4 24) |].
      by eexists.
    - rewrite Hin1 by (by apply (range_sub 0 12 0 18)).
      destruct (Htomorrow h) as (txt & r & df & -> & _); [by apply (range_sub 0 12 0 18) |].
      by eexists. }
  exists day_df, s'. split.
  { unfold airnow_data_download, parse_day. fold s0. rewrite Hrun. cbn [fst snd].
    rewrite Hopen. unfold clean_up. rewrite Hclean. reflexivity. }
  split; [| split; [| split]].
  - intros hour Hhour. rewrite Hkept; [apply Hin0; by apply (range_sub 4 6 4 24) |].
    intros Hin. apply in_app_or in Hin as [Hin | Hin]; revert Hin.
    + apply other_hour_file; [lia | lia | by apply (range_sub 4 6 0 24) |].
      intros H6. apply range_bounds in Hhour, H6. lia.
    + apply other_day_file; [congruence | lia | lia | by apply (range_sub 4 6 0 24)].
  - intros hour Hhour. rewrite Hkept; [apply Hin1; by apply (range_sub 12 18 0 18) |].
    intros Hin. apply in_app_or in Hin as [Hin | Hin]; revert Hin.
    + apply other_day_file; [exact Hdates | lia | lia | by apply (range_sub 12 18 0 24)].
    + apply other_hour_file; [lia | lia | by apply (range_sub 12 18 0 24) |].
      intros H0. apply range_bounds in Hhour, H0. lia.
  - intros hour Hhour. apply Hgone. apply in_or_app. left. by apply in_map.
  - intros hour Hhour. apply Hgone. apply in_or_app. right. by apply in_map.
Qed.

(** X22.  An hour of the next day without a row (every monitor of the file
    outside the continental box) makes [open_day] raise [IndexError],
    although the same is tolerated for an hour of the day itself; the
    exception leaves [parse_day] before [clean_up], so all 38 hour
    files stay in the data directory. *)
Theorem airnow_download_empty_next_day_hour
    (datadir : string) (date : Date) (s : Downloads) (empty_hour : Z) :
  strftime_ymd (tomorrow_of date) <> strftime_ymd date ->
  (forall hour, In hour (range 4 24) ->
     exists txt df, urlretrieve date hour = Some txt /\ read_hour txt = Ok df) ->
  (forall hour, In hour (range 0 18) ->
     exists txt df, urlretrieve (tomorrow_of date) hour = Some txt /\ read_hour txt = Ok df) ->
  In empty_hour (range 0 18) ->
  (forall txt, urlretrieve (tomorrow_of date) empty_hour = Some txt -> read_hour txt = Ok []) ->
  exists s',
    airnow_data_download urlretrieve tomorrow_of read_hour date datadir s
    = (Raise IndexError, s')
    /\ (forall hour, In hour (range 4 24) ->
          hour_files s' !! hour_file datadir date hour = urlretrieve date hour)
    /\ (forall hour, In hour (range 0 18) ->
          hour_files s' !! hour_file datadir (tomorrow_of date) hour
          = urlretrieve (tomorrow_of date) hour).
Proof.
  intros Hdates Htoday Htomorrow Hempty Hnone.
  set (s0 := mkDownloads (hour_files s)
                         (download_dirs s ∪ list_to_set (ancestors [datadir])) (printed s)).
  destruct (download_day_ok datadir date s0 Hdates) as (s1 & Hrun & _ & Hin0 & Hin1).
  { intros hour Hhour. destruct (Htoday hour Hhour) as (txt & df & -> & _). discriminate. }
  { intros hour Hhour. destruct (Htomorrow hour Hhour) as (txt & df & -> & _).
    discriminate. }
  destruct (mapM_exists (fun hour => open_hour_df read_hour (hour_file datadir date hour) s1)
              (fun _ => True) (range 4 24)) as [dfs1 [H1 _]].
  { intros hour Hhour. destruct (Htoday hour Hhour) as (txt & df & Hu & Hr).
    exists df. unfold open_hour_df. rewrite (Hin0 hour Hhour), Hu. by split. }
  assert (H2 : exists dfs2,
             mapM (fun hour => open_hour_df read_hour
                                 (hour_file datadir (tomorrow_of date) hour) s1)
                  (range 0 18) = Ok dfs2
             /\ In [] dfs2).
  { assert (Hgen : forall hours,
               (forall hour, In hour hours -> In hour (range 0 18)) ->
               exists dfs2,
                 mapM (fun hour => open_hour_df read_hour
                                     (hour_file datadir (tomorrow_of date) hour) s1)
                      hours = Ok dfs2
                 /\ (In empty_hour hours -> In [] dfs2)).
    { induction hours as [| h hours IH]; intros Hsub.
      - exists []. split; [reflexivity | intros []].
      - destruct IH as (dfs & Hdfs & Hin); [intros hour Hhour; apply Hsub; by right |].
        destruct (Htomorrow h) as (txt & df & Hu & Hr); [apply Hsub; by left |].
        exists (df :: dfs). split.
        + cbn [mapM]. unfold open_hour_df at 1. rewrite (Hin1 h) by (apply Hsub; by left).
          rewrite Hu, Hr. cbn [rbind]. rewrite Hdfs. reflexivity.
        + intros [<- | Hrest]; [| right; by apply Hin].
          left. rewrite (Hnone txt Hu) in Hr. congruence. }
    destruct (Hgen (range 0 18)) as (dfs2 & Hdfs & Hin); [auto |].
    exists dfs2. split; [exact Hdfs | by apply Hin]. }
  destruct H2 as (dfs2 & H2 & Hin).
  exists s1. split.
  { unfold airnow_data_download, parse_day. fold s0. rewrite Hrun. cbn [fst snd].
    unfold open_day. rewrite H1. cbn [rbind]. rewrite H2. cbn [rbind].
    rewrite (mapM_shift_hour_raises dfs2 Hin). reflexivity. }
  split; [exact Hin0 | exact Hin1].
Qed.

(** X23.  When an hour cannot be fetched the adapter returns no table, opens
    and removes nothing: every file that was in the directory is still
    there, and so is the file of every hour that was fetched before
    the failing one. *)
Theorem airnow_download_failed_hour
    (datadir : string) (date : Date) (s : Downloads)
    (pre post : list Z) (hour failing : Z) :
  range 4 24 = pre ++ hour :: post ->
  (forall h, In h pre -> urlretrieve date h <> None) ->
  urlretrieve date hour <> None ->
  In failing post ->
  urlretrieve date failing = None ->
  exists s',
    airnow_data_download urlretrieve tomorrow_of read_hour date datadir s = (Ok None, s')
    /\ (forall p, is_Some (hour_files s !! p) -> is_Some (hour_files s' !! p))
    /\ is_Some (hour_files s' !! hour_file datadir date hour).
Proof.
  intros Hsplit Hpre Hhour Hfailing Hnone.
  set (s0 := mkDownloads (hour_files s)
                         (download_dirs s ∪ list_to_set (ancestors [datadir])) (printed s)).
  assert (Hfail : fst (download_hours urlretrieve datadir date (range 4 24) s0) = false).
  { apply (download_hours_fails datadir date (range 4 24) s0 failing); [| exact Hnone].
    rewrite Hsplit. apply in_or_app. right. by right. }
  eexists. split.
  { unfold airnow_data_download, parse_day, download_day. fold s0. rewrite Hfail.
    cbn [fst snd]. reflexivity. }
  cbn [hour_files]. split.
  - intros p Hp. by apply download_hours_grows.
  - rewrite Hsplit. by apply download_hours_prefix.
Qed.

End AirNowFacts.

Lemma airnow_download_leaves_hour_files_witness :
  exists day_df s',
    airnow_data_download every_hour next_day_in_month one_monitor example_date "data"
                         empty_downloads
    = (Ok (Some day_df), s')
    /\ (forall hour, In hour (range 4 6) ->
          hour_files s' !! hour_file "data" example_date hour = every_hour example_date hour)
    /\ (forall hour, In hour (range 12 18) ->
          hour_files s' !! hour_file "data" (next_day_in_month example_date) hour
          = every_hour (next_day_in_month example_date) hour)
    /\ (forall hour, In hour (range 6 24) ->
          hour_files s' !! hour_file "data" example_date hour = None)
    /\ (forall hour, In hour (range 0 12) ->
          hour_files s' !! hour_file "data" (next_day_in_month example_date) hour = None).
Proof.
  apply (airnow_download_leaves_hour_files every_hour next_day_in_month one_monitor
           "data" example_date empty_downloads).
  - vm_compute. discriminate.
  - intros hour _. eexists. eexists. split; reflexivity.
  - intros hour _. eexists. eexists. eexists. split; reflexivity.
Defined.

Lemma airnow_download_empty_next_day_hour_witness :
  exists s',
    airnow_data_download every_hour next_day_in_month no_monitor example_date "data"
                         empty_downloads
    = (Raise IndexError, s')
    /\ (forall hour, In hour (range 4 24) ->
          hour_files s' !! hour_file "data" example_date hour = every_hour example_date hour)
    /\ (forall hour, In hour (range 0 18) ->
          hour_files s' !! hour_file "data" (next_day_in_month example_date) hour
          = every_hour (next_day_in_month example_date) hour).
Proof.
  apply (airnow_download_empty_next_day_hour every_hour next_day_in_month no_monitor
           "data" example_date empty_downloads 0).
  - vm_compute. discriminate.
  - intros hour _. eexists. eexists. split; reflexivity.
  - intros hour _. eexists. eexists. split; reflexivity.
  - left. reflexivity.
  - intros txt _. reflexivity.
Defined.

Lemma airnow_download_failed_hour_witness :
  exists s',
    airnow_data_download until_hour_five next_day_in_month one_monitor example_date "data"
                         empty_downloads = (Ok None, s')
    /\ (forall p, is_Some (hour_files empty_downloads !! p) -> is_Some (hour_files s' !! p))
    /\ is_Some (hour_files s' !! hour_file "data" example_date 5).
Proof.
  apply (airnow_download_failed_hour until_hour_five next_day_in_month one_monitor
           "data" example_date empty_downloads [4%Z] (range 6 24) 5 6).
  - reflexivity.
  - intros h [<- | []]. discriminate.
  - discriminate.
  - left. reflexivity.
  - reflexivity.
Defined.

(** ** The two confusion matrices of the repository *)

Section ConfusionFacts.

(** Whoever has a count of true positives has all four counts. *)
Let complete (c : Counts) : Prop :=
  forall k, counts_of c k = None -> dict_get k (true_positives c) = None.

Let related (acc : dict matrix) (c : Counts) : Prop :=
  forall k, k <> "observed" -> counts_of c k = dict_get k acc.

Let or_zero (o : option matrix) : matrix :=
  match o with
  | Some m => m
  | None => zero_matrix
  end.

Lemma counts_of_Some (c : Counts) (k : string) (m : matrix) :
  counts_of c k = Some m ->
  dict_get k (true_positives c) = Some (TP m)
  /\ dict_get k (false_positives c) = Some (FP m)
  /\ dict_get k (false_negatives c) = Some (FN m)
  /\ dict_get k (true_negatives c) = Some (TN m).
Proof.
  unfold counts_of.
  destruct (dict_get k (true_positives c)), (dict_get k (false_positives c)),
    (dict_get k (false_negatives c)), (dict_get k (true_negatives c));
    try discriminate.
  intros [= <-]. repeat split.
Qed.

Lemma counts_of_init (c : Counts) (forecast : string) :
  complete c ->
  let c1 := match dict_get forecast (true_positives c) with
            | Some _ => c
            | None =>
                mkCounts (dict_set forecast O (true_positives c))
                         (dict_set forecast O (false_positives c))
                         (dict_set forecast O (false_negatives c))
                         (dict_set forecast O (true_negatives c))
            end in
  counts_of c1 forecast = Some (or_zero (counts_of c forecast))
  /\ (forall k, String.eqb forecast k = false ->
                counts_of c1 k = counts_of c k
                /\ dict_get k (true_positives c1) = dict_get k (true_positives c)).
Proof.
  intros Hc. destruct (dict_get forecast (true_positives c)) as [a |] eqn:Htp; cbn zeta.
  - split; [| by intros k Hk].
    destruct (counts_of c forecast) as [m |] eqn:Hm; [reflexivity |].
    apply Hc in Hm. congruence.
  - split.
    + unfold counts_of. cbn [true_positives false_positives false_negatives true_negatives].
      rewrite !dict_get_set, String.eqb_refl, Htp. reflexivity.
    + intros k Hk. unfold counts_of.
      cbn [true_positives false_positives false_negatives true_negatives].
      by rewrite !dict_get_set, Hk.
Qed.

Lemma count_forecast_spec
    (r : metric_result) (forecast : string) (res : score) (c : Counts) (o : score) :
  dict_get "observed" r = Some o ->
  complete c ->
  exists c',
    count_forecast r forecast res c = Ok c'
    /\ complete c'
    /\ forall k,
         counts_of c' k
         = if String.eqb forecast k
           then Some (update_confusion_matrix (or_zero (counts_of c k)) res o)
           else counts_of c k.
Proof.
  intros Ho Hc. unfold count_forecast, dict_item. rewrite Ho. cbn [rbind].
  destruct (counts_of_init c forecast Hc) as [Hcell Hother].
  set (c1 := match dict_get forecast (true_positives c) with
             | Some _ => c
             | None =>
                 mkCounts (dict_set forecast O (true_positives c))
                          (dict_set forecast O (false_positives c))
                          (dict_set forecast O (false_negatives c))
                          (dict_set forecast O (true_negatives c))
             end) in *.
  set (m := or_zero (counts_of c forecast)) in *.
  destruct (counts_of_Some c1 forecast m Hcell) as (Htp & Hfp & Hfn & Htn).
  assert (Hrest : forall c' new,
             (forall k, String.eqb forecast k = false ->
                        counts_of c' k = counts_of c1 k
                        /\ dict_get k (true_positives c') = dict_get k (true_positives c1)) ->
             counts_of c' forecast = Some new ->
             new = update_confusion_matrix m res o ->
             complete c'
             /\ forall k,
                  counts_of c' k
                  = if String.eqb forecast k
                    then Some (update_confusion_matrix (or_zero (counts_of c k)) res o)
                    else counts_of c k).
  { intros c' new Hsame Hnew ->. split.
    - intros k Hk. destruct (String.eqb_spec forecast k) as [<- | Hne]; [congruence |].
      apply String.eqb_neq in Hne.
      destruct (Hsame k Hne) as [Hs1 Hs2]. destruct (Hother k Hne) as [Ho1 Ho2].
      rewrite Hs2, Ho2. apply Hc. congruence.
    - intros k. destruct (String.eqb_spec forecast k) as [<- | Hne]; [exact Hnew |].
      apply String.eqb_neq in Hne.
      destruct (Hsame k Hne) as [Hs1 _]. destruct (Hother k Hne) as [Ho1 _]. congruence. }
  unfold increment, dict_item.
  destruct (truthy res) eqn:Hres, (truthy o) eqn:Hobs; cbn [negb].
  - rewrite Htp. cbn [rbind]. eexists. split; [reflexivity |].
    apply (Hrest _ (mkMatrix (TP m + 1) (FP m) (FN m) (TN m))).
    + intros k Hk. unfold counts_of.
      cbn [true_positives false_positives false_negatives true_negatives].
      by rewrite !dict_get_set, Hk.
    + unfold counts_of. cbn [true_positives false_positives false_negatives true_negatives].
      by rewrite dict_get_set, String.eqb_refl, Hfp, Hfn, Htn.
    + unfold update_confusion_matrix. by rewrite Hres, Hobs.
  - rewrite Hfp. cbn [rbind]. eexists. split; [reflexivity |].
    apply (Hrest _ (mkMatrix (TP m) (FP m + 1) (FN m) (TN m))).
    + intros k Hk. unfold counts_of.
      cbn [true_positives false_positives false_negatives true_negatives].
      by rewrite !dict_get_set, Hk.
    + unfold counts_of. cbn [true_positives false_positives false_negatives true_negatives].
      by rewrite dict_get_set, String.eqb_refl, Htp, Hfn, Htn.
    + unfold update_confusion_matrix. by rewrite Hres, Hobs.
  - rewrite Hfn. cbn [rbind]. eexists. split; [reflexivity |].
    apply (Hrest _ (mkMatrix (TP m) (FP m) (FN m + 1) (TN m))).
    + intros k Hk. unfold counts_of.
      cbn [true_positives false_positives false_negatives true_negatives].
      by rewrite !dict_get_set, Hk.
    + unfold counts_of. cbn [true_positives false_positives false_negatives true_negatives].
      by rewrite dict_get_set, String.eqb_refl, Htp, Hfp, Htn.
    + unfold update_confusion_matrix. by rewrite Hres, Hobs.
  - rewrite Htn. cbn [rbind]. eexists. split; [reflexivity |].
    apply (Hrest _ (mkMatrix (TP m) (FP m) (FN m) (TN m + 1))).
    + intros k Hk. unfold counts_of.
      cbn [true_positives false_positives false_negatives true_negatives].
      by rewrite !dict_get_set, Hk.
    + unfold counts_of. cbn [true_positives false_positives false_negatives true_negatives].
      by rewrite dict_get_set, String.eqb_refl, Htp, Hfp, Hfn.
    + unfold update_confusion_matrix. by rewrite Hres, Hobs.
Qed.

Lemma count_forecasts_spec
    (r : metric_result) (o : score) (items : dict score) (acc : dict matrix) (c : Counts) :
  dict_get "observed" r = Some o ->
  complete c ->
  related acc c ->
  exists c',
    count_forecasts r items c = Ok c'
    /\ complete c'
    /\ related (tally_models o items acc) c'.
Proof.
  intros Ho. revert acc c. induction items as [| [k0 p] items IH]; intros acc c Hc Hrel.
  - exists c. split; [reflexivity |]. split; assumption.
  - destruct (count_forecast_spec r k0 p c o Ho Hc) as (c1 & Hstep & Hc1 & Hcells).
    cbn [count_forecasts tally_models]. rewrite Hstep. cbn [rbind].
    destruct (String.eqb_spec k0 "observed") as [Heq | Hobs].
    + apply IH; [exact Hc1 |]. intros k Hk. rewrite Hcells.
      destruct (String.eqb_spec k0 k) as [Hk0 | _]; [congruence | by apply Hrel].
    + apply IH; [exact Hc1 |]. intros k Hk. rewrite Hcells, dict_get_set.
      destruct (String.eqb_spec k0 k) as [Hk0 | _]; [| by apply Hrel].
      subst k. rewrite (Hrel k0 Hobs). reflexivity.
Qed.

Lemma count_days_spec (results : dict day_result) (acc : dict matrix) (c : Counts) :
  Forall (fun data => exists r o, dict_get "smokeday" data = Some r
                                  /\ dict_get "observed" r = Some o)
         (map snd results) ->
  complete c ->
  related acc c ->
  exists c' ms,
    count_days results c = Ok c'
    /\ tally_days (map snd results) acc = Ok ms
    /\ complete c'
    /\ related ms c'.
Proof.
  revert acc c. induction results as [| [day data] results IH]; intros acc c Hall Hc Hrel.
  - exists c, acc. repeat split; assumption.
  - cbn [map snd] in Hall. apply List.Forall_cons_iff in Hall as [(r & o & Hr & Ho) Hall].
    destruct (count_forecasts_spec r o r acc c Ho Hc Hrel) as (c1 & Hstep & Hc1 & Hrel1).
    destruct (IH (tally_models o r acc) c1 Hall Hc1 Hrel1) as (c' & ms & H1 & H2 & H3 & H4).
    exists c', ms. split.
    { cbn [count_days]. unfold dict_item, metric_result in *. rewrite Hr. cbn [rbind].
      rewrite Hstep. cbn [rbind]. exact H1. }
    split; [| by split].
    cbn [map snd tally_days]. unfold metric_result in *. rewrite Hr, Ho. exact H2.
Qed.

(** X19.  The function [confusion_matrix] of [plotters.py] and the tables
    script count alike: on days that all have a smoke-day record with
    the entry "observed", both succeed, and for every model but
    "observed" (which only the former counts, against itself) and
    "airnow" (which the script drops) the four counts are the cells of
    the script's matrix; a model that has no matrix has no counts. *)
Theorem confusion_matrix_agrees_with_tables (results : dict day_result) :
  Forall (fun data => exists r o, dict_get "smokeday" data = Some r
                                  /\ dict_get "observed" r = Some o)
         (map snd results) ->
  exists c ms,
    confusion_matrix results = Ok c
    /\ confusion_matrices (map snd results) = Ok ms
    /\ forall model,
         model <> "observed" ->
         model <> "airnow" ->
         match dict_get model ms with
         | Some m =>
             dict_get model (true_positives c) = Some (TP m)
             /\ dict_get model (false_positives c) = Some (FP m)
             /\ dict_get model (false_negatives c) = Some (FN m)
             /\ dict_get model (true_negatives c) = Some (TN m)
         | None => dict_get model (true_positives c) = None
         end.
Proof.
  intros Hall.
  destruct (count_days_spec results [] no_counts Hall) as (c & ms & H1 & H2 & Hc & Hrel).
  { intros k _. reflexivity. }
  { intros k _. reflexivity. }
  exists c, (dict_remove "airnow" ms).
  split; [exact H1 |]. split; [unfold confusion_matrices; by rewrite H2 |].
  intros model Hobs Hair. rewrite dict_get_remove.
  destruct (String.eqb_spec "airnow" model) as [<- | _]; [congruence |].
  rewrite <- (Hrel model Hobs).
  destruct (counts_of c model) as [m |] eqn:Hm; [by apply counts_of_Some | by apply Hc].
Qed.

Lemma count_forecasts_unobserved (r : metric_result) (items : dict score) (c : Counts) :
  dict_get "observed" r = None ->
  items <> [] ->
  count_forecasts r items c = Raise KeyError.
Proof.
  intros Ho Hne. destruct items as [| [k0 p] items]; [congruence |].
  cbn [count_forecasts]. unfold count_forecast, dict_item. rewrite Ho.
  by destruct (truthy p).
Qed.

Lemma count_forecast_error
    (r : metric_result) (forecast : string) (res : score) (c : Counts) (e : exn) :
  count_forecast r forecast res c = Raise e -> e = KeyError.
Proof.
  unfold count_forecast, increment, dict_item. intros H.
  repeat (case_match; cbn [rbind] in H); congruence.
Qed.

Lemma count_forecasts_error
    (r : metric_result) (items : dict score) (c : Counts) (e : exn) :
  count_forecasts r items c = Raise e -> e = KeyError.
Proof.
  revert c. induction items as [| [k0 p] items IH]; intros c; [discriminate |].
  cbn [count_forecasts].
  destruct (count_forecast r k0 p c) as [c1 | e1] eqn:Hstep; cbn [rbind].
  - apply IH.
  - intros [= <-]. by apply (count_forecast_error r k0 p c).
Qed.

Lemma count_days_unobserved
    (results : dict day_result) (c : Counts)
    (day : string) (data : day_result) (r : metric_result) :
  In (day, data) results ->
  dict_get "smokeday" data = Some r ->
  dict_get "observed" r = None ->
  r <> [] ->
  count_days results c = Raise KeyError.
Proof.
  intros Hin Hr Ho Hne. revert c.
  induction results as [| [d0 data0] results IH]; intros c; [destruct Hin |].
  cbn [count_days]. unfold dict_item.
  destruct (dict_get "smokeday" data0) as [r0 |] eqn:Hr0; [| reflexivity].
  cbn [rbind].
  destruct (count_forecasts r0 r0 c) as [c1 | e1] eqn:Hstep; cbn [rbind].
  - destruct Hin as [[= -> ->] | Hin]; [| by apply IH].
    unfold metric_result in *. rewrite Hr in Hr0. injection Hr0 as <-.
    rewrite (count_forecasts_unobserved r r c Ho Hne) in Hstep. discriminate.
  - by rewrite (count_forecasts_error r0 r0 c e1 Hstep).
Qed.

(** X20.  The two differ when some day's smoke-day record has forecasts but
    no entry "observed": [confusion_matrix] raises [KeyError], while
    the tables script, which reads the entry with the default [False],
    returns its matrices. *)
Theorem confusion_matrix_needs_observed
    (results : dict day_result) (day : string) (data : day_result) (r : metric_result) :
  Forall (fun data => dict_get "smokeday" data <> None) (map snd results) ->
  In (day, data) results ->
  dict_get "smokeday" data = Some r ->
  dict_get "observed" r = None ->
  r <> [] ->
  confusion_matrix results = Raise KeyError
  /\ exists ms, confusion_matrices (map snd results) = Ok ms.
Proof.
  intros Hall Hin Hr Ho Hne. split.
  - by apply (count_days_unobserved results no_counts day data r).
  - destruct (tally_days_counted (map snd results) [] Hall) as (ms & Hrun & _);
      [intros ? ? [=] |].
    exists (dict_remove "airnow" ms). unfold confusion_matrices. by rewrite Hrun.
Qed.

End ConfusionFacts.

Lemma confusion_matrix_agrees_with_tables_witness :
  exists c ms,
    confusion_matrix [ ("2023-06-07", smoke_day_record); ("2023-06-08", complete_day) ] = Ok c
    /\ confusion_matrices [smoke_day_record; complete_day] = Ok ms
    /\ forall model,
         model <> "observed" ->
         model <> "airnow" ->
         match dict_get model ms with
         | Some m =>
             dict_get model (true_positives c) = Some (TP m)
             /\ dict_get model (false_positives c) = Some (FP m)
             /\ dict_get model (false_negatives c) = Some (FN m)
             /\ dict_get model (true_negatives c) = Some (TN m)
         | None => dict_get model (true_positives c) = None
         end.
Proof.
  apply (confusion_matrix_agrees_with_tables
           [ ("2023-06-07", smoke_day_record); ("2023-06-08", complete_day) ]).
  repeat constructor; eexists; eexists; split; reflexivity.
Defined.

Lemma confusion_matrix_needs_observed_witness :
  confusion_matrix [ ("2023-06-07", complete_day); ("2023-06-08", unobserved_day) ]
  = Raise KeyError
  /\ exists ms, confusion_matrices [complete_day; unobserved_day] = Ok ms.
Proof.
  apply (confusion_matrix_needs_observed
           [ ("2023-06-07", complete_day); ("2023-06-08", unobserved_day) ]
           "2023-06-08" unobserved_day [ ("cams", bool_score true) ]).
  - repeat constructor; discriminate.
  - right. left. reflexivity.
  - reflexivity.
  - reflexivity.
  - discriminate.
Defined.
